(** * Purchase-order page composer (app.py): helpers and document assembly

    A shallow embedding of the helper functions [eur_fmt], [scale_mm],
    [clean], [sanitize_filename] and of the document assembly done by
    [build_pdf], followed by the properties the specification states
    about them.

    Modelling conventions.
    - A Python [str] is a [string] whose characters are code points
      below 256; the whitespace, lower-casing and digit tables below are
      the ones CPython uses on that range.
    - A Python [float] is a binary64 value, written as a [spec_float]
      with precision 53 and maximal exponent 1024; the arithmetic is the
      IEEE-754 round-to-nearest-even arithmetic of [SpecFloat].
    - A Python [int] is a [Z].
    - Code that can raise returns a [result]; a [try ... except
      Exception] block is a match on it.
    - [build_pdf] is followed up to the page template and the list of
      flowables it hands to the PDF library. *)

From Stdlib Require Import ZArith List String Ascii Bool Lia.
From Stdlib Require Import Floats.SpecFloat.
From Stdlib Require Import QArith Field.
From Stdlib Require DecimalPos.
Import ListNotations.

Local Open Scope Z_scope.
Local Open Scope string_scope.

(* ================================================================== *)
(** ** Exceptions *)

Inductive exn : Type :=
| TypeError
| ValueError
| OverflowError
| ZeroDivisionError.

Inductive result (A : Type) : Type :=
| Ok (a : A)
| Raise (e : exn).

Arguments Ok {A} a.
Arguments Raise {A} e.

Definition bind {A B : Type} (m : result A) (k : A -> result B) : result B :=
  match m with
  | Ok a => k a
  | Raise e => Raise e
  end.

Notation "x <- m ;; k" := (bind m (fun x => k))
  (at level 61, m at next level, right associativity).

Fixpoint mapM {A B : Type} (f : A -> result B) (l : list A) : result (list B) :=
  match l with
  | [] => Ok []
  | x :: r => y <- f x ;; ys <- mapM f r ;; Ok (y :: ys)
  end.

Definition raises {A : Type} (m : result A) : bool :=
  match m with
  | Ok _ => false
  | Raise _ => true
  end.

(* ================================================================== *)
(** ** Strings *)

Module Str.

Definition code (c : ascii) : N := N_of_ascii c.

Definition in_range (lo hi : N) (c : ascii) : bool :=
  ((lo <=? code c) && (code c <=? hi))%N.

(** [Py_UNICODE_ISSPACE] on code points below 256: TAB..CR, FS..US,
    SPACE, NEL (0x85) and NBSP (0xA0).  [str.strip] and the regular
    expression class [\s] both use it. *)
Definition is_space (c : ascii) : bool :=
  in_range 9 13 c || in_range 28 32 c || (code c =? 133)%N || (code c =? 160)%N.

Definition is_digit (c : ascii) : bool := in_range 48 57 c.
Definition is_upper_az (c : ascii) : bool := in_range 65 90 c.
Definition is_lower_az (c : ascii) : bool := in_range 97 122 c.

(** [str.lower] on one code point below 256: A-Z and the Latin-1
    capitals 0xC0-0xDE (the multiplication sign 0xD7 apart) move up by
    32. *)
Definition lower_char (c : ascii) : ascii :=
  if is_upper_az c || (in_range 192 222 c && negb (code c =? 215)%N)
  then ascii_of_N (code c + 32)
  else c.

Fixpoint map (f : ascii -> ascii) (s : string) : string :=
  match s with
  | EmptyString => EmptyString
  | String c r => String (f c) (map f r)
  end.

Definition lower (s : string) : string := map lower_char s.

Fixpoint all (p : ascii -> bool) (s : string) : bool :=
  match s with
  | EmptyString => true
  | String c r => p c && all p r
  end.

(** Removal of the leading, then of the trailing, characters that
    satisfy [p]. *)
Fixpoint lstrip_by (p : ascii -> bool) (s : string) : string :=
  match s with
  | EmptyString => EmptyString
  | String c r => if p c then lstrip_by p r else s
  end.

Fixpoint rstrip_by (p : ascii -> bool) (s : string) : string :=
  match s with
  | EmptyString => EmptyString
  | String c r =>
      match rstrip_by p r with
      | EmptyString => if p c then EmptyString else String c EmptyString
      | r' => String c r'
      end
  end.

Definition strip_by (p : ascii -> bool) (s : string) : string :=
  rstrip_by p (lstrip_by p s).

(** [s.strip()] *)
Definition strip (s : string) : string := strip_by is_space s.

(** [s.replace(old, new)] for a one-character [old]. *)
Fixpoint replace (old : ascii) (new : string) (s : string) : string :=
  match s with
  | EmptyString => EmptyString
  | String c r =>
      if Ascii.eqb c old then new ++ replace old new r
      else String c (replace old new r)
  end.

(** [sep.join(parts)] *)
Fixpoint join (sep : string) (parts : list string) : string :=
  match parts with
  | [] => EmptyString
  | [p] => p
  | p :: rest => p ++ sep ++ join sep rest
  end.

(** [s in tuple] *)
Definition mem (s : string) (l : list string) : bool :=
  existsb (String.eqb s) l.

(** Truth value of a [str]. *)
Definition truthy (s : string) : bool :=
  match s with
  | EmptyString => false
  | _ => true
  end.

Fixpoint rev_onto (s acc : string) : string :=
  match s with
  | EmptyString => acc
  | String c r => rev_onto r (String c acc)
  end.

Fixpoint startswith (s pre : string) {struct pre} : bool :=
  match pre, s with
  | EmptyString, _ => true
  | String a pre', String b s' => Ascii.eqb a b && startswith s' pre'
  | String _ _, EmptyString => false
  end.

(** [s.endswith(suffix)] *)
Definition endswith (s suffix : string) : bool :=
  startswith (rev_onto s EmptyString) (rev_onto suffix EmptyString).

End Str.

(* ================================================================== *)
(** ** Text cells and [clean] *)

(** What [clean] is handed for a free-text field: the text typed in the
    form, the float NaN pandas puts in a cell the line does not have, or
    [None]. *)
Inductive cell : Type :=
| CNone
| CNaN
| CStr (s : string).

(** [pd.isna(val)] *)
Definition pd_isna (val : cell) : bool :=
  match val with
  | CStr _ => false
  | _ => true
  end.

(** [str(val)] *)
Definition cell_str (val : cell) : string :=
  match val with
  | CNone => "None"
  | CNaN => "nan"
  | CStr s => s
  end.

Definition clean (val : cell) : string :=
  match val with
  | CNone => ""
  | _ =>
      if pd_isna val then ""
      else
        let sval := Str.strip (cell_str val) in
        if Str.mem (Str.lower sval) ["nan"; "none"; "null"] then ""
        else sval
  end.

(* ================================================================== *)
(** ** Binary64 floats *)

Module F.

Definition prec : Z := 53.
Definition emax : Z := 1024.

Definition add : spec_float -> spec_float -> spec_float := SFadd prec emax.
Definition mul : spec_float -> spec_float -> spec_float := SFmul prec emax.
Definition div : spec_float -> spec_float -> spec_float := SFdiv prec emax.

Definition zero : spec_float := S754_zero false.

Definition one : spec_float := binary_normalize prec emax 1 0 false.

Definition is_finite (f : spec_float) : bool :=
  match f with
  | S754_zero _ | S754_finite _ _ _ => true
  | _ => false
  end.

Definition is_zero (f : spec_float) : bool :=
  match f with
  | S754_zero _ => true
  | _ => false
  end.

(** The integer [z] rounded to the nearest binary64 (ties to even);
    an infinity when it is out of range. *)
Definition of_Z (z : Z) : spec_float := binary_normalize prec emax z 0 false.

(** The quotient [n / d] of two integers rounded to the nearest
    binary64 (ties to even), the sign of a zero result given by [neg]. *)
Definition of_ratio (neg : bool) (n : N) (d : positive) : spec_float :=
  match n with
  | N0 => S754_zero neg
  | Npos p => div (S754_finite neg p 0) (S754_finite false d 0)
  end.

(** The decimal [m * 10^k] rounded to the nearest binary64: the value
    of a decimal literal and of a parsed decimal string. *)
Definition of_decimal (neg : bool) (m : N) (k : Z) : spec_float :=
  match k with
  | Zneg p => of_ratio neg m (10 ^ p)%positive
  | _ =>
      match m with
      | N0 => S754_zero neg
      | Npos q => binary_round prec emax neg (q * Z.to_pos (10 ^ k))%positive 0
      end
  end.

(** [int(f)] on a finite float: truncation towards zero. *)
Definition trunc (f : spec_float) : Z :=
  match f with
  | S754_finite s m e =>
      let a := match e with
               | Zneg p => Zpos m / 2 ^ Zpos p
               | _ => Zpos m * 2 ^ e
               end in
      if s then - a else a
  | _ => 0
  end.

End F.

(* ================================================================== *)
(** ** Decimal digits *)

Definition digit_char (n : N) : ascii := ascii_of_N (48 + n).

Fixpoint uint_chars (d : Decimal.uint) : list ascii :=
  match d with
  | Decimal.Nil => []
  | Decimal.D0 r => digit_char 0 :: uint_chars r
  | Decimal.D1 r => digit_char 1 :: uint_chars r
  | Decimal.D2 r => digit_char 2 :: uint_chars r
  | Decimal.D3 r => digit_char 3 :: uint_chars r
  | Decimal.D4 r => digit_char 4 :: uint_chars r
  | Decimal.D5 r => digit_char 5 :: uint_chars r
  | Decimal.D6 r => digit_char 6 :: uint_chars r
  | Decimal.D7 r => digit_char 7 :: uint_chars r
  | Decimal.D8 r => digit_char 8 :: uint_chars r
  | Decimal.D9 r => digit_char 9 :: uint_chars r
  end.

(** The decimal digits of [n], most significant first, no leading
    zero ([0] is the one digit 0). *)
Definition digits_of_N (n : N) : list ascii := uint_chars (N.to_uint n).

(** [str(z)] for an [int]. *)
Definition str_of_Z (z : Z) : string :=
  match z with
  | Zneg p => String "-" (string_of_list_ascii (digits_of_N (Npos p)))
  | _ => string_of_list_ascii (digits_of_N (Z.to_N z))
  end.

(* ================================================================== *)
(** ** The format specification [,.2f] *)

(** [m * 2^e * 100] rounded to the nearest integer, ties to even:
    the number of hundredths the two-decimal rendering shows. *)
Definition hundredths (m : positive) (e : Z) : N :=
  match e with
  | Zneg p =>
      let n := (Npos m * 100)%N in
      let d := (2 ^ Npos p)%N in
      let q := (n / d)%N in
      let r := (n mod d)%N in
      match (2 * r ?= d)%N with
      | Lt => q
      | Gt => (q + 1)%N
      | Eq => if N.even q then q else (q + 1)%N
      end
  | _ => (Npos m * 2 ^ Z.to_N e * 100)%N
  end.

(** Thousands grouping of an integer part given least significant
    digit first: a separator after every third digit that has a digit
    after it. *)
Fixpoint group3 (sep : ascii) (ds : list ascii) : list ascii :=
  match ds with
  | a :: b :: c :: ((_ :: _) as rest) => a :: b :: c :: sep :: group3 sep rest
  | _ => ds
  end.

Definition two_digits (n : N) : list ascii :=
  [digit_char (n / 10); digit_char (n mod 10)]%N.

(** The rendering of [h] hundredths: integer part grouped with
    [thousands], the mark [point], two decimals. *)
Definition fixed2 (thousands point : ascii) (h : N) : list ascii :=
  (rev (group3 thousands (rev (digits_of_N (h / 100))))
   ++ point :: two_digits (h mod 100))%list.

Definition sign_chars (neg : bool) : list ascii :=
  if neg then ["-"%char] else [].

(** [f"{v:,.2f}"] *)
Definition format_comma_2f (v : spec_float) : string :=
  match v with
  | S754_nan => "nan"
  | S754_infinity s => if s then "-inf" else "inf"
  | S754_zero s => string_of_list_ascii (sign_chars s ++ fixed2 "," "." 0)
  | S754_finite s m e =>
      string_of_list_ascii (sign_chars s ++ fixed2 "," "." (hundredths m e))
  end.

(* ================================================================== *)
(** ** Python values and numbers *)

Inductive pyval : Type :=
| VNone
| VBool (b : bool)
| VInt (z : Z)
| VFloat (f : spec_float)
| VStr (s : string).

(** Truth value, as [x or default] and [if x] test it. *)
Definition truthy (x : pyval) : bool :=
  match x with
  | VNone => false
  | VBool b => b
  | VInt z => negb (z =? 0)%Z
  | VFloat f => negb (F.is_zero f)
  | VStr s => Str.truthy s
  end.

(** [x or d] *)
Definition py_or (x d : pyval) : pyval := if truthy x then x else d.

(** Conversion of an [int] to a [float]; [OverflowError] when the
    integer is too large. *)
Definition float_of_int (z : Z) : result spec_float :=
  match F.of_Z z with
  | S754_infinity _ => Raise OverflowError
  | f => Ok f
  end.

Module Parse.

(** The whitespace [float] and [int] skip around a number given as a
    [str]: the C-locale whitespace TAB..CR and SPACE, and the
    non-ASCII whitespace (NEL, NBSP), which is first rewritten to a
    space.  The separators FS..US are not skipped. *)
Definition is_space (c : ascii) : bool :=
  Str.in_range 9 13 c || (Str.code c =? 32)%N
  || (Str.code c =? 133)%N || (Str.code c =? 160)%N.

Definition strip (s : string) : string := Str.strip_by is_space s.

Definition ascii_lower_char (c : ascii) : ascii :=
  if Str.is_upper_az c then ascii_of_N (Str.code c + 32) else c.

Definition digit_val (c : ascii) : N := (Str.code c - 48)%N.

Definition digits_value (ds : list ascii) : N :=
  fold_left (fun acc c => (acc * 10 + digit_val c)%N) ds 0%N.

Fixpoint take_digits (l : list ascii) : list ascii * list ascii :=
  match l with
  | c :: r =>
      if Str.is_digit c
      then let (d, rest) := take_digits r in (c :: d, rest)
      else ([], l)
  | [] => ([], [])
  end.

(** An underscore is accepted only between two digits; accepted
    underscores are dropped.  [prev] is the character before. *)
Fixpoint drop_underscores (prev : ascii) (l : list ascii) : option (list ascii) :=
  match l with
  | [] => if Ascii.eqb prev "_" then None else Some []
  | c :: r =>
      if Ascii.eqb c "_" then
        if Str.is_digit prev then drop_underscores c r else None
      else if Ascii.eqb prev "_" && negb (Str.is_digit c) then None
      else option_map (cons c) (drop_underscores c r)
  end%char.

Definition take_sign (l : list ascii) : bool * list ascii :=
  match l with
  | "-" :: r => (true, r)
  | "+" :: r => (false, r)
  | _ => (false, l)
  end%char.

(** digits [. digits] [(e|E) [sign] digits], at least one digit before
    the exponent, nothing after: mantissa and power of ten. *)
Definition decimal (l : list ascii) : option (N * Z) :=
  let (ip, r1) := take_digits l in
  let (fp, r2) := match r1 with
                  | "." :: r => take_digits r
                  | _ => ([], r1)
                  end%char in
  match (ip ++ fp)%list with
  | [] => None
  | ds =>
      let m := digits_value ds in
      let k := - Z.of_nat (List.length fp) in
      match r2 with
      | [] => Some (m, k)
      | c :: r3 =>
          if Ascii.eqb (ascii_lower_char c) "e" then
            let (eneg, r4) := take_sign r3 in
            match take_digits r4 with
            | ((_ :: _) as ed, []) =>
                let x := Z.of_N (digits_value ed) in
                Some (m, (if eneg then - x else x) + k)
            | _ => None
            end
          else None
      end
  end.

Definition inf_or_nan (neg : bool) (l : list ascii) : option spec_float :=
  let w := string_of_list_ascii (List.map ascii_lower_char l) in
  if String.eqb w "inf" || String.eqb w "infinity" then Some (S754_infinity neg)
  else if String.eqb w "nan" then Some S754_nan
  else None.

(** [float(s)] for a [str]. *)
Definition float_of_string (s : string) : result spec_float :=
  match drop_underscores zero (list_ascii_of_string (strip s)) with
  | None => Raise ValueError
  | Some l =>
      let (neg, body) := take_sign l in
      match decimal body with
      | Some (m, k) => Ok (F.of_decimal neg m k)
      | None =>
          match inf_or_nan neg body with
          | Some f => Ok f
          | None => Raise ValueError
          end
      end
  end.

(** [int(s)] for a [str], base ten. *)
Definition int_of_string (s : string) : result Z :=
  match drop_underscores zero (list_ascii_of_string (strip s)) with
  | None => Raise ValueError
  | Some l =>
      let (neg, body) := take_sign l in
      match take_digits body with
      | ((_ :: _) as ds, []) =>
          let x := Z.of_N (digits_value ds) in
          Ok (if neg then - x else x)
      | _ => Raise ValueError
      end
  end.

End Parse.

(** [float(x)] *)
Definition py_float (x : pyval) : result spec_float :=
  match x with
  | VNone => Raise TypeError
  | VBool b => Ok (F.of_Z (if b then 1 else 0))
  | VInt z => float_of_int z
  | VFloat f => Ok f
  | VStr s => Parse.float_of_string s
  end.

(** [int(x)] *)
Definition py_int (x : pyval) : result Z :=
  match x with
  | VNone => Raise TypeError
  | VBool b => Ok (if b then 1 else 0)
  | VInt z => Ok z
  | VFloat f =>
      match f with
      | S754_nan => Raise ValueError
      | S754_infinity _ => Raise OverflowError
      | _ => Ok (F.trunc f)
      end
  | VStr s => Parse.int_of_string s
  end.

(* ================================================================== *)
(** ** [eur_fmt] *)

(** The [except Exception] branch returns the empty string; the
    formatting and the three replacements follow the [try] block. *)
Definition eur_fmt (x : pyval) : result string :=
  match py_float x with
  | Raise _ => Ok ""
  | Ok v =>
      let s := format_comma_2f v in
      let s := Str.replace "," "_" s in
      let s := Str.replace "." "," s in
      let s := Str.replace "_" "." s in
      Ok s
  end.

(* ================================================================== *)
(** ** Numbers and [scale_mm] *)

(** The numbers [scale_mm] computes with: [int] and [float]. *)
Inductive num : Type :=
| NInt (z : Z)
| NFloat (f : spec_float).

Definition num_to_float (a : num) : result spec_float :=
  match a with
  | NInt z => float_of_int z
  | NFloat f => Ok f
  end.

(** [a + b] *)
Definition num_add (a b : num) : result num :=
  match a, b with
  | NInt x, NInt y => Ok (NInt (x + y))
  | _, _ => x <- num_to_float a ;; y <- num_to_float b ;; Ok (NFloat (F.add x y))
  end.

(** [a * b] *)
Definition num_mul (a b : num) : result num :=
  match a, b with
  | NInt x, NInt y => Ok (NInt (x * y))
  | _, _ => x <- num_to_float a ;; y <- num_to_float b ;; Ok (NFloat (F.mul x y))
  end.

(** [a / b]: true division, always a float. *)
Definition num_truediv (a b : num) : result num :=
  match a, b with
  | NInt x, NInt y =>
      match y with
      | Z0 => Raise ZeroDivisionError
      | _ =>
          match F.of_ratio (xorb (x <? 0)%Z (y <? 0)%Z) (Z.abs_N x) (Z.to_pos (Z.abs y)) with
          | S754_infinity _ => Raise OverflowError
          | f => Ok (NFloat f)
          end
      end
  | _, _ =>
      x <- num_to_float a ;;
      y <- num_to_float b ;;
      if F.is_zero y then Raise ZeroDivisionError else Ok (NFloat (F.div x y))
  end.

(** Exact comparison of an [int] with a [float]; [None] on NaN. *)
Definition int_float_compare (z : Z) (f : spec_float) : option comparison :=
  match f with
  | S754_nan => None
  | S754_infinity s => Some (if s then Gt else Lt)
  | S754_zero _ => Some (z ?= 0)%Z
  | S754_finite s m e =>
      let v := if s then Zneg m else Zpos m in
      match e with
      | Zneg p => Some (z * 2 ^ Zpos p ?= v)%Z
      | _ => Some (z ?= v * 2 ^ e)%Z
      end
  end.

Definition num_compare (a b : num) : option comparison :=
  match a, b with
  | NInt x, NInt y => Some (x ?= y)%Z
  | NFloat x, NFloat y => SFcompare x y
  | NInt x, NFloat y => int_float_compare x y
  | NFloat x, NInt y => option_map CompOpp (int_float_compare y x)
  end.

(** [a <= b] *)
Definition num_leb (a b : num) : bool :=
  match num_compare a b with
  | Some (Lt | Eq) => true
  | _ => false
  end.

(** [a < b] *)
Definition num_ltb (a b : num) : bool :=
  match num_compare a b with
  | Some Lt => true
  | _ => false
  end.

(** [scale_mm] is written against whatever its arguments support:
    [+] (through [sum], which starts from the integer 0), [<=] against
    0, [/] and [*].  [Number] is that interface. *)
Class Number (A : Type) : Type := {
  of_int0 : A;
  n_add : A -> A -> result A;
  n_mul : A -> A -> result A;
  n_truediv : A -> A -> result A;
  n_leb : A -> A -> bool
}.

(** [int] and [float] operands. *)
#[export] Instance num_Number : Number num := {
  of_int0 := NInt 0;
  n_add := num_add;
  n_mul := num_mul;
  n_truediv := num_truediv;
  n_leb := num_leb
}.

(** Exact rationals ([fractions.Fraction] operands). *)
#[export] Instance Q_Number : Number Q := {
  of_int0 := 0%Q;
  n_add := fun a b => Ok (a + b)%Q;
  n_mul := fun a b => Ok (a * b)%Q;
  n_truediv := fun a b => if Qeq_bool b 0 then Raise ZeroDivisionError else Ok (a / b)%Q;
  n_leb := Qle_bool
}.

Fixpoint sum_from {A : Type} `{Number A} (acc : A) (l : list A) : result A :=
  match l with
  | [] => Ok acc
  | w :: r => acc' <- n_add acc w ;; sum_from acc' r
  end.

(** [sum(l)]: left to right from the integer 0. *)
Definition py_sum {A : Type} `{Number A} (l : list A) : result A := sum_from of_int0 l.

Definition scale_mm {A : Type} `{Number A} (widths_mm : list A) (target_total_mm : A)
  : result (list A) :=
  s <- py_sum widths_mm ;;
  if n_leb s of_int0 then Ok widths_mm
  else
    f <- n_truediv target_total_mm s ;;
    mapM (fun w => n_mul w f) widths_mm.

(* ================================================================== *)
(** ** [sanitize_filename] *)

(** A character of the class [A-Za-z0-9\-\_\s\.]. *)
Definition kept_char (c : ascii) : bool :=
  Str.is_upper_az c || Str.is_lower_az c || Str.is_digit c
  || Ascii.eqb c "-" || Ascii.eqb c "_" || Str.is_space c || Ascii.eqb c ".".

(** [re.sub(r"[^A-Za-z0-9\-\_\s\.]", "", s)] *)
Fixpoint sub_unsafe (s : string) : string :=
  match s with
  | EmptyString => EmptyString
  | String c r => if kept_char c then String c (sub_unsafe r) else sub_unsafe r
  end.

(** [re.sub(r"\s+", "_", s)]: every maximal run of whitespace becomes
    one underscore; [in_run] says the character before was whitespace. *)
Fixpoint sub_space_runs (in_run : bool) (s : string) : string :=
  match s with
  | EmptyString => EmptyString
  | String c r =>
      if Str.is_space c then
        if in_run then sub_space_runs true r
        else String "_" (sub_space_runs true r)
      else String c (sub_space_runs false r)
  end.

Definition sanitize_filename (name : string) : string :=
  let name := Str.strip name in
  let name := if Str.truthy name then name else "supplier_order" in
  let safe := sub_unsafe name in
  let safe := sub_space_runs false safe in
  if negb (Str.endswith (Str.lower safe) ".pdf") then safe ++ ".pdf" else safe.

(* ================================================================== *)
(** ** Line items and the article text *)

(** One row of the line-item frame; each field is what
    [row.get(column, default)] returns for it. *)
Record row : Type := {
  product_group : cell;
  model : cell;
  color : cell;
  wall_build : cell;
  drain : cell;
  note : cell;
  quantity : pyval;
  net_price : pyval;
  total : pyval
}.

(** [parts.append(x)] *)
Definition append {A : Type} (l : list A) (x : A) : list A := (l ++ [x])%list.

(** The [parts] list of the row loop, appended to in source order. *)
Definition article_parts (t : row) : list string :=
  let pg := clean (product_group t) in
  let model := clean (model t) in
  let color := clean (color t) in
  let wall := clean (wall_build t) in
  let drain := clean (drain t) in
  let parts := [] in
  let parts := if Str.truthy pg then append parts pg else parts in
  let parts := if Str.truthy model then append parts ("Mod. " ++ model) else parts in
  let parts := if Str.truthy wall then append parts ("(" ++ wall ++ ")") else parts in
  let parts := if Str.truthy color then append parts color else parts in
  let parts :=
    if String.eqb pg "Bins" && Str.truthy drain
       && negb (String.eqb (Str.lower drain) "none")
    then append parts ("drain: " ++ drain) else parts in
  parts.

Definition article (t : row) : string :=
  Str.join ", " (article_parts t).

Definition dquote : string := String (ascii_of_N 34) EmptyString.

(* ================================================================== *)
(** ** The document built by [build_pdf] *)

Record meta : Type := {
  company : string;
  contact_person : string;
  tel : string;
  email : string;
  order_no : string;
  your_order_ref : string;
  date_str : string;
  ship_to : string;
  bill_to : string;
  vat_id : string;
  vat_rate : spec_float;
  footer_left : string;
  footer_right_extra : string
}.

(** [ParagraphStyle(name, fontSize, leading)] *)
Record pstyle : Type := {
  style_name : string;
  fontSize : Z;
  leading : Z
}.

(** A table cell: a plain string or a [Paragraph]. *)
Inductive tcell : Type :=
| Text (s : string)
| Par (text : string) (style : pstyle).

(** The flowables of the story.  A table carries its rows, its column
    widths in points and the size of its [FONTSIZE] commands, if any;
    the constant grid, padding, alignment and background commands are
    not represented. *)
Inductive flowable : Type :=
| Table (data : list (list tcell)) (colWidths : list num) (font : option Z)
| Spacer (width height : Z)
| Paragraph (text : string) (style : pstyle).

(** What [build_pdf] hands to the page renderer: the page template and
    the story.  The renderer itself ([SimpleDocTemplate.build]) belongs
    to the PDF library and is not part of this development. *)
Record document : Type := {
  pagesize : num * num;
  leftMargin : num;
  rightMargin : num;
  topMargin : num;
  bottomMargin : num;
  story : list flowable
}.

(** [reportlab.lib.units.mm]: [inch = 72.0], [cm = inch / 2.54],
    [mm = cm * 0.1]. *)
Definition mm : spec_float :=
  F.mul (F.div (F.of_Z 72) (F.of_decimal false 254 (-2))) (F.of_decimal false 1 (-1)).

(** [k*mm] for an integer literal [k]. *)
Definition times_mm (k : Z) : num := NFloat (F.mul (F.of_Z k) mm).

(** [s.replace("\n", "<br/>")] *)
Definition br (s : string) : string := Str.replace (ascii_of_N 10) "<br/>" s.

(** [rows = max(1, len(lines_df))], from the length. *)
Definition rows (len : nat) : Z := Z.max 1 (Z.of_nat len).

Definition body_font (rows : Z) : Z :=
  if (rows <=? 18)%Z then 8 else if (rows <=? 24)%Z then 7 else 6.

Definition small_font (body_font : Z) : Z :=
  if (7 <=? body_font)%Z then 7 else 6.

Definition Normal8 : pstyle := {| style_name := "Normal8"; fontSize := 8; leading := 10 |}.

Definition Cell (body_font : Z) : pstyle :=
  {| style_name := "Cell"; fontSize := body_font; leading := body_font + 1 |}.

Definition Tiny (small_font : Z) : pstyle :=
  {| style_name := "Tiny"; fontSize := small_font; leading := small_font + 1 |}.

Definition header : list tcell :=
  [Text "Pos."; Text "Quantity"; Text "Article"; Text "Note"; Text "VAT %";
   Text "Net price (EUR)"; Text "Total (EUR)"].

Definition base_mm : list num := List.map NInt [10; 18; 85; 35; 12; 30; 30].

Definition target_total_mm : num := NInt 180.

(** [f"{int(meta['vat_rate']*100)}%"] without the percent sign. *)
Definition vat_percent (m : meta) : result string :=
  p <- py_int (VFloat (F.mul (vat_rate m) (F.of_Z 100))) ;;
  Ok (str_of_Z p).

(** The variables the row loop updates. *)
Record loop_state : Type := {
  data : list (list tcell);
  pos : Z;
  net_sum : spec_float
}.

(** [float(row.get("Total", 0.0) or 0.0)] *)
Definition read_total (r : row) : result spec_float :=
  py_float (py_or (total r) (VFloat F.zero)).

(** [float(row.get("Net price", 0.0) or 0.0)] *)
Definition read_net (r : row) : result spec_float :=
  py_float (py_or (net_price r) (VFloat F.zero)).

(** [int(row.get("Quantity", 0) or 0)] *)
Definition read_quantity (r : row) : result Z :=
  py_int (py_or (quantity r) (VInt 0)).

(** One turn of [for _, row in lines_df.iterrows()]. *)
Definition loop_body (m : meta) (body_font : Z) (st : loop_state) (r : row)
  : result loop_state :=
  let note := clean (note r) in
  let article := article r in
  net <- read_net r ;;
  total <- read_total r ;;
  let net_sum := F.add (net_sum st) total in
  q <- read_quantity r ;;
  pct <- vat_percent m ;;
  enet <- eur_fmt (VFloat net) ;;
  etotal <- eur_fmt (VFloat total) ;;
  Ok {| data := append (data st)
                  [Text (str_of_Z (pos st));
                   Text (str_of_Z q);
                   Par article (Cell body_font);
                   Par note (Cell body_font);
                   Text (pct ++ "%");
                   Text enet;
                   Text etotal];
        pos := pos st + 1;
        net_sum := net_sum |}.

Fixpoint row_loop (m : meta) (body_font : Z) (st : loop_state) (lines_df : list row)
  : result loop_state :=
  match lines_df with
  | [] => Ok st
  | r :: rest => st' <- loop_body m body_font st r ;; row_loop m body_font st' rest
  end.

Definition sender_block : string :=
  "<b>ROTOGAL, S.L.U.</b><br/>POL. IND. ESPI" ++ String (ascii_of_N 209) "ERIA, PARC.36B"
  ++ "<br/>15930 Boiro, A Coru" ++ String (ascii_of_N 241) "a<br/>Spain".

Definition disclaimer : string :=
  "Customer protection, neutrality and on-time delivery are taken for granted. "
  ++ "Please make sure to give Rotogal reference numbers with any query (invoice, delivery note). "
  ++ "We kindly ask for a written confirmation of order.".

Definition build_pdf (m : meta) (lines_df : list row) : result document :=
  let rows := rows (List.length lines_df) in
  let body_font := body_font rows in
  let small_font := small_font body_font in
  let story := [] in
  let right_header := "<b>Order</b><br/>Our Order No.: " ++ order_no m in
  let right_header :=
    if Str.truthy (your_order_ref m)
    then right_header ++ "<br/>Your order ref.: " ++ your_order_ref m
    else right_header in
  let right_header := right_header ++ "<br/>VAT ID: " ++ vat_id m in
  let title_table :=
    Table [[Par sender_block Normal8; Par right_header Normal8]]
          [times_mm 100; times_mm 70] None in
  let story := append story title_table in
  let story := append story (Spacer 1 3) in
  let shipping_html :=
    if Str.truthy (ship_to m) then br (clean (CStr (ship_to m))) else "" in
  let billing_html := br (clean (CStr (bill_to m))) in
  let meta_table :=
    Table [[Par ("<b>Shipping address:</b><br/>" ++ shipping_html) Normal8;
            Par ("<b>Billing address:</b><br/>" ++ billing_html) Normal8;
            Par ("Page: 1<br/>Date: " ++ date_str m ++ "<br/>Contact person: "
                 ++ contact_person m) Normal8]]
          [times_mm 65; times_mm 65; times_mm 40] None in
  let story := append story meta_table in
  let story := append story (Spacer 1 4) in
  col_w_mm <- scale_mm base_mm target_total_mm ;;
  col_w_pts <- mapM (fun w => num_mul w (NFloat mm)) col_w_mm ;;
  st <- row_loop m body_font {| data := [header]; pos := 1; net_sum := F.zero |} lines_df ;;
  let tbl := Table (data st) col_w_pts (Some body_font) in
  let story := append story tbl in
  let story := append story (Spacer 1 4) in
  let vat_amount := F.mul (net_sum st) (vat_rate m) in
  let gross := F.add (net_sum st) vat_amount in
  enet <- eur_fmt (VFloat (net_sum st)) ;;
  pct <- vat_percent m ;;
  evat <- eur_fmt (VFloat vat_amount) ;;
  egross <- eur_fmt (VFloat gross) ;;
  let totals_table :=
    Table [[Text "Net price:"; Text enet; Text "EUR"];
           [Text ("VAT (" ++ pct ++ "%):"); Text evat; Text "EUR"];
           [Text "Gross price:"; Text egross; Text "EUR"]]
          [times_mm 60; times_mm 30; times_mm 30] (Some body_font) in
  let story := append story totals_table in
  let story := append story (Spacer 1 4) in
  let story := append story (Paragraph disclaimer (Tiny small_font)) in
  let story := append story (Spacer 1 4) in
  let footer_right := "VAT ID: " ++ vat_id m ++ String (ascii_of_N 10) "" ++ footer_right_extra m in
  let footer_table :=
    Table [[Par (br (footer_left m)) (Tiny small_font);
            Par (br footer_right) (Tiny small_font)]]
          [times_mm 90; times_mm 90] None in
  let story := append story footer_table in
  Ok {| pagesize := (times_mm 210, times_mm 297);
        leftMargin := times_mm 15;
        rightMargin := times_mm 15;
        topMargin := times_mm 12;
        bottomMargin := times_mm 12;
        story := story |}.

(* ================================================================== *)
(** ** Specification-side definitions *)

(** A free-text value the specification calls absent: missing, empty
    or made of whitespace only, or, once trimmed, equal to nan, none or
    null whatever the letter case. *)
Definition blank (v : cell) : bool :=
  match v with
  | CStr s =>
      Str.all Str.is_space s
      || Str.mem (Str.lower (Str.strip s)) ["nan"; "none"; "null"]
  | _ => true
  end.

Definition part_if (present : bool) (text : string) : list string :=
  if present then [text] else [].

(** The article text as the specification words it, over the
    normalised fields. *)
Definition article_spec (r : row) : string :=
  let group := clean (product_group r) in
  let model := clean (model r) in
  let wallBuild := clean (wall_build r) in
  let color := clean (color r) in
  let drain := clean (drain r) in
  Str.join ", "
    (part_if (Str.truthy group) group
     ++ part_if (Str.truthy model) ("Mod. " ++ model)
     ++ part_if (Str.truthy wallBuild) ("(" ++ wallBuild ++ ")")
     ++ part_if (Str.truthy color) color
     ++ part_if (String.eqb group "Bins" && Str.truthy drain
                 && negb (String.eqb drain "None"))
                ("drain: " ++ drain))%list.

Definition bins_example : row :=
  {| product_group := CStr "Bins"; model := CStr "BI-565"; color := CStr "Blue";
     wall_build := CStr "EPE"; drain := CStr ("1" ++ dquote ++ " drain");
     note := CStr ""; quantity := VInt 1; net_price := VFloat F.zero;
     total := VFloat F.zero |}.

Definition lids_example : row :=
  {| product_group := CStr "Lids"; model := CStr ""; color := CStr "nan";
     wall_build := CNaN; drain := CNaN;
     note := CStr ""; quantity := VInt 1; net_price := VFloat F.zero;
     total := VFloat F.zero |}.

(** The end of an integer part read from its least significant
    digit: nothing more, or the minus sign. *)
Definition sign_end (l : list ascii) : bool :=
  match l with
  | [] => true
  | [c] => Ascii.eqb c "-"
  | _ => false
  end.

(** An integer part read from its least significant digit: groups of
    three digits separated by [sep], the most significant group of one
    to three digits, then an optional minus sign. *)
Fixpoint int_part_ok (sep : ascii) (l : list ascii) : bool :=
  match l with
  | a :: r1 =>
      Str.is_digit a &&
      (sign_end r1 ||
       match r1 with
       | b :: r2 =>
           Str.is_digit b &&
           (sign_end r2 ||
            match r2 with
            | c :: r3 =>
                Str.is_digit c &&
                (sign_end r3 ||
                 match r3 with
                 | s :: r4 => Ascii.eqb s sep && int_part_ok sep r4
                 | [] => false
                 end)
            | [] => false
            end)
       | [] => false
       end)
  | [] => false
  end.

(** A string with '.' as thousands separator, ',' as decimal separator
    and exactly two decimals. *)
Definition eur_shape (s : string) : bool :=
  match rev (list_ascii_of_string s) with
  | d2 :: d1 :: c :: ip =>
      Str.is_digit d2 && Str.is_digit d1 && Ascii.eqb c "," && int_part_ok "." ip
  | _ => false
  end.

(** The localized rendering of [h] hundredths, written directly. *)
Definition eur_render (neg : bool) (h : N) : string :=
  string_of_list_ascii (sign_chars neg ++ fixed2 "." "," h).

Definition float_neg (v : spec_float) : bool :=
  match v with
  | S754_zero s | S754_infinity s | S754_finite s _ _ => s
  | S754_nan => false
  end.

(** The magnitude of a finite float in hundredths, rounded to the
    nearest integer, ties to even. *)
Definition float_hundredths (v : spec_float) : N :=
  match v with
  | S754_finite _ m e => hundredths m e
  | _ => 0%N
  end.

(** What the three [replace] calls of [eur_fmt] do to one character. *)
Definition swap_marks (c : ascii) : ascii :=
  let c := if Ascii.eqb c "," then "_"%char else c in
  let c := if Ascii.eqb c "." then ","%char else c in
  if Ascii.eqb c "_" then "."%char else c.

(** A numeric input of the formatter: an [int] or a [float]. *)
Definition is_number (x : pyval) : bool :=
  match x with
  | VInt _ | VFloat _ => true
  | _ => false
  end.

(** The float literals of the specification's examples. *)
Definition f_1234_5 : spec_float := F.of_decimal false 12345 (-1).
Definition f_0_21 : spec_float := F.of_decimal false 21 (-2).

(** The characters a derived filename is made of: ASCII letters and
    digits, hyphen, underscore and dot. *)
Definition safe_char (c : ascii) : bool :=
  Str.is_upper_az c || Str.is_lower_az c || Str.is_digit c
  || Ascii.eqb c "-" || Ascii.eqb c "_" || Ascii.eqb c ".".

Definition is_ascii (c : ascii) : bool := (Str.code c <? 128)%N.

(** The sanitized identifier before [sanitize_filename] looks at its
    extension. *)
Definition token (name : string) : string :=
  sub_space_runs false
    (sub_unsafe (if Str.truthy (Str.strip name) then Str.strip name
                 else "supplier_order")).

Definition not_space (c : ascii) : bool := negb (Str.is_space c).

Definition is_float (a : num) : bool :=
  match a with
  | NFloat _ => true
  | NInt _ => false
  end.

(** The exact sum of a list of rationals. *)
Definition Qsum (l : list Q) : Q := fold_right Qplus 0%Q l.

(** The float 1e308; twice it is beyond the largest double. *)
Definition f_1e308 : spec_float := F.of_decimal false 1 308.

(** The tables of a document, by their place in the story. *)
Definition table_data (f : flowable) : list (list tcell) :=
  match f with
  | Table d _ _ => d
  | _ => []
  end.

Definition table_font (f : flowable) : option Z :=
  match f with
  | Table _ _ font => font
  | _ => None
  end.

Definition title_table (d : document) : list (list tcell) :=
  table_data (nth 0 (story d) (Spacer 0 0)).

Definition meta_table (d : document) : list (list tcell) :=
  table_data (nth 2 (story d) (Spacer 0 0)).

Definition item_table (d : document) : list (list tcell) :=
  table_data (nth 4 (story d) (Spacer 0 0)).

Definition totals_table (d : document) : list (list tcell) :=
  table_data (nth 6 (story d) (Spacer 0 0)).

(** The totals as the specification defines them. *)
Record totals : Type := {
  netSum : spec_float;
  vatAmount : spec_float;
  grossSum : spec_float
}.

Definition TotalsCalculator (line_totals : list spec_float) (vatRate : spec_float) : totals :=
  let netSum := fold_left F.add line_totals F.zero in
  let vatAmount := F.mul netSum vatRate in
  {| netSum := netSum; vatAmount := vatAmount; grossSum := F.add netSum vatAmount |}.

(** The rows of the totals block showing the strings [enet], [evat]
    and [egross] for a VAT percentage [pct]. *)
Definition totals_rows (pct enet evat egross : string) : list (list tcell) :=
  [[Text "Net price:"; Text enet; Text "EUR"];
   [Text ("VAT (" ++ pct ++ "%):"); Text evat; Text "EUR"];
   [Text "Gross price:"; Text egross; Text "EUR"]].

(** The numeric cells of a row convert. *)
Definition row_ok (r : row) : bool :=
  negb (raises (read_net r)) && negb (raises (read_total r))
  && negb (raises (read_quantity r)).

(** The VAT percentage of the meta data converts to an integer. *)
Definition meta_ok (m : meta) : bool := negb (raises (vat_percent m)).

(** A VAT rate that is a finite float with a clear sign bit whose
    percentage is finite, as the rates 0.0 and [p / 100.0] of the form
    are. *)
Definition rate_ok (r : spec_float) : bool :=
  negb (float_neg r) && F.is_finite r && F.is_finite (F.mul r (F.of_Z 100)).

(** A VAT rate as the data model has it: a binary64 number in [0, 1]
    with a clear sign bit. *)
Definition unit_rate (r : spec_float) : bool :=
  valid_binary F.prec F.emax r && negb (float_neg r) && SFleb r F.one.

Definition col_w_mm_value : list num :=
  Eval vm_compute in
    match scale_mm base_mm target_total_mm with
    | Ok l => l
    | Raise _ => []
    end.

Definition col_w_pts_value : list num :=
  Eval vm_compute in
    match mapM (fun w => num_mul w (NFloat mm)) col_w_mm_value with
    | Ok l => l
    | Raise _ => []
    end.

Definition initial_state : loop_state :=
  {| data := [header]; pos := 1; net_sum := F.zero |}.

(** A line as the form adds it: group Bins, quantity [q], unit price
    [price] and the precomputed total [price * q]. *)
Definition form_line (q : Z) (price : spec_float) : row :=
  {| product_group := CStr "Bins"; model := CStr "BI-565"; color := CStr "Blue";
     wall_build := CStr "EPE"; drain := CStr "None"; note := CStr "";
     quantity := VInt q; net_price := VFloat price;
     total := VFloat (F.mul price (F.of_Z q)) |}.

(** Meta data with blank optional fields and VAT rate [rate]. *)
Definition blank_meta (rate : spec_float) : meta :=
  {| company := "Rotogal GmbH"; contact_person := "Maurice Vennegerts";
     tel := "015221870004"; email := "vennegerts@rotogal.de";
     order_no := ""; your_order_ref := ""; date_str := "01.02.2025";
     ship_to := ""; bill_to := "Rotogal GmbH";
     vat_id := "ESN0300033H"; vat_rate := rate;
     footer_left := "Rotogal GmbH"; footer_right_extra := "Tax-No: 55/208/12604" |}.

(** The document built for one line of three items at 1234.5 each,
    VAT rate 0.21 and blank optional fields. *)
Definition example_document : document :=
  Eval vm_compute in
    match build_pdf (blank_meta f_0_21) [form_line 3 f_1234_5] with
    | Ok d => d
    | Raise _ =>
        {| pagesize := (NInt 0, NInt 0); leftMargin := NInt 0; rightMargin := NInt 0;
           topMargin := NInt 0; bottomMargin := NInt 0; story := [] |}
    end.

(* ================================================================== *)
(** ** The caller: file name and VAT rate *)

(** [auto_filename = sanitize_filename(order_no or "supplier_order")] *)
Definition auto_filename (order_no : string) : string :=
  sanitize_filename (if Str.truthy order_no then order_no else "supplier_order").

(** The VAT rate the sidebar derives: [es_vat_rate / 100.0] for the
    Spanish VAT id, [0.0] for the German one. *)
Definition sidebar_vat_rate (spanish : bool) (es_vat_rate : spec_float) : spec_float :=
  if spanish then F.div es_vat_rate (F.of_Z 100) else F.zero.

(* ================================================================== *)
(** ** Specification-side definitions for the composer *)

(** The float [k * 0.5]: the values the percentage input steps
    through. *)
Definition half_steps (k : Z) : spec_float :=
  F.div (F.of_Z k) (F.of_Z 2).

(** The cells of the table row of line [r] at position [p]. *)
Definition item_row (m : meta) (bf : Z) (p : Z) (r : row) : result (list tcell) :=
  net <- read_net r ;;
  total <- read_total r ;;
  q <- read_quantity r ;;
  pct <- vat_percent m ;;
  enet <- eur_fmt (VFloat net) ;;
  etotal <- eur_fmt (VFloat total) ;;
  Ok [Text (str_of_Z p); Text (str_of_Z q);
      Par (article r) (Cell bf); Par (clean (note r)) (Cell bf);
      Text (pct ++ "%"); Text enet; Text etotal].

(** A line whose Total cell is missing: pandas hands out NaN for it. *)
Definition line_without_total : row :=
  {| product_group := CStr "Bins"; model := CStr "BI-565"; color := CStr "Blue";
     wall_build := CStr "EPE"; drain := CNaN; note := CStr "";
     quantity := VInt 2; net_price := VFloat (F.of_Z 100);
     total := VFloat S754_nan |}.

(** The label the VAT percentage [k / 2] is expected to give: its
    integer part, were the product [rate * 100] exact. *)
Definition expected_label (k : Z) : Z := k / 2.

(** The labels of all percentages [k / 2] from [lo] up, [n] of them,
    checked against [expect]. *)
Fixpoint labels_agree (expect : Z -> Z) (lo : Z) (n : nat) : bool :=
  match n with
  | O => true
  | S n' =>
      match py_int (VFloat (F.mul (sidebar_vat_rate true (half_steps lo)) (F.of_Z 100))) with
      | Ok p => (p =? expect lo)%Z
      | Raise _ => false
      end && labels_agree expect (lo + 1) n'
  end.

(* ================================================================== *)
(** ** The session and the line form *)

(** The attribute fields of the line form. *)
Inductive field : Type :=
| Model
| Color
| Wall_build
| Drain.

Definition field_eqb (a b : field) : bool :=
  match a, b with
  | Model, Model | Color, Color | Wall_build, Wall_build | Drain, Drain => true
  | _, _ => false
  end.

(** The keys of [PRODUCT_TYPES], which the product-group box offers. *)
Inductive product : Type :=
| Bins
| Lids
| Buggies
| Pallets.

Definition product_name (p : product) : string :=
  match p with
  | Bins => "Bins"
  | Lids => "Lids"
  | Buggies => "Buggies"
  | Pallets => "Pallets"
  end.

Definition PRODUCT_TYPES (p : product) : list field :=
  match p with
  | Bins => [Model; Color; Wall_build; Drain]
  | Lids => [Model; Color; Wall_build]
  | Buggies => [Model; Color]
  | Pallets => [Model; Color]
  end.

(** The dict [line] of the submit handler: the quantity, the entries of
    [values] in the order of the group's fields, the note, the unit
    price and the total. *)
Record line_data : Type := {
  Quantity : Z;
  values : list (field * string);
  Note : string;
  Net_price : spec_float;
  Total : spec_float
}.

(** An element of [st.session_state.order_lines]:
    [{"Product group": ptype, **data}]. *)
Record order_line : Type := {
  Product_group : string;
  line : line_data
}.

Definition add_line (order_lines : list order_line) (ptype : string) (data : line_data)
  : list order_line :=
  order_lines ++ [{| Product_group := ptype; line := data |}].

Definition reset_lines : list order_line := [].

(** The submit handler of the line form.  [widget] gives the text each
    field's widget returned; [qty] is an [int] and [net_price] a
    [float], as the two number inputs return them, so [int(qty)] and
    [float(net_price)] are the values themselves and the product
    converts [qty] to a float. *)
Definition submit (fields : list field) (widget : field -> string)
           (remark : string) (qty : Z) (net_price : spec_float) : result line_data :=
  q <- float_of_int qty ;;
  let line_total := F.mul net_price q in
  Ok {| Quantity := qty;
        values := List.map (fun f => (f, widget f)) fields;
        Note := remark;
        Net_price := net_price;
        Total := line_total |}.

Fixpoint lookup (f : field) (vs : list (field * string)) : option string :=
  match vs with
  | [] => None
  | (g, s) :: rest => if field_eqb f g then Some s else lookup f rest
  end.

(** [row.get(column, '')] on the frame [pd.DataFrame(order_lines)]: the
    text of the line, NaN where the line lacks a key that another line
    has, and the default where no line has the key. *)
Definition frame_cell (order_lines : list order_line) (f : field) (l : order_line) : cell :=
  match lookup f (values (line l)) with
  | Some s => CStr s
  | None =>
      if existsb (fun l' => match lookup f (values (line l')) with
                            | Some _ => true
                            | None => false
                            end) order_lines
      then CNaN
      else CStr ""
  end.

(** The rows [pd.DataFrame(order_lines).iterrows()] yields. *)
Definition DataFrame (order_lines : list order_line) : list row :=
  List.map (fun l =>
              {| product_group := CStr (Product_group l);
                 model := frame_cell order_lines Model l;
                 color := frame_cell order_lines Color l;
                 wall_build := frame_cell order_lines Wall_build l;
                 drain := frame_cell order_lines Drain l;
                 note := CStr (Note (line l));
                 quantity := VInt (Quantity (line l));
                 net_price := VFloat (Net_price (line l));
                 total := VFloat (Total (line l)) |})
           order_lines.

(** [df_display]: the frame with the two money columns formatted. *)
Definition df_display (order_lines : list order_line) : result (list row) :=
  mapM (fun r =>
          n <- eur_fmt (net_price r) ;;
          t <- eur_fmt (total r) ;;
          Ok {| product_group := product_group r; model := model r; color := color r;
                wall_build := wall_build r; drain := drain r; note := note r;
                quantity := quantity r; net_price := VStr n; total := VStr t |})
       (DataFrame order_lines).

(* ================================================================== *)
(** ** Recipients and the upload address *)

Module Text.

(** [s.split(sep)] for a one-character [sep]: the fields between the
    separators, the empty ones included. *)
Fixpoint split (sep : ascii) (s : string) : list string :=
  match s with
  | EmptyString => [EmptyString]
  | String c r =>
      if Ascii.eqb c sep then EmptyString :: split sep r
      else match split sep r with
           | f :: fs => String c f :: fs
           | [] => [String c EmptyString]
           end
  end.

End Text.

(** [[e.strip() for e in email_to.split(",") if e.strip()]] *)
Definition to_list (email_to : string) : list string :=
  List.map Str.strip
           (List.filter (fun e => Str.truthy (Str.strip e)) (Text.split "," email_to)).

Definition is_slash (c : ascii) : bool := Ascii.eqb c "/".

(** The address [onedrive_upload_file] puts the file to. *)
Definition upload_url (user_upn folder_path filename : string) : string :=
  let folder_path := Str.strip_by is_slash folder_path in
  if Str.truthy folder_path
  then "https://graph.microsoft.com/v1.0/users/" ++ user_upn ++ "/drive/root:/"
       ++ folder_path ++ "/" ++ filename ++ ":/content"
  else "https://graph.microsoft.com/v1.0/users/" ++ user_upn ++ "/drive/root:/"
       ++ filename ++ ":/content".

(* ================================================================== *)
(** ** The Graph helpers and the export *)

Record attachment : Type := {
  odata_type : string;
  name : string;
  contentType : string;
  contentBytes : string
}.

(** The dict [message] of [graph_send_mail]; [attachments] is [None]
    when the key is not set. *)
Record message : Type := {
  subject : string;
  body_contentType : string;
  body_content : string;
  toRecipients : list string;
  attachments : option (list attachment);
  saveToSentItems : bool
}.

Definition headers : Type := list (string * string).

(** What the script shows and sends, in order.  The label of the
    download button is left out. *)
Inductive event : Type :=
| st_info (body : string)
| st_success (body : string)
| st_warning (body : string)
| st_error (body : string)
| st_dataframe (shown : list row)
| requests_put (url : string) (h : headers) (file_bytes : string)
| requests_post (url : string) (h : headers) (json : message)
| st_download_button (pdf : string) (file_name : string) (mime : string).

(** What [msal] answers: the dict with an access token, or a failure
    with the text [get_graph_token] returns for it (the error
    description, the printed result or the printed exception). *)
Inductive token_reply : Type :=
| Granted (access_token : string)
| Refused (err : string).

(** The libraries the export calls.  [None] stands for an exception
    raised inside the library. *)
Record services : Type := {
  doc_build : document -> option string;
  acquire_token : string -> string -> string -> token_reply;
  put : string -> headers -> string -> option (Z * string);
  post : string -> headers -> message -> option (Z * string);
  b64encode : string -> string
}.

(** An exception that ends the script run. *)
Inductive failure : Type :=
| PythonError (e : exn)
| LibraryError.

Inductive outcome (A : Type) : Type :=
| Returned (a : A)
| Escaped (f : failure).

Arguments Returned {A} a.
Arguments Escaped {A} f.

(** A computation with its trace of events. *)
Definition io (A : Type) : Type := (list event * outcome A)%type.

Definition ret {A : Type} (a : A) : io A := ([], Returned a).

Definition io_bind {A B : Type} (m : io A) (k : A -> io B) : io B :=
  match m with
  | (t, Returned a) => let (t', o) := k a in ((t ++ t')%list, o)
  | (t, Escaped f) => (t, Escaped f)
  end.

Definition emit (e : event) : io unit := ([e], Returned tt).

Definition lift {A : Type} (r : result A) : io A :=
  match r with
  | Ok a => ret a
  | Raise e => ([], Escaped (PythonError e))
  end.

Definition call {A : Type} (o : option A) : io A :=
  match o with
  | Some a => ret a
  | None => ([], Escaped LibraryError)
  end.

Definition get_graph_token (w : services) (tenant_id client_id client_secret : string)
  : option string * option string :=
  match acquire_token w tenant_id client_id client_secret with
  | Granted t => (Some t, None)
  | Refused e => (None, Some e)
  end.

Definition onedrive_upload_file (w : services)
           (access_token user_upn folder_path filename file_bytes : string)
  : io (Z * string) :=
  let url := upload_url user_upn folder_path filename in
  let h := [("Authorization", "Bearer " ++ access_token);
            ("Content-Type", "application/pdf")] in
  io_bind (emit (requests_put url h file_bytes)) (fun _ =>
  call (put w url h file_bytes)).

Definition graph_send_mail (w : services) (access_token sender_upn : string)
           (to_emails : list string) (subject body_html attachment_bytes attachment_name : string)
  : io (Z * string) :=
  let url := "https://graph.microsoft.com/v1.0/users/" ++ sender_upn ++ "/sendMail" in
  let h := [("Authorization", "Bearer " ++ access_token);
            ("Content-Type", "application/json")] in
  let msg :=
    {| subject := subject;
       body_contentType := "HTML";
       body_content := body_html;
       toRecipients := to_emails;
       attachments :=
         if Str.truthy attachment_bytes
         then Some [{| odata_type := "#microsoft.graph.fileAttachment";
                       name := attachment_name;
                       contentType := "application/pdf";
                       contentBytes := b64encode w attachment_bytes |}]
         else None;
       saveToSentItems := true |} in
  io_bind (emit (requests_post url h msg)) (fun _ =>
  call (post w url h msg)).

(** The Microsoft 365 settings of the sidebar. *)
Record graph_settings : Type := {
  tenant_id : string;
  client_id : string;
  client_secret : string;
  graph_user_upn : string;
  onedrive_folder : string;
  email_to : string;
  auto_upload : bool;
  auto_email : bool
}.

(** [200 <= code < 300] *)
Definition is_2xx (code : Z) : bool := ((200 <=? code) && (code <? 300))%Z.

(** [err or 'Unknown error'] *)
Definition err_text (err : option string) : string :=
  match err with
  | Some e => if Str.truthy e then e else "Unknown error"
  | None => "Unknown error"
  end.

(** The block "Microsoft Graph actions". *)
Definition graph_actions (w : services) (m : meta) (g : graph_settings)
           (auto_filename pdf : string) : io unit :=
  if auto_upload g || auto_email g then
    if negb (forallb Str.truthy [tenant_id g; client_id g; client_secret g; graph_user_upn g])
    then emit (st_warning
           "To use OneDrive/Email, please fill Tenant ID, Client ID, Client Secret and User UPN.")
    else
      let (token, err) := get_graph_token w (tenant_id g) (client_id g) (client_secret g) in
      match token with
      | Some t =>
          if Str.truthy t then
            io_bind
              (if auto_upload g then
                 io_bind (onedrive_upload_file w t (graph_user_upn g) (onedrive_folder g)
                            auto_filename pdf) (fun r =>
                 let (code, txt) := r in
                 if is_2xx code then emit (st_success "Uploaded to OneDrive.")
                 else emit (st_error ("OneDrive upload failed (" ++ str_of_Z code
                                      ++ "): " ++ txt)))
               else ret tt) (fun _ =>
            if auto_email g && Str.truthy (Str.strip (email_to g)) then
              let to_list := to_list (email_to g) in
              let subj := "Order " ++ order_no m in
              let body := "<p>Hello,</p><p>Please find attached our order <b>" ++ order_no m
                          ++ "</b>.</p><p>Best regards,<br>" ++ contact_person m ++ "</p>" in
              io_bind (graph_send_mail w t (graph_user_upn g) to_list subj body pdf
                         auto_filename) (fun r =>
              let (code, txt) := r in
              if is_2xx code then emit (st_success "Email sent via Microsoft Graph.")
              else emit (st_error ("Email send failed (" ++ str_of_Z code ++ "): " ++ txt)))
            else ret tt)
          else emit (st_error ("Graph auth failed: " ++ err_text err))
      | None => emit (st_error ("Graph auth failed: " ++ err_text err))
      end
  else ret tt.

(** The section "Order overview" of one script run: the session list
    it leaves and what it shows and sends.  [clear] tells whether the
    clear button was pressed.  The call [build_pdf(meta, frame)] of the
    script is [build_pdf] followed by [doc_build], the page builder
    that turns the story into the bytes of the buffer. *)
Definition overview (w : services) (m : meta) (g : graph_settings) (clear : bool)
           (order_lines : list order_line) : list order_line * io unit :=
  match order_lines with
  | [] => (order_lines, emit (st_info "No positions added yet."))
  | _ :: _ =>
      let after := if clear then reset_lines else order_lines in
      (after,
       io_bind (lift (df_display order_lines)) (fun shown =>
       io_bind (emit (st_dataframe shown)) (fun _ =>
       io_bind (if clear then emit (st_warning "All positions cleared.") else ret tt) (fun _ =>
       let auto_filename := auto_filename (order_no m) in
       io_bind (lift (build_pdf m (DataFrame after))) (fun d =>
       io_bind (call (doc_build w d)) (fun pdf =>
       io_bind (graph_actions w m g auto_filename pdf) (fun _ =>
       emit (st_download_button pdf auto_filename "application/pdf"))))))))
  end.

(** What the line form hands over when its button was pressed. *)
Record form_input : Type := {
  product_type : product;
  widget : field -> string;
  remark : string;
  qty : Z;
  net_price_input : spec_float
}.

(** One script run: the submit handler when the form was submitted,
    then the overview. *)
Definition run (w : services) (m : meta) (g : graph_settings)
           (submitted : option form_input) (clear : bool)
           (order_lines : list order_line) : list order_line * io unit :=
  match submitted with
  | None => overview w m g clear order_lines
  | Some f =>
      let fields := PRODUCT_TYPES (product_type f) in
      match submit fields (widget f) (remark f) (qty f) (net_price_input f) with
      | Raise e => (order_lines, ([], Escaped (PythonError e)))
      | Ok data =>
          let order_lines := add_line order_lines (product_name (product_type f)) data in
          let (after, rest) := overview w m g clear order_lines in
          (after, io_bind (emit (st_success "Position added.")) (fun _ => rest))
      end
  end.

(** The events of a run. *)
Definition trace (r : list order_line * io unit) : list event := fst (snd r).

(** Whether the run reached its end. *)
Definition completed (r : list order_line * io unit) : bool :=
  match snd (snd r) with
  | Returned _ => true
  | Escaped _ => false
  end.

(* ================================================================== *)
(** ** Specification-side definitions for the form and the export *)

(** The percentage input of the sidebar: a binary64 number between
    [min_value=0.0] and [max_value=30.0]. *)
Definition es_vat_rate_ok (es : spec_float) : bool :=
  valid_binary F.prec F.emax es && SFleb F.zero es && SFleb es (F.of_Z 30).

(** A character of a recipient list that names nobody: whitespace or
    the separator. *)
Definition space_or_comma (c : ascii) : bool := Str.is_space c || Ascii.eqb c ",".

Definition not_comma (c : ascii) : bool := negb (Ascii.eqb c ",").

(** The address of a file in the drive root. *)
Definition root_url (user_upn filename : string) : string :=
  "https://graph.microsoft.com/v1.0/users/" ++ user_upn ++ "/drive/root:/"
  ++ filename ++ ":/content".

(** The sessions the script can reach from the empty list it starts
    with, one run after the other. *)
Inductive reachable : list order_line -> Prop :=
| reach_start : reachable []
| reach_run (w : services) (m : meta) (g : graph_settings)
            (submitted : option form_input) (clear : bool) (order_lines : list order_line) :
    reachable order_lines ->
    reachable (fst (run w m g submitted clear order_lines)).

(** A line as the form makes it: the group is a key of
    [PRODUCT_TYPES], the attribute keys are that group's fields in
    order, and the total is the product of unit price and quantity in
    floating point. *)
Definition form_made (l : order_line) : Prop :=
  exists p,
    Product_group l = product_name p
    /\ List.map fst (values (line l)) = PRODUCT_TYPES p
    /\ exists q,
         float_of_int (Quantity (line l)) = Ok q
         /\ Total (line l) = F.mul (Net_price (line l)) q.

(** All four credentials are filled in. *)
Definition credentials (g : graph_settings) : bool :=
  forallb Str.truthy [tenant_id g; client_id g; client_secret g; graph_user_upn g].

(** The headers of a request with access token [t]. *)
Definition bearer (t content_type : string) : headers :=
  [("Authorization", "Bearer " ++ t); ("Content-Type", content_type)].

Definition is_download (e : event) : bool :=
  match e with
  | st_download_button _ _ _ => true
  | _ => false
  end.

Definition is_post (e : event) : bool :=
  match e with
  | requests_post _ _ _ => true
  | _ => false
  end.

(** Libraries that answer every call: the page builder returns bytes
    and both requests come back with a response. *)
Definition answers (w : services) : Prop :=
  (forall d, doc_build w d <> None)
  /\ (forall u h b, put w u h b <> None)
  /\ (forall u h j, post w u h j <> None).

(** Services whose token is granted and whose requests come back with
    status [code]. *)
Definition services_answering (code : Z) : services :=
  {| doc_build := fun _ => Some "%PDF-1.4";
     acquire_token := fun _ _ _ => Granted "token";
     put := fun _ _ _ => Some (code, "response");
     post := fun _ _ _ => Some (code, "response");
     b64encode := fun s => s |}.

(** Services whose upload request raises. *)
Definition services_unreachable : services :=
  {| doc_build := fun _ => Some "%PDF-1.4";
     acquire_token := fun _ _ _ => Granted "token";
     put := fun _ _ _ => None;
     post := fun _ _ _ => Some (202, "");
     b64encode := fun s => s |}.

Definition settings_example : graph_settings :=
  {| tenant_id := "tenant"; client_id := "client"; client_secret := "secret";
     graph_user_upn := "vennegerts@rotogal.de";
     onedrive_folder := "Bestellungen/Rotogal";
     email_to := "orders@rotogal.es";
     auto_upload := true; auto_email := true |}.

Definition form_example : form_input :=
  {| product_type := Lids; widget := fun _ => "Blue"; remark := "";
     qty := 2; net_price_input := F.of_Z 10 |}.

(** The session after one submission of [form_example]. *)
Definition session_example : list order_line :=
  Eval vm_compute in
    fst (run (services_answering 201) (blank_meta F.zero) settings_example
             (Some form_example) false []).

Definition is_request (e : event) : bool :=
  match e with
  | requests_put _ _ _ | requests_post _ _ _ => true
  | _ => false
  end.

(* ================================================================== *)
(** * Properties *)

(** ** Trimming and cleaning *)

Lemma lstrip_shape (p : ascii -> bool) (s : string) :
  Str.lstrip_by p s = "" \/
  exists c r, Str.lstrip_by p s = String c r /\ p c = false.
Proof.
  induction s as [|c r IH]; simpl.
  - now left.
  - destruct (p c) eqn:E; [exact IH|].
    right. now exists c, r.
Qed.

Lemma lstrip_empty_iff (p : ascii -> bool) (s : string) :
  Str.lstrip_by p s = "" <-> Str.all p s = true.
Proof.
  induction s as [|c r IH]; simpl.
  - tauto.
  - destruct (p c); simpl; [exact IH|].
    split; discriminate.
Qed.

Lemma rstrip_empty_iff (p : ascii -> bool) (s : string) :
  Str.rstrip_by p s = "" <-> Str.all p s = true.
Proof.
  induction s as [|c r IH]; simpl.
  - tauto.
  - destruct (Str.rstrip_by p r) eqn:E.
    + destruct (p c); simpl.
      * split; intros _; [now apply IH|reflexivity].
      * split; discriminate.
    + split; [discriminate|].
      intros H. apply andb_true_iff in H. destruct H as [_ H].
      apply IH in H. discriminate.
Qed.

Lemma strip_by_empty_iff (p : ascii -> bool) (s : string) :
  Str.strip_by p s = "" <-> Str.all p s = true.
Proof.
  unfold Str.strip_by. rewrite rstrip_empty_iff, <- (lstrip_empty_iff p s).
  destruct (lstrip_shape p s) as [E | (c & r & E & Hc)]; rewrite E.
  - simpl. tauto.
  - simpl. rewrite Hc. simpl. split; discriminate.
Qed.

Lemma strip_empty_iff (s : string) :
  Str.strip s = "" <-> Str.all Str.is_space s = true.
Proof. apply strip_by_empty_iff. Qed.

Lemma clean_blank (v : cell) : clean v = "" <-> blank v = true.
Proof.
  destruct v as [| |s]; [simpl; tauto | simpl; tauto |].
  unfold clean, blank, pd_isna, cell_str.
  rewrite orb_true_iff, <- (strip_empty_iff s).
  destruct (Str.mem _ _) eqn:E.
  - split; auto.
  - split; [now left|]. intros [H|H]; congruence.
Qed.

Lemma clean_present (v : cell) :
  blank v = false -> exists s, v = CStr s /\ clean v = Str.strip s.
Proof.
  destruct v as [| |s]; [discriminate | discriminate |].
  unfold clean, blank, pd_isna, cell_str.
  intros H. apply orb_false_iff in H. destruct H as [_ H].
  exists s. now rewrite H.
Qed.

Lemma clean_never_none (v : cell) :
  Str.truthy (clean v) = true ->
  String.eqb (Str.lower (clean v)) "none" = false
  /\ String.eqb (clean v) "None" = false.
Proof.
  intros H.
  destruct (blank v) eqn:B.
  - apply clean_blank in B. rewrite B in H. discriminate.
  - pose proof B as B'.
    apply clean_present in B. destruct B as (s & -> & E).
    unfold blank in B'. apply orb_false_iff in B'. destruct B' as [_ M].
    rewrite E. unfold Str.mem in M. simpl in M.
    apply orb_false_iff in M. destruct M as [_ M].
    apply orb_false_iff in M. destruct M as [M _].
    split; [exact M|].
    destruct (String.eqb (Str.strip s) "None") eqn:N; [|reflexivity].
    apply String.eqb_eq in N. rewrite N in M. discriminate.
Qed.

(** C2.  The article text of a row is the ", "-join of the parts whose
    normalised source is present, in the order group, "Mod. " model,
    "(" wall build ")", color, "drain: " drain, the drain part only for
    group Bins with a present drain other than "None"; normalisation
    maps exactly the blank values (missing, empty, whitespace-only, or
    nan/none/null in any letter case) to the empty string and trims the
    others; and the two examples of the specification hold. *)
Theorem article_rendering :
  (forall r : row, article r = article_spec r)
  /\ (forall v : cell, clean v = "" <-> blank v = true)
  /\ (forall v : cell, blank v = false -> clean v = Str.strip (cell_str v))
  /\ article bins_example = "Bins, Mod. BI-565, (EPE), Blue, drain: 1" ++ dquote ++ " drain"
  /\ article lids_example = "Lids".
Proof.
  split; [|split; [|split; [|split]]].
  - intros r. unfold article, article_spec, article_parts.
    destruct (Str.truthy (clean (drain r))) eqn:D.
    + destruct (clean_never_none _ D) as [E1 E2]. rewrite E1, E2.
      destruct (Str.truthy (clean (product_group r))),
               (Str.truthy (clean (model r))),
               (Str.truthy (clean (wall_build r))),
               (Str.truthy (clean (color r))),
               (String.eqb (clean (product_group r)) "Bins"); reflexivity.
    + rewrite !andb_false_r. simpl.
      destruct (Str.truthy (clean (product_group r))),
               (Str.truthy (clean (model r))),
               (Str.truthy (clean (wall_build r))),
               (Str.truthy (clean (color r))); reflexivity.
  - exact clean_blank.
  - intros v B. destruct (clean_present v B) as (s & -> & E). exact E.
  - vm_compute. reflexivity.
  - vm_compute. reflexivity.
Qed.

Lemma article_rendering_witness : clean (CStr "  BI-565 ") = "BI-565".
Proof.
  exact (proj1 (proj2 (proj2 article_rendering)) (CStr "  BI-565 ") eq_refl).
Defined.

(** ** The money formatter *)

Ltac ascii_cases c := destruct c as [[] [] [] [] [] [] [] []].

Lemma group3_ind (P : list ascii -> Prop) :
  P [] -> (forall a, P [a]) -> (forall a b, P [a; b]) -> (forall a b c, P [a; b; c]) ->
  (forall a b c d r, P (d :: r) -> P (a :: b :: c :: d :: r)) ->
  forall l, P l.
Proof.
  intros H0 H1 H2 H3 H4 l.
  assert (G : forall n l, (List.length l <= n)%nat -> P l).
  { induction n as [|n IH]; intros k Hk.
    - destruct k; [exact H0 | simpl in Hk; lia].
    - destruct k as [|a [|b [|c [|d r]]]]; auto.
      apply H4. apply IH. simpl in Hk |- *. lia. }
  apply (G (List.length l)). lia.
Qed.

Lemma map_group3 (f : ascii -> ascii) (sep : ascii) (l : list ascii) :
  List.map f (group3 sep l) = group3 (f sep) (List.map f l).
Proof.
  induction l as [|a|a b|a b c|a b c d r IH] using group3_ind; try reflexivity.
  change (group3 sep (a :: b :: c :: d :: r))
    with (a :: b :: c :: sep :: group3 sep (d :: r)).
  change (List.map f (a :: b :: c :: d :: r))
    with (f a :: f b :: f c :: List.map f (d :: r)).
  cbn [List.map]. rewrite IH. reflexivity.
Qed.

Lemma replace_char_map (old new : ascii) (s : string) :
  Str.replace old (String new "") s
  = Str.map (fun c => if Ascii.eqb c old then new else c) s.
Proof.
  induction s as [|c r IH]; simpl; [reflexivity|].
  rewrite IH. now destruct (Ascii.eqb c old).
Qed.

Lemma str_map_of_list (f : ascii -> ascii) (l : list ascii) :
  Str.map f (string_of_list_ascii l) = string_of_list_ascii (List.map f l).
Proof. induction l as [|c r IH]; simpl; [reflexivity|now rewrite IH]. Qed.

Lemma replace_chain (l : list ascii) :
  Str.replace "_" "." (Str.replace "." "," (Str.replace "," "_" (string_of_list_ascii l)))
  = string_of_list_ascii (List.map swap_marks l).
Proof.
  rewrite !replace_char_map, !str_map_of_list, !List.map_map. reflexivity.
Qed.

Lemma swap_marks_digit (c : ascii) : Str.is_digit c = true -> swap_marks c = c.
Proof. ascii_cases c; intros H; try reflexivity; discriminate H. Qed.

Lemma map_fixed (f : ascii -> ascii) (l : list ascii) :
  Forall (fun c => f c = c) l -> List.map f l = l.
Proof. induction 1 as [|c r Hc _ IH]; simpl; [reflexivity|now rewrite Hc, IH]. Qed.

Lemma is_digit_digit_char (k : N) : (k < 10)%N -> Str.is_digit (digit_char k) = true.
Proof.
  intros H.
  destruct k as [|p]; [reflexivity|].
  do 4 (destruct p as [p|p|]; try reflexivity; try lia).
Qed.

Lemma uint_chars_digits (u : Decimal.uint) :
  Forall (fun c => Str.is_digit c = true) (uint_chars u).
Proof. induction u; simpl; constructor; auto. Qed.

Lemma digits_of_N_digits (n : N) :
  Forall (fun c => Str.is_digit c = true) (digits_of_N n).
Proof. apply uint_chars_digits. Qed.

Lemma digits_of_N_nonempty (n : N) : digits_of_N n <> [].
Proof.
  unfold digits_of_N.
  destruct n as [|p]; [discriminate|].
  simpl. pose proof (DecimalPos.Unsigned.to_uint_nonnil p) as H.
  destruct (Pos.to_uint p); [congruence | discriminate ..].
Qed.

Lemma two_digits_digits (n : N) :
  (n < 100)%N -> Forall (fun c => Str.is_digit c = true) (two_digits n).
Proof.
  intros H. unfold two_digits.
  repeat constructor; apply is_digit_digit_char.
  - apply N.Div0.div_lt_upper_bound. lia.
  - apply N.mod_lt. lia.
Qed.

Lemma fixed2_swap (h : N) :
  List.map swap_marks (fixed2 "," "." h) = fixed2 "." "," h.
Proof.
  unfold fixed2.
  rewrite List.map_app, List.map_rev, map_group3.
  change (List.map swap_marks ("."%char :: two_digits (h mod 100)))
    with (","%char :: List.map swap_marks (two_digits (h mod 100))).
  change (swap_marks ",") with "."%char.
  rewrite !(map_fixed swap_marks).
  - reflexivity.
  - eapply Forall_impl; [|apply (two_digits_digits (h mod 100))].
    + intros c. apply swap_marks_digit.
    + apply N.mod_lt. lia.
  - apply Forall_rev.
    eapply Forall_impl; [|apply digits_of_N_digits].
    intros c. apply swap_marks_digit.
Qed.

Lemma sign_chars_swap (neg : bool) :
  List.map swap_marks (sign_chars neg) = sign_chars neg.
Proof. now destruct neg. Qed.

Lemma eur_fmt_float (v : spec_float) :
  F.is_finite v = true ->
  eur_fmt (VFloat v) = Ok (eur_render (float_neg v) (float_hundredths v)).
Proof.
  intros H. unfold eur_fmt, py_float, eur_render.
  destruct v as [s|s| |s m e]; try discriminate H; unfold format_comma_2f;
    rewrite replace_chain, List.map_app, sign_chars_swap, fixed2_swap; reflexivity.
Qed.

Lemma sign_end_after_sep (l : list ascii) : sign_end ("."%char :: l) = false.
Proof. destruct l; reflexivity. Qed.

Lemma int_part_ok_group3 (neg : bool) (ds : list ascii) :
  ds <> [] -> Forall (fun c => Str.is_digit c = true) ds ->
  int_part_ok "." (group3 "." ds ++ sign_chars neg) = true.
Proof.
  induction ds as [|a|a b|a b c|a b c d r IH] using group3_ind; intros Hne Hd.
  - congruence.
  - inversion_clear Hd as [|? ? Ha _].
    destruct neg; simpl; rewrite Ha; reflexivity.
  - inversion_clear Hd as [|? ? Ha Hd']. inversion_clear Hd' as [|? ? Hb _].
    destruct neg; simpl; rewrite Ha, Hb, ?orb_true_r; reflexivity.
  - inversion_clear Hd as [|? ? Ha Hd']. inversion_clear Hd' as [|? ? Hb Hd].
    inversion_clear Hd as [|? ? Hc _].
    destruct neg; simpl; rewrite Ha, Hb, Hc, ?orb_true_r; reflexivity.
  - inversion_clear Hd as [|? ? Ha Hd']. inversion_clear Hd' as [|? ? Hb Hd].
    inversion_clear Hd as [|? ? Hc Hd'].
    change (group3 "." (a :: b :: c :: d :: r))
      with (a :: b :: c :: "."%char :: group3 "." (d :: r)).
    specialize (IH ltac:(discriminate) Hd').
    cbn [app].
    change (int_part_ok "." (a :: b :: c :: "."%char :: (group3 "." (d :: r) ++ sign_chars neg)))
      with (Str.is_digit a && (false || (Str.is_digit b && (false || (Str.is_digit c &&
              (sign_end ("."%char :: (group3 "." (d :: r) ++ sign_chars neg))
               || (Ascii.eqb "." "." && int_part_ok "." (group3 "." (d :: r) ++ sign_chars neg)))))))).
    rewrite Ha, Hb, Hc, IH, sign_end_after_sep. reflexivity.
Qed.

Lemma eur_render_shape (neg : bool) (h : N) : eur_shape (eur_render neg h) = true.
Proof.
  unfold eur_shape, eur_render, fixed2.
  rewrite list_ascii_of_string_of_list_ascii.
  rewrite !rev_app_distr, rev_involutive.
  pose proof (two_digits_digits (h mod 100) ltac:(apply N.mod_lt; lia)) as Hd.
  unfold two_digits in *.
  inversion_clear Hd as [|? ? H1 Hd']. inversion_clear Hd' as [|? ? H2 _].
  assert (Hs : rev (sign_chars neg) = sign_chars neg) by now destruct neg.
  rewrite Hs. cbn [rev app].
  rewrite H1, H2. cbn [andb Ascii.eqb Bool.eqb].
  apply int_part_ok_group3.
  - intros E. apply (f_equal (@rev ascii)) in E.
    rewrite rev_involutive in E. exact (digits_of_N_nonempty _ E).
  - apply Forall_rev, digits_of_N_digits.
Qed.

Lemma eur_fmt_unfold (x : pyval) :
  eur_fmt x = match py_float x with
              | Raise _ => Ok ""
              | Ok v => eur_fmt (VFloat v)
              end.
Proof. unfold eur_fmt. simpl. destruct (py_float x); reflexivity. Qed.

(** C3, as amended.  For every input that converts to a finite float,
    the formatter returns the rendering of the value's hundredths
    (nearest, ties to even) with '.' between groups of three integer
    digits, ',' before the decimals and exactly two decimals;
    [eur_fmt(0)] is "0,00", [eur_fmt(1234.5)] is "1.234,50"; the
    infinities and NaN are returned as "inf", "-inf" and "nan". *)
Theorem eur_fmt_two_decimals :
  (forall (x : pyval) (v : spec_float),
      py_float x = Ok v -> F.is_finite v = true ->
      eur_fmt x = Ok (eur_render (float_neg v) (float_hundredths v))
      /\ eur_shape (eur_render (float_neg v) (float_hundredths v)) = true)
  /\ eur_fmt (VInt 0) = Ok "0,00"
  /\ eur_fmt (VFloat f_1234_5) = Ok "1.234,50"
  /\ eur_fmt (VFloat (S754_infinity false)) = Ok "inf"
  /\ eur_fmt (VFloat (S754_infinity true)) = Ok "-inf"
  /\ eur_fmt (VFloat S754_nan) = Ok "nan".
Proof.
  split; [|repeat split].
  intros x v Hx Hv. split.
  - rewrite eur_fmt_unfold, Hx. now apply eur_fmt_float.
  - apply eur_render_shape.
Qed.

Lemma eur_fmt_two_decimals_witness :
  eur_fmt (VFloat f_1234_5) = Ok "1.234,50" /\ eur_shape "1.234,50" = true.
Proof.
  exact (proj1 eur_fmt_two_decimals (VFloat f_1234_5) f_1234_5 eq_refl eq_refl).
Defined.

(** C3 as stated fails: positive infinity is a numeric input and is
    rendered as "inf", which has neither separator nor decimals. *)
Lemma eur_fmt_infinity_counterexample :
  ~ (forall x : pyval, is_number x = true ->
       exists s, eur_fmt x = Ok s /\ eur_shape s = true).
Proof.
  intros H.
  destruct (H (VFloat (S754_infinity false)) eq_refl) as (s & E & Hs).
  vm_compute in E. injection E as <-. vm_compute in Hs. discriminate Hs.
Qed.

(** C4.  The formatter returns a string on every input, and the empty
    string whenever the conversion to a float raises; so it does on the
    text "abc" and on a missing value. *)
Theorem eur_fmt_never_raises :
  (forall x : pyval, exists s, eur_fmt x = Ok s)
  /\ (forall (x : pyval) (e : exn), py_float x = Raise e -> eur_fmt x = Ok "")
  /\ py_float (VStr "abc") = Raise ValueError
  /\ eur_fmt (VStr "abc") = Ok ""
  /\ eur_fmt VNone = Ok "".
Proof.
  split; [|split; [|split; [|split]]].
  - intros x. unfold eur_fmt. destruct (py_float x); eauto.
  - intros x e H. unfold eur_fmt. now rewrite H.
  - vm_compute. reflexivity.
  - vm_compute. reflexivity.
  - vm_compute. reflexivity.
Qed.

Lemma eur_fmt_never_raises_witness : eur_fmt (VStr "abc") = Ok "".
Proof.
  exact (proj1 (proj2 eur_fmt_never_raises) (VStr "abc") ValueError eq_refl).
Defined.

(** C10.  The text "nan" converts to the float NaN, so the formatter
    returns "nan" for it, as for every input converting to NaN, the
    float NaN included; it is [clean], not the formatter, that maps
    "nan", "none" and "null" to the empty string. *)
Theorem eur_fmt_nan :
  py_float (VStr "nan") = Ok S754_nan
  /\ eur_fmt (VStr "nan") = Ok "nan"
  /\ eur_fmt (VFloat S754_nan) = Ok "nan"
  /\ (forall x : pyval, py_float x = Ok S754_nan -> eur_fmt x = Ok "nan")
  /\ eur_shape "nan" = false
  /\ clean (CStr "nan") = "" /\ clean (CStr "none") = "" /\ clean (CStr "null") = ""
  /\ clean CNaN = "".
Proof.
  split; [vm_compute; reflexivity|].
  split; [vm_compute; reflexivity|].
  split; [vm_compute; reflexivity|].
  split; [intros x H; rewrite eur_fmt_unfold, H; reflexivity|].
  repeat split; vm_compute; reflexivity.
Qed.

Lemma eur_fmt_nan_witness : eur_fmt (VStr "NaN") = Ok "nan".
Proof.
  exact (proj1 (proj2 (proj2 (proj2 eur_fmt_nan))) (VStr "NaN") eq_refl).
Defined.

(** ** The derived filename *)

Lemma all_app (p : ascii -> bool) (a b : string) :
  Str.all p (a ++ b) = Str.all p a && Str.all p b.
Proof.
  induction a as [|c r IH]; simpl; [reflexivity|].
  now rewrite IH, andb_assoc.
Qed.

Lemma all_impl (p q : ascii -> bool) (s : string) :
  (forall c, p c = true -> q c = true) -> Str.all p s = true -> Str.all q s = true.
Proof.
  intros Hpq. induction s as [|c r IH]; simpl; [reflexivity|].
  intros H. apply andb_true_iff in H. destruct H as [Hc Hr].
  now rewrite (Hpq c Hc), (IH Hr).
Qed.

Lemma sub_unsafe_kept (s : string) : Str.all kept_char (sub_unsafe s) = true.
Proof.
  induction s as [|c r IH]; simpl; [reflexivity|].
  destruct (kept_char c) eqn:E; simpl; [now rewrite E|exact IH].
Qed.

Lemma kept_not_space_safe (c : ascii) :
  kept_char c = true -> Str.is_space c = false -> safe_char c = true.
Proof.
  unfold kept_char, safe_char. intros H Hs. rewrite Hs in H.
  destruct (Str.is_upper_az c), (Str.is_lower_az c), (Str.is_digit c),
    (Ascii.eqb c "-"), (Ascii.eqb c "_"), (Ascii.eqb c "."); simpl in *; congruence.
Qed.

Lemma sub_space_runs_safe (in_run : bool) (s : string) :
  Str.all kept_char s = true -> Str.all safe_char (sub_space_runs in_run s) = true.
Proof.
  revert in_run. induction s as [|c r IH]; intros in_run H; simpl; [reflexivity|].
  simpl in H. apply andb_true_iff in H. destruct H as [Hc Hr].
  destruct (Str.is_space c) eqn:E.
  - destruct in_run; simpl; auto.
  - simpl. now rewrite (kept_not_space_safe c Hc E), IH.
Qed.

Lemma safe_char_not_space (c : ascii) : safe_char c = true -> not_space c = true.
Proof. ascii_cases c; intros H; try reflexivity; discriminate H. Qed.

Lemma safe_char_ascii (c : ascii) : safe_char c = true -> is_ascii c = true.
Proof. ascii_cases c; intros H; try reflexivity; discriminate H. Qed.

Lemma rev_onto_app (a b acc : string) :
  Str.rev_onto (a ++ b) acc = Str.rev_onto b (Str.rev_onto a acc).
Proof. revert acc. induction a as [|c r IH]; intros acc; simpl; auto. Qed.

Lemma endswith_appended (s : string) : Str.endswith (s ++ ".pdf") ".pdf" = true.
Proof. unfold Str.endswith. rewrite rev_onto_app. cbn. reflexivity. Qed.

Lemma lower_app (a b : string) : Str.lower (a ++ b) = Str.lower a ++ Str.lower b.
Proof.
  unfold Str.lower. induction a as [|c r IH]; simpl; [reflexivity|now rewrite IH].
Qed.

(** C9, as amended.  A derived filename is made of ASCII letters,
    digits, hyphen, underscore and dot only, so it has no whitespace
    and no character outside ASCII; it ends with ".pdf" up to letter
    case: ".pdf" is appended to the sanitized identifier unless that
    already ends with the extension in some letter case, and then it
    is returned as it is; and an empty or all-whitespace identifier
    yields "supplier_order.pdf". *)
Theorem sanitize_filename_safe :
  (forall name : string,
      Str.all safe_char (sanitize_filename name) = true
      /\ Str.all not_space (sanitize_filename name) = true
      /\ Str.all is_ascii (sanitize_filename name) = true
      /\ Str.endswith (Str.lower (sanitize_filename name)) ".pdf" = true)
  /\ (forall name : string,
         (Str.endswith (Str.lower (token name)) ".pdf" = false ->
          sanitize_filename name = token name ++ ".pdf")
         /\ (Str.endswith (Str.lower (token name)) ".pdf" = true ->
             sanitize_filename name = token name))
  /\ (forall name : string,
         Str.all Str.is_space name = true ->
         sanitize_filename name = "supplier_order.pdf")
  /\ sanitize_filename "" = "supplier_order.pdf".
Proof.
  assert (S : forall name, Str.all safe_char (sanitize_filename name) = true).
  { intros name. unfold sanitize_filename.
    set (n := if Str.truthy (Str.strip name) then Str.strip name else "supplier_order").
    pose proof (sub_space_runs_safe false _ (sub_unsafe_kept n)) as H.
    destruct (negb _); [|exact H].
    rewrite all_app, H. reflexivity. }
  split; [|split; [|split]].
  - intros name. repeat split.
    + apply S.
    + eapply all_impl; [apply safe_char_not_space | apply S].
    + eapply all_impl; [apply safe_char_ascii | apply S].
    + unfold sanitize_filename.
      set (t := sub_space_runs false _).
      destruct (Str.endswith (Str.lower t) ".pdf") eqn:E; simpl.
      * exact E.
      * rewrite lower_app. apply endswith_appended.
  - intros name. unfold sanitize_filename. fold (token name).
    split; intros ->; reflexivity.
  - intros name H. apply strip_empty_iff in H.
    unfold sanitize_filename. rewrite H. vm_compute. reflexivity.
  - vm_compute. reflexivity.
Qed.

Lemma sanitize_filename_safe_witness :
  sanitize_filename "   " = "supplier_order.pdf"
  /\ sanitize_filename "Order 17/a" = token "Order 17/a" ++ ".pdf".
Proof.
  split.
  - exact (proj1 (proj2 (proj2 sanitize_filename_safe)) "   " eq_refl).
  - exact (proj1 (proj1 (proj2 sanitize_filename_safe) "Order 17/a") eq_refl).
Defined.

(** C9 as stated fails: an identifier ending with the extension in
    capitals keeps it, and the result does not end with ".pdf". *)
Lemma sanitize_filename_uppercase_counterexample :
  sanitize_filename "a.PDF" = "a.PDF"
  /\ ~ (forall name : string, Str.endswith (sanitize_filename name) ".pdf" = true).
Proof.
  split; [vm_compute; reflexivity|].
  intros H. specialize (H "a.PDF"). vm_compute in H. discriminate H.
Qed.

(** ** The column-width scaler *)

Lemma bind_ok {A B : Type} (m : result A) (k : A -> result B) (b : B) :
  bind m k = Ok b -> exists a, m = Ok a /\ k a = Ok b.
Proof. destruct m as [a|e]; simpl; [eauto|discriminate]. Qed.

Lemma mapM_Forall2 {A B : Type} (f : A -> result B) (l : list A) (out : list B) :
  mapM f l = Ok out -> Forall2 (fun x y => f x = Ok y) l out.
Proof.
  revert out. induction l as [|x r IH]; intros out H; simpl in H.
  - injection H as <-. constructor.
  - apply bind_ok in H. destruct H as (y & Hy & H).
    apply bind_ok in H. destruct H as (ys & Hys & H).
    injection H as <-. constructor; auto.
Qed.

Lemma mapM_length {A B : Type} (f : A -> result B) (l : list A) (out : list B) :
  mapM f l = Ok out -> List.length out = List.length l.
Proof.
  intros H. apply mapM_Forall2 in H.
  induction H; simpl; congruence.
Qed.

Lemma scale_mm_cases {A : Type} `{Number A} (ws : list A) (T s : A) :
  py_sum ws = Ok s ->
  scale_mm ws T =
    if n_leb s of_int0 then Ok ws
    else f <- n_truediv T s ;; mapM (fun w => n_mul w f) ws.
Proof. intros E. unfold scale_mm. rewrite E. reflexivity. Qed.

Lemma sum_from_floats (ws : list num) (a : spec_float) :
  Forall (fun w => is_float w = true) ws ->
  exists s, sum_from (NFloat a) ws = Ok (NFloat s).
Proof.
  intros H. revert a. induction H as [|w r Hw _ IH]; intros a; simpl.
  - eauto.
  - destruct w as [z|f]; [discriminate Hw|]. simpl. apply IH.
Qed.

Lemma py_sum_floats (w : num) (ws : list num) :
  Forall (fun w => is_float w = true) (w :: ws) ->
  exists s, py_sum (w :: ws) = Ok (NFloat s).
Proof.
  intros H. inversion_clear H as [|? ? Hw Hr].
  destruct w as [z|f]; [discriminate Hw|].
  unfold py_sum. simpl. now apply sum_from_floats.
Qed.

Lemma num_leb_zero_false (s : spec_float) :
  num_leb (NFloat s) (NInt 0) = false -> F.is_zero s = false.
Proof.
  destruct s as [b|b| |b m e]; intros H; try reflexivity.
  cbv in H. discriminate H.
Qed.

Lemma mapM_mul_floats (f : spec_float) (ws : list num) :
  Forall (fun w => is_float w = true) ws ->
  exists out, mapM (fun w => num_mul w (NFloat f)) ws = Ok out.
Proof.
  induction 1 as [|w r Hw _ (out & IH)]; simpl.
  - eauto.
  - destruct w as [z|g]; [discriminate Hw|]. simpl. rewrite IH. simpl. eauto.
Qed.

Lemma truediv_by_float (T : num) (t s : spec_float) :
  num_to_float T = Ok t ->
  num_truediv T (NFloat s)
  = if F.is_zero s then Raise ZeroDivisionError else Ok (NFloat (F.div t s)).
Proof.
  intros E. destruct T as [z|f]; unfold num_truediv; rewrite E; reflexivity.
Qed.

Lemma scale_mm_floats_total (ws : list num) (T : num) (t : spec_float) :
  Forall (fun w => is_float w = true) ws ->
  num_to_float T = Ok t ->
  exists out, scale_mm ws T = Ok out.
Proof.
  intros H Ht. destruct ws as [|w r].
  - exists []. reflexivity.
  - destruct (py_sum_floats w r H) as (s & Hs).
    rewrite (scale_mm_cases _ _ _ Hs).
    change (n_leb (NFloat s) of_int0) with (num_leb (NFloat s) (NInt 0)).
    destruct (num_leb (NFloat s) (NInt 0)) eqn:E; [eauto|].
    apply num_leb_zero_false in E.
    change (n_truediv T (NFloat s)) with (num_truediv T (NFloat s)).
    rewrite (truediv_by_float T t s Ht), E. cbn [bind].
    exact (mapM_mul_floats (F.div t s) (w :: r) H).
Qed.

Lemma Q_sum_from (l : list Q) (acc : Q) :
  exists r, sum_from acc l = Ok r /\ (r == acc + Qsum l)%Q.
Proof.
  revert acc. induction l as [|w l IH]; intros acc; simpl.
  - exists acc. split; [reflexivity|ring].
  - destruct (IH (acc + w)%Q) as (r & Hr & E).
    exists r. split; [exact Hr|]. rewrite E. ring.
Qed.

Lemma Q_mapM_mul (f : Q) (l : list Q) :
  mapM (fun w => n_mul w f) l = Ok (List.map (fun w => w * f)%Q l).
Proof.
  induction l as [|w l IH]; [reflexivity|].
  cbn [mapM List.map]. rewrite IH. reflexivity.
Qed.

Lemma Qsum_scaled (f : Q) (l : list Q) :
  (Qsum (List.map (fun w => w * f) l) == Qsum l * f)%Q.
Proof.
  induction l as [|w l IH]; simpl; [ring|].
  rewrite IH. ring.
Qed.

Lemma scale_mm_Q_sum (ws : list Q) (T s : Q) :
  py_sum ws = Ok s -> (0 < s)%Q ->
  exists out tot, scale_mm ws T = Ok out /\ py_sum out = Ok tot /\ (tot == T)%Q.
Proof.
  intros Hs Hpos.
  destruct (Q_sum_from ws 0%Q) as (s' & Hs' & Es).
  unfold py_sum in Hs. simpl of_int0 in Hs. rewrite Hs' in Hs. injection Hs as ->.
  assert (Hne : ~ (s == 0)%Q) by (intros E; rewrite E in Hpos; discriminate Hpos).
  rewrite (scale_mm_cases ws T s Hs').
  change (n_leb s of_int0) with (Qle_bool s 0).
  destruct (Qle_bool s 0) eqn:L.
  { apply Qle_bool_iff in L. exfalso. apply (Qlt_not_le _ _ Hpos L). }
  change (n_truediv T s)
    with (if Qeq_bool s 0 then @Raise Q ZeroDivisionError else Ok (T / s)%Q).
  destruct (Qeq_bool s 0) eqn:Z.
  { apply Qeq_bool_iff in Z. contradiction. }
  cbn [bind]. rewrite Q_mapM_mul.
  destruct (Q_sum_from (List.map (fun w => w * (T / s))%Q ws) 0%Q) as (tot & Ht & Et).
  exists (List.map (fun w => w * (T / s))%Q ws), tot.
  split; [reflexivity|]. split; [exact Ht|].
  rewrite Et, Qsum_scaled. rewrite Qplus_0_l in Es. rewrite <- Es.
  field. exact Hne.
Qed.

Lemma col_w_mm_ok : scale_mm base_mm target_total_mm = Ok col_w_mm_value.
Proof. vm_compute. reflexivity. Qed.




(** ** The composer *)

Lemma eur_fmt_total (x : pyval) : exists s, eur_fmt x = Ok s.
Proof. unfold eur_fmt. destruct (py_float x); eauto. Qed.

Lemma raises_false {A : Type} (m : result A) :
  negb (raises m) = true -> exists a, m = Ok a.
Proof. destruct m; simpl; [eauto|discriminate]. Qed.

Lemma col_w_pts_ok :
  mapM (fun w => num_mul w (NFloat mm)) col_w_mm_value = Ok col_w_pts_value.
Proof. vm_compute. reflexivity. Qed.

Lemma loop_body_inv (m : meta) (bf : Z) (st st' : loop_state) (r : row) :
  loop_body m bf st r = Ok st' ->
  exists t,
    read_total r = Ok t
    /\ net_sum st' = F.add (net_sum st) t
    /\ List.length (data st') = S (List.length (data st))
    /\ pos st' = pos st + 1.
Proof.
  unfold loop_body. intros H.
  apply bind_ok in H. destruct H as (n & _ & H).
  apply bind_ok in H. destruct H as (t & Ht & H).
  apply bind_ok in H. destruct H as (q & _ & H).
  apply bind_ok in H. destruct H as (pct & _ & H).
  apply bind_ok in H. destruct H as (en & _ & H).
  apply bind_ok in H. destruct H as (et & _ & H).
  injection H as <-. exists t. cbn [net_sum data pos].
  repeat split; try assumption.
  unfold append. rewrite length_app. simpl. lia.
Qed.

Lemma row_loop_inv (m : meta) (bf : Z) (lines : list row) (st st' : loop_state) :
  row_loop m bf st lines = Ok st' ->
  exists ts,
    mapM read_total lines = Ok ts
    /\ net_sum st' = fold_left F.add ts (net_sum st)
    /\ List.length (data st') = (List.length (data st) + List.length lines)%nat
    /\ pos st' = pos st + Z.of_nat (List.length lines).
Proof.
  revert st. induction lines as [|r rest IH]; intros st H; simpl in H.
  - injection H as <-. exists []. simpl. repeat split; lia.
  - apply bind_ok in H. destruct H as (st1 & H1 & H).
    apply loop_body_inv in H1. destruct H1 as (t & Ht & Hn & Hl & Hp).
    apply IH in H. destruct H as (ts & Hts & Hn' & Hl' & Hp').
    exists (t :: ts). cbn [mapM]. rewrite Ht, Hts. cbn [bind fold_left].
    rewrite <- Hn. repeat split; try assumption.
    + rewrite Hl', Hl. simpl. lia.
    + rewrite Hp', Hp. cbn [List.length]. lia.
Qed.

Lemma loop_body_total (m : meta) (bf : Z) (st : loop_state) (r : row) :
  meta_ok m = true -> row_ok r = true -> exists st', loop_body m bf st r = Ok st'.
Proof.
  unfold meta_ok, row_ok. intros Hm Hr.
  apply andb_true_iff in Hr. destruct Hr as [Hr Hq].
  apply andb_true_iff in Hr. destruct Hr as [Hn Ht].
  apply raises_false in Hm, Hn, Ht, Hq.
  destruct Hm as (pct & Hm), Hn as (n & Hn), Ht as (t & Ht), Hq as (q & Hq).
  destruct (eur_fmt_total (VFloat n)) as (en & Hen).
  destruct (eur_fmt_total (VFloat t)) as (et & Het).
  unfold loop_body. rewrite Hn, Ht, Hq, Hm. cbn [bind]. rewrite Hen, Het. cbn [bind].
  eauto.
Qed.

Lemma row_loop_total (m : meta) (bf : Z) (lines : list row) (st : loop_state) :
  meta_ok m = true -> forallb row_ok lines = true ->
  exists st', row_loop m bf st lines = Ok st'.
Proof.
  intros Hm. revert st. induction lines as [|r rest IH]; intros st Hl; simpl.
  - eauto.
  - simpl in Hl. apply andb_true_iff in Hl. destruct Hl as [Hr Hl].
    destruct (loop_body_total m bf st r Hm Hr) as (st1 & H1).
    rewrite H1. cbn [bind]. now apply IH.
Qed.

(** What [build_pdf] returns once the row loop has. *)
Lemma build_pdf_after_loop (m : meta) (lines : list row) (st : loop_state)
      (pct enet evat egross : string) :
  row_loop m (body_font (rows (List.length lines))) initial_state lines = Ok st ->
  vat_percent m = Ok pct ->
  eur_fmt (VFloat (net_sum st)) = Ok enet ->
  eur_fmt (VFloat (F.mul (net_sum st) (vat_rate m))) = Ok evat ->
  eur_fmt (VFloat (F.add (net_sum st) (F.mul (net_sum st) (vat_rate m)))) = Ok egross ->
  exists d,
    build_pdf m lines = Ok d
    /\ item_table d = data st
    /\ totals_table d = totals_rows pct enet evat egross
    /\ title_table d =
         [[Par sender_block Normal8;
           Par ((if Str.truthy (your_order_ref m)
                 then ("<b>Order</b><br/>Our Order No.: " ++ order_no m)
                      ++ "<br/>Your order ref.: " ++ your_order_ref m
                 else "<b>Order</b><br/>Our Order No.: " ++ order_no m)
                ++ "<br/>VAT ID: " ++ vat_id m) Normal8]]
    /\ nth_error (List.concat (meta_table d)) 0 =
         Some (Par ("<b>Shipping address:</b><br/>"
                    ++ (if Str.truthy (ship_to m) then br (clean (CStr (ship_to m))) else ""))
                   Normal8).
Proof.
  intros Hloop Hpct Hn Hv Hg.
  unfold build_pdf. rewrite col_w_mm_ok. cbn [bind]. rewrite col_w_pts_ok. cbn [bind].
  fold initial_state. rewrite Hloop. cbn [bind].
  rewrite Hn. cbn [bind]. rewrite Hpct. cbn [bind].
  rewrite Hv. cbn [bind]. rewrite Hg. cbn [bind].
  eexists. split; [reflexivity|].
  repeat split.
Qed.

Lemma build_pdf_inv (m : meta) (lines : list row) (d : document) :
  build_pdf m lines = Ok d ->
  exists st pct enet evat egross,
    row_loop m (body_font (rows (List.length lines))) initial_state lines = Ok st
    /\ vat_percent m = Ok pct
    /\ eur_fmt (VFloat (net_sum st)) = Ok enet
    /\ eur_fmt (VFloat (F.mul (net_sum st) (vat_rate m))) = Ok evat
    /\ eur_fmt (VFloat (F.add (net_sum st) (F.mul (net_sum st) (vat_rate m)))) = Ok egross
    /\ item_table d = data st
    /\ totals_table d = totals_rows pct enet evat egross
    /\ table_font (nth 4 (story d) (Spacer 0 0))
       = Some (body_font (rows (List.length lines)))
    /\ table_font (nth 6 (story d) (Spacer 0 0))
       = Some (body_font (rows (List.length lines)))
    /\ nth 8 (story d) (Spacer 0 0)
       = Paragraph disclaimer (Tiny (small_font (body_font (rows (List.length lines))))).
Proof.
  unfold build_pdf. rewrite col_w_mm_ok. cbn [bind]. rewrite col_w_pts_ok. cbn [bind].
  fold initial_state. intros H.
  apply bind_ok in H. destruct H as (st & Hst & H).
  apply bind_ok in H. destruct H as (enet & Hn & H).
  apply bind_ok in H. destruct H as (pct & Hp & H).
  apply bind_ok in H. destruct H as (evat & Hv & H).
  apply bind_ok in H. destruct H as (egross & Hg & H).
  injection H as <-.
  exists st, pct, enet, evat, egross. repeat split; assumption.
Qed.

Lemma build_pdf_total (m : meta) (lines : list row) :
  meta_ok m = true -> forallb row_ok lines = true ->
  exists d,
    build_pdf m lines = Ok d
    /\ List.length (item_table d) = S (List.length lines)
    /\ (ship_to m = "" ->
        nth_error (List.concat (meta_table d)) 0
        = Some (Par "<b>Shipping address:</b><br/>" Normal8))
    /\ (your_order_ref m = "" ->
        title_table d =
          [[Par sender_block Normal8;
            Par (("<b>Order</b><br/>Our Order No.: " ++ order_no m)
                 ++ "<br/>VAT ID: " ++ vat_id m) Normal8]]).
Proof.
  intros Hm Hl.
  destruct (row_loop_total m (body_font (rows (List.length lines))) lines
              initial_state Hm Hl) as (st & Hst).
  pose proof Hm as Hm'. apply raises_false in Hm'. destruct Hm' as (pct & Hp).
  destruct (eur_fmt_total (VFloat (net_sum st))) as (enet & Hn).
  destruct (eur_fmt_total (VFloat (F.mul (net_sum st) (vat_rate m)))) as (evat & Hv).
  destruct (eur_fmt_total
              (VFloat (F.add (net_sum st) (F.mul (net_sum st) (vat_rate m)))))
    as (egross & Hg).
  destruct (build_pdf_after_loop m lines st pct enet evat egross Hst Hp Hn Hv Hg)
    as (d & Hd & Hi & _ & Ht & Hs).
  exists d. split; [exact Hd|]. split; [|split].
  - rewrite Hi. apply row_loop_inv in Hst.
    destruct Hst as (ts & _ & _ & Hlen & _). rewrite Hlen. reflexivity.
  - intros E. rewrite Hs, E. reflexivity.
  - intros E. rewrite Ht, E. reflexivity.
Qed.

Lemma read_total_float (r : row) (t : spec_float) :
  total r = VFloat t -> F.is_zero t = false -> read_total r = Ok t.
Proof.
  intros E Z. unfold read_total, py_or. rewrite E. simpl. rewrite Z. reflexivity.
Qed.



(** *** Rates in the unit interval have a finite percentage *)

Lemma digits2_size (p : positive) : digits2_pos p = Pos.size p.
Proof. induction p; simpl; congruence. Qed.

Lemma Zdigits2_upper (z k : Z) : 0 <= k -> 0 <= z < 2 ^ k -> Zdigits2 z <= k.
Proof.
  intros Hk [H0 H].
  destruct z as [|p|p]; simpl; [assumption| |lia].
  rewrite digits2_size.
  pose proof (Pos.size_le p) as L.
  assert (E : Zpos (2 ^ Pos.size p)%positive = 2 ^ Zpos (Pos.size p)) by apply Pos2Z.inj_pow.
  assert (L' : 2 ^ Zpos (Pos.size p) <= 2 * Zpos p) by (rewrite <- E; exact L).
  destruct (Z_lt_le_dec k (Zpos (Pos.size p))) as [C|C]; [|exact C].
  exfalso.
  assert (2 ^ (k + 1) <= 2 ^ Zpos (Pos.size p)) by (apply Z.pow_le_mono_r; lia).
  rewrite Z.pow_add_r in H1 by lia. lia.
Qed.

Lemma shr_1_bounds (mrs : shr_record) :
  0 <= shr_m mrs -> 0 <= shr_m (shr_1 mrs) <= shr_m mrs.
Proof.
  destruct mrs as [m r s]. simpl. intros H.
  destruct m as [|p|p]; simpl; try lia.
  destruct p; simpl; lia.
Qed.

Lemma iter_shr_1_bounds (p : positive) (mrs : shr_record) :
  0 <= shr_m mrs -> 0 <= shr_m (SpecFloat.iter_pos shr_1 p mrs) <= shr_m mrs.
Proof.
  revert mrs. induction p as [p IH|p IH|]; intros mrs H; simpl.
  - pose proof (shr_1_bounds mrs H) as B1.
    pose proof (IH (shr_1 mrs) (proj1 B1)) as B2.
    pose proof (IH _ (proj1 B2)) as B3. lia.
  - pose proof (IH mrs H) as B2.
    pose proof (IH _ (proj1 B2)) as B3. lia.
  - now apply shr_1_bounds.
Qed.

Lemma shr_bounds (mrs : shr_record) (e n : Z) :
  0 <= shr_m mrs ->
  0 <= shr_m (fst (shr mrs e n)) <= shr_m mrs
  /\ (snd (shr mrs e n) = e \/ snd (shr mrs e n) = e + n).
Proof.
  intros H. unfold shr. destruct n as [|p|p]; simpl; try (split; [lia|now left]).
  split; [now apply iter_shr_1_bounds|now right].
Qed.

Lemma shr_m_of_loc (m : Z) (l : location) : shr_m (shr_record_of_loc m l) = m.
Proof. destruct l as [|[]]; reflexivity. Qed.

Lemma shr_fexp_bounds (m e : Z) (l : location) :
  0 <= m ->
  0 <= shr_m (fst (shr_fexp F.prec F.emax m e l)) <= m
  /\ (snd (shr_fexp F.prec F.emax m e l) = e
      \/ snd (shr_fexp F.prec F.emax m e l) = fexp F.prec F.emax (Zdigits2 m + e)).
Proof.
  intros H. unfold shr_fexp.
  pose proof (shr_bounds (shr_record_of_loc m l) e
                (fexp F.prec F.emax (Zdigits2 m + e) - e)) as B.
  rewrite shr_m_of_loc in B. specialize (B H).
  destruct B as [B1 [B2|B2]]; split; try exact B1; [now left|right].
  rewrite B2. lia.
Qed.

Lemma round_nearest_even_bounds (m : Z) (l : location) :
  0 <= m -> m <= round_nearest_even m l <= m + 1.
Proof.
  intros H. destruct l as [|[]]; simpl; try lia.
  destruct (Z.even m); lia.
Qed.

Lemma fexp_le (x b : Z) : x - 53 <= b -> -1074 <= b -> fexp F.prec F.emax x <= b.
Proof. unfold fexp, emin, F.prec, F.emax. lia. Qed.

Lemma round_aux_finite (s : bool) (mx : positive) (ex : Z) :
  Zpos mx < 2 ^ 106 -> ex <= -98 ->
  F.is_finite (binary_round_aux F.prec F.emax s (Zpos mx) ex loc_Exact) = true.
Proof.
  intros Hm He. unfold binary_round_aux.
  pose proof (shr_fexp_bounds (Zpos mx) ex loc_Exact ltac:(lia)) as [B1 B2].
  destruct (shr_fexp F.prec F.emax (Zpos mx) ex loc_Exact) as [mrs1 e1].
  cbn [fst snd] in B1, B2.
  assert (He1 : e1 <= -45).
  { destruct B2 as [->| ->]; [lia|].
    apply fexp_le; [|lia].
    pose proof (Zdigits2_upper (Zpos mx) 106 ltac:(lia) ltac:(lia)). lia. }
  pose proof (round_nearest_even_bounds (shr_m mrs1) (loc_of_shr_record mrs1)
                (proj1 B1)) as R.
  set (m1 := round_nearest_even (shr_m mrs1) (loc_of_shr_record mrs1)) in *.
  pose proof (shr_fexp_bounds m1 e1 loc_Exact ltac:(lia)) as [C1 C2].
  destruct (shr_fexp F.prec F.emax m1 e1 loc_Exact) as [mrs2 e2].
  cbn [fst snd] in C1, C2.
  assert (He2 : e2 <= 971).
  { destruct C2 as [->| ->]; [lia|].
    apply fexp_le; [|lia].
    pose proof (Zdigits2_upper m1 107 ltac:(lia)) as D.
    assert (2 ^ 107 = 2 * 2 ^ 106) by reflexivity.
    specialize (D ltac:(lia)). lia. }
  destruct (shr_m mrs2) as [|p|p]; [reflexivity| |lia].
  unfold F.emax, F.prec.
  destruct (Z.leb_spec e2 (1024 - 53)); [reflexivity|lia].
Qed.

Lemma bounded_mantissa (m : positive) (e : Z) :
  bounded F.prec F.emax m e = true -> Zpos m < 2 ^ 53.
Proof.
  unfold bounded, canonical_mantissa. intros H.
  apply andb_true_iff in H. destruct H as [H _].
  apply Z.eqb_eq in H.
  assert (D : Zpos (digits2_pos m) <= 53).
  { unfold fexp, emin, F.prec, F.emax in H. lia. }
  rewrite digits2_size in D.
  pose proof (Pos.size_gt m) as G.
  assert (G' : Zpos m < 2 ^ Zpos (Pos.size m)).
  { rewrite <- Pos2Z.inj_pow. exact G. }
  assert (2 ^ Zpos (Pos.size m) <= 2 ^ 53) by (apply Z.pow_le_mono_r; lia).
  lia.
Qed.

Lemma leb_one_exponent (m : positive) (e : Z) :
  SFleb (S754_finite false m e) F.one = true -> e <= -52.
Proof.
  change F.one with (S754_finite false 4503599627370496 (-52)).
  unfold SFleb, SFcompare.
  destruct (Z.compare_spec e (-52)) as [C|C|C]; intros L; try lia; discriminate L.
Qed.

Lemma unit_rate_ok (r : spec_float) : unit_rate r = true -> rate_ok r = true.
Proof.
  unfold unit_rate, rate_ok. intros H.
  apply andb_true_iff in H. destruct H as [H L].
  apply andb_true_iff in H. destruct H as [V S].
  rewrite S.
  destruct r as [s|s| |s m e]; simpl in S.
  - reflexivity.
  - destruct s; [discriminate S|discriminate L].
  - discriminate L.
  - destruct s; [discriminate S|].
    simpl in V.
    pose proof (bounded_mantissa m e V) as Hm.
    pose proof (leb_one_exponent m e L) as He.
    change (F.of_Z 100) with (S754_finite false 7036874417766400 (-46)).
    change (F.mul (S754_finite false m e) (S754_finite false 7036874417766400 (-46)))
      with (binary_round_aux F.prec F.emax false
              (Zpos (m * 7036874417766400)) (e + -46) loc_Exact).
    rewrite round_aux_finite; [reflexivity| |lia].
    rewrite Pos2Z.inj_mul.
    assert (Zpos 7036874417766400 < 2 ^ 53) by reflexivity.
    assert (E : 2 ^ 106 = 2 ^ 53 * 2 ^ 53) by reflexivity.
    rewrite E. apply Z.mul_lt_mono_nonneg; lia.
Qed.

Lemma rate_ok_meta_ok (m : meta) : rate_ok (vat_rate m) = true -> meta_ok m = true.
Proof.
  unfold rate_ok, meta_ok, vat_percent. intros H.
  apply andb_true_iff in H. destruct H as [_ H].
  unfold py_int. destruct (F.mul (vat_rate m) (F.of_Z 100)); try discriminate H; reflexivity.
Qed.

Lemma zero_times_rate (r : spec_float) :
  rate_ok r = true -> F.mul F.zero r = F.zero.
Proof.
  unfold rate_ok. intros H.
  apply andb_true_iff in H. destruct H as [H _].
  apply andb_true_iff in H. destruct H as [Hs Hf].
  destruct r as [s|s| |s m e]; try discriminate Hf; simpl in Hs;
    destruct s; try discriminate Hs; reflexivity.
Qed.



(** ** The fit policy *)

(** C6.  With [n] lines the body font is 8 up to 18 rows, 7 from 19 to
    24 and 6 above; the small font is 7 when the body font is at least
    7 and 6 otherwise; these are the sizes of the item table and of the
    disclaimer in every document [build_pdf] returns; 10, 20 and 30
    lines give (8,7), (7,7), (6,6). *)
Theorem fit_policy :
  (forall n : nat,
      ((n <= 18)%nat -> body_font (rows n) = 8)
      /\ ((18 < n <= 24)%nat -> body_font (rows n) = 7)
      /\ ((24 < n)%nat -> body_font (rows n) = 6))
  /\ (forall b : Z, (7 <= b -> small_font b = 7) /\ (b < 7 -> small_font b = 6))
  /\ (forall (m : meta) (lines : list row) (d : document),
         build_pdf m lines = Ok d ->
         table_font (nth 4 (story d) (Spacer 0 0))
         = Some (body_font (rows (List.length lines)))
         /\ nth 8 (story d) (Spacer 0 0)
            = Paragraph disclaimer
                (Tiny (small_font (body_font (rows (List.length lines))))))
  /\ (body_font (rows 10), small_font (body_font (rows 10))) = (8, 7)
  /\ (body_font (rows 20), small_font (body_font (rows 20))) = (7, 7)
  /\ (body_font (rows 30), small_font (body_font (rows 30))) = (6, 6).
Proof.
  split; [|split; [|split; [|repeat split]]].
  - intros n. unfold body_font, rows.
    repeat split; intros H.
    + destruct (Z.leb_spec (Z.max 1 (Z.of_nat n)) 18); [reflexivity|lia].
    + destruct (Z.leb_spec (Z.max 1 (Z.of_nat n)) 18); [lia|].
      destruct (Z.leb_spec (Z.max 1 (Z.of_nat n)) 24); [reflexivity|lia].
    + destruct (Z.leb_spec (Z.max 1 (Z.of_nat n)) 18); [lia|].
      destruct (Z.leb_spec (Z.max 1 (Z.of_nat n)) 24); [lia|reflexivity].
  - intros b. unfold small_font.
    split; intros H; destruct (Z.leb_spec 7 b); try reflexivity; lia.
  - intros m lines d H. apply build_pdf_inv in H.
    destruct H as (st & pct & enet & evat & egross & _ & _ & _ & _ & _ & _ & _ & Hf & _ & Hd).
    split; assumption.
Qed.

Lemma fit_policy_witness : body_font (rows 21) = 7 /\ small_font 7 = 7.
Proof.
  split.
  - apply (proj1 (proj2 (proj1 fit_policy 21%nat))). lia.
  - apply (proj1 (proj1 (proj2 fit_policy) 7)). lia.
Defined.

(** * Further properties *)

(** ** Cleaning and the article text *)

Lemma rstrip_head (p : ascii -> bool) (c : ascii) (r : string) :
  p c = false -> exists r', Str.rstrip_by p (String c r) = String c r'.
Proof.
  intros Hc. simpl. destruct (Str.rstrip_by p r); [rewrite Hc|]; eauto.
Qed.

Lemma rstrip_idem (p : ascii -> bool) (s : string) :
  Str.rstrip_by p (Str.rstrip_by p s) = Str.rstrip_by p s.
Proof.
  induction s as [|c r IH]; [reflexivity|].
  simpl. destruct (Str.rstrip_by p r) as [|d t] eqn:E.
  - destruct (p c) eqn:Hc; [reflexivity|]. simpl. now rewrite Hc.
  - change (Str.rstrip_by p (String c (String d t)))
      with (match Str.rstrip_by p (String d t) with
            | EmptyString => if p c then EmptyString else String c EmptyString
            | r' => String c r'
            end).
    rewrite IH. reflexivity.
Qed.

Lemma strip_by_idem (p : ascii -> bool) (s : string) :
  Str.strip_by p (Str.strip_by p s) = Str.strip_by p s.
Proof.
  unfold Str.strip_by.
  destruct (lstrip_shape p s) as [E | (c & r & E & Hc)]; rewrite E.
  - reflexivity.
  - destruct (rstrip_head p c r Hc) as (r' & E').
    rewrite E'. cbn [Str.lstrip_by]. rewrite Hc, <- E'. apply rstrip_idem.
Qed.

(** X1.  [clean] is idempotent and its result is trimmed: cleaning a
    cleaned text changes nothing, and a cleaned text has no whitespace
    at either end. *)
Theorem clean_idempotent (v : cell) :
  clean (CStr (clean v)) = clean v /\ Str.strip (clean v) = clean v.
Proof.
  destruct (blank v) eqn:B.
  - apply clean_blank in B. rewrite B. split; reflexivity.
  - pose proof B as B'. apply clean_present in B'. destruct B' as (s & -> & E).
    unfold blank in B. apply orb_false_iff in B. destruct B as [_ M].
    rewrite E. split.
    + unfold clean, pd_isna, cell_str.
      unfold Str.strip. rewrite strip_by_idem. fold (Str.strip s). now rewrite M.
    + unfold Str.strip. apply strip_by_idem.
Qed.

Lemma join_empty (sep : string) (parts : list string) :
  Forall (fun p => Str.truthy p = true) parts ->
  (Str.join sep parts = "" <-> parts = []).
Proof.
  intros H. split; [|now intros ->].
  destruct H as [|p rest Hp _]; [reflexivity|].
  destruct p as [|c p]; [discriminate Hp|].
  destruct rest; simpl; discriminate.
Qed.

Lemma article_parts_present (r : row) :
  Forall (fun p => Str.truthy p = true) (article_parts r).
Proof.
  unfold article_parts, append.
  destruct (Str.truthy (clean (product_group r))) eqn:G,
           (Str.truthy (clean (model r))) eqn:M,
           (Str.truthy (clean (wall_build r))) eqn:W,
           (Str.truthy (clean (color r))) eqn:C,
           (String.eqb (clean (product_group r)) "Bins"
            && Str.truthy (clean (drain r))
            && negb (String.eqb (Str.lower (clean (drain r))) "none"));
    simpl; repeat constructor; assumption || reflexivity.
Qed.

Lemma truthy_clean (v : cell) : Str.truthy (clean v) = negb (blank v).
Proof.
  destruct (blank v) eqn:B.
  - apply clean_blank in B. now rewrite B.
  - destruct (clean v) eqn:E; [|reflexivity].
    apply clean_blank in E. congruence.
Qed.

(** X2.  Every part of an article text is non-empty, and the article
    text is empty exactly when group, model, wall build and color are
    all blank: a line without attributes leaves no separator behind. *)
Theorem article_no_stray_separator (r : row) :
  Forall (fun p => Str.truthy p = true) (article_parts r)
  /\ (article r = "" <->
      blank (product_group r) = true /\ blank (model r) = true
      /\ blank (wall_build r) = true /\ blank (color r) = true).
Proof.
  split; [apply article_parts_present|].
  unfold article. rewrite (join_empty _ _ (article_parts_present r)).
  unfold article_parts, append. rewrite !truthy_clean.
  destruct (blank (product_group r)) eqn:G.
  - apply clean_blank in G. rewrite G.
    destruct (blank (model r)), (blank (wall_build r)), (blank (color r));
      simpl; split; try discriminate; try tauto;
      intros (_ & A & B & C); discriminate.
  - destruct (blank (model r)), (blank (wall_build r)), (blank (color r)),
      (String.eqb (clean (product_group r)) "Bins"
       && negb (blank (drain r))
       && negb (String.eqb (Str.lower (clean (drain r))) "none"));
      simpl; split; try discriminate; intros (A & _); discriminate.
Qed.

(** ** The derived filename, again *)

Lemma strip_by_none (p : ascii -> bool) (s : string) :
  Str.all (fun c => negb (p c)) s = true -> Str.strip_by p s = s.
Proof.
  intros H. unfold Str.strip_by.
  assert (L : Str.lstrip_by p s = s).
  { destruct s as [|c r]; [reflexivity|]. simpl in H |- *.
    apply andb_true_iff in H. destruct H as [Hc _].
    apply negb_true_iff in Hc. now rewrite Hc. }
  rewrite L. clear L.
  induction s as [|c r IH]; [reflexivity|].
  simpl in H. apply andb_true_iff in H. destruct H as [Hc Hr].
  apply negb_true_iff in Hc. simpl. rewrite (IH Hr).
  destruct r; [now rewrite Hc|reflexivity].
Qed.

Lemma sub_unsafe_id (s : string) :
  Str.all kept_char s = true -> sub_unsafe s = s.
Proof.
  induction s as [|c r IH]; [reflexivity|]. simpl. intros H.
  apply andb_true_iff in H. destruct H as [Hc Hr].
  now rewrite Hc, IH.
Qed.

Lemma sub_space_runs_id (s : string) :
  Str.all not_space s = true -> sub_space_runs false s = s.
Proof.
  induction s as [|c r IH]; [reflexivity|]. simpl. intros H.
  apply andb_true_iff in H. destruct H as [Hc Hr].
  unfold not_space in Hc. apply negb_true_iff in Hc.
  now rewrite Hc, IH.
Qed.

Lemma safe_char_kept (c : ascii) : safe_char c = true -> kept_char c = true.
Proof.
  unfold safe_char, kept_char. intros H.
  destruct (Str.is_upper_az c), (Str.is_lower_az c), (Str.is_digit c),
    (Ascii.eqb c "-"), (Ascii.eqb c "_"), (Ascii.eqb c "."), (Str.is_space c);
    simpl in *; congruence.
Qed.

Lemma sanitize_fixed (s : string) :
  Str.all safe_char s = true ->
  Str.endswith (Str.lower s) ".pdf" = true ->
  sanitize_filename s = s.
Proof.
  intros Hs He.
  assert (Hn : Str.all not_space s = true)
    by (eapply all_impl; [apply safe_char_not_space | exact Hs]).
  assert (Hk : Str.all kept_char s = true)
    by (eapply all_impl; [apply safe_char_kept | exact Hs]).
  unfold sanitize_filename.
  change (Str.strip s) with (Str.strip_by Str.is_space s).
  rewrite (strip_by_none Str.is_space s Hn).
  destruct s as [|c r]; [discriminate He|].
  cbn [Str.truthy]. rewrite (sub_unsafe_id _ Hk), (sub_space_runs_id _ Hn), He.
  reflexivity.
Qed.

Lemma sanitize_shape (name : string) :
  Str.all safe_char (sanitize_filename name) = true
  /\ Str.endswith (Str.lower (sanitize_filename name)) ".pdf" = true.
Proof.
  unfold sanitize_filename.
  set (n := if Str.truthy (Str.strip name) then Str.strip name else "supplier_order").
  pose proof (sub_space_runs_safe false _ (sub_unsafe_kept n)) as H.
  set (t := sub_space_runs false (sub_unsafe n)) in *.
  destruct (Str.endswith (Str.lower t) ".pdf") eqn:E; simpl.
  - split; assumption.
  - split.
    + rewrite all_app, H. reflexivity.
    + rewrite lower_app. apply endswith_appended.
Qed.

(** X3.  [sanitize_filename] is idempotent, and the default the caller
    supplies for an empty order number changes nothing: the download
    name is [sanitize_filename(order_no)] and sanitizing it again gives
    the same name. *)
Theorem sanitize_filename_idempotent (name : string) :
  sanitize_filename (sanitize_filename name) = sanitize_filename name
  /\ auto_filename name = sanitize_filename name
  /\ sanitize_filename (auto_filename name) = auto_filename name.
Proof.
  destruct (sanitize_shape name) as [Hs He].
  assert (A : auto_filename name = sanitize_filename name).
  { unfold auto_filename. destruct name; reflexivity. }
  split; [|split].
  - now apply sanitize_fixed.
  - exact A.
  - rewrite A. now apply sanitize_fixed.
Qed.

(** ** The column-width scaler, again *)

Lemma float_of_int_raise (z : Z) (e : exn) :
  float_of_int z = Raise e -> e = OverflowError.
Proof. unfold float_of_int. destruct (F.of_Z z); congruence. Qed.

Lemma num_to_float_raise (a : num) (e : exn) :
  num_to_float a = Raise e -> e = OverflowError.
Proof. destruct a; simpl; [apply float_of_int_raise|discriminate]. Qed.

Lemma bind_raise {A B : Type} (m : result A) (k : A -> result B) (e : exn) :
  bind m k = Raise e -> m = Raise e \/ exists a, m = Ok a /\ k a = Raise e.
Proof. destruct m as [a|e']; simpl; intros H; [right; eauto|left; congruence]. Qed.

Lemma float_op_raise (op : spec_float -> spec_float -> spec_float) (a b : num) (e : exn) :
  (x <- num_to_float a ;; y <- num_to_float b ;; Ok (NFloat (op x y))) = Raise e ->
  e = OverflowError.
Proof.
  intros H. apply bind_raise in H. destruct H as [H|(x & _ & H)].
  - now apply num_to_float_raise in H.
  - apply bind_raise in H. destruct H as [H|(y & _ & H)]; [|discriminate H].
    now apply num_to_float_raise in H.
Qed.

Lemma num_add_raise (a b : num) (e : exn) :
  num_add a b = Raise e -> e = OverflowError.
Proof.
  destruct a, b; unfold num_add; try apply float_op_raise. discriminate.
Qed.

Lemma num_mul_raise (a b : num) (e : exn) :
  num_mul a b = Raise e -> e = OverflowError.
Proof.
  destruct a, b; unfold num_mul; try apply float_op_raise. discriminate.
Qed.

Lemma num_leb_zero_not (s : num) :
  num_leb s (NInt 0) = false ->
  match s with
  | NInt z => z <> 0
  | NFloat f => F.is_zero f = false
  end.
Proof.
  destruct s as [z|f]; intros H.
  - intros ->. discriminate H.
  - now apply num_leb_zero_false.
Qed.

(** *** A nonzero integer converts to a nonzero float *)

Lemma shr_1_lower (mrs : shr_record) :
  0 <= shr_m mrs -> shr_m mrs < 2 * (shr_m (shr_1 mrs) + 1).
Proof.
  destruct mrs as [m r s]. simpl. intros H.
  destruct m as [|p|p]; simpl; try lia.
  destruct p; simpl; lia.
Qed.

Lemma iter_shr_1_lower (p : positive) (mrs : shr_record) :
  0 <= shr_m mrs ->
  shr_m mrs < 2 ^ Zpos p * (shr_m (SpecFloat.iter_pos shr_1 p mrs) + 1).
Proof.
  revert mrs. induction p as [p IH|p IH|]; intros mrs H.
  - cbn [SpecFloat.iter_pos].
    pose proof (shr_1_bounds mrs H) as B1.
    pose proof (shr_1_lower mrs H) as L1.
    pose proof (iter_shr_1_bounds p (shr_1 mrs) (proj1 B1)) as B2.
    pose proof (IH (shr_1 mrs) (proj1 B1)) as L2.
    pose proof (IH _ (proj1 B2)) as L3.
    set (a := shr_m (shr_1 mrs)) in *.
    set (b := shr_m (SpecFloat.iter_pos shr_1 p (shr_1 mrs))) in *.
    set (c := shr_m (SpecFloat.iter_pos shr_1 p (SpecFloat.iter_pos shr_1 p (shr_1 mrs)))) in *.
    assert (E : 2 ^ Zpos p~1 = 2 * (2 ^ Zpos p * 2 ^ Zpos p)).
    { replace (Zpos p~1) with (Zpos p + Zpos p + 1) by lia.
      rewrite !Z.pow_add_r by lia. change (2 ^ 1) with 2. ring. }
    rewrite E. pose proof (Z.pow_pos_nonneg 2 (Zpos p)) as P. nia.
  - cbn [SpecFloat.iter_pos].
    pose proof (iter_shr_1_bounds p mrs H) as B2.
    pose proof (IH mrs H) as L2.
    pose proof (IH _ (proj1 B2)) as L3.
    set (b := shr_m (SpecFloat.iter_pos shr_1 p mrs)) in *.
    set (c := shr_m (SpecFloat.iter_pos shr_1 p (SpecFloat.iter_pos shr_1 p mrs))) in *.
    assert (E : 2 ^ Zpos p~0 = 2 ^ Zpos p * 2 ^ Zpos p).
    { rewrite Pos2Z.inj_xO. rewrite <- Z.pow_add_r by lia. f_equal. lia. }
    rewrite E. pose proof (Z.pow_pos_nonneg 2 (Zpos p)) as P. nia.
  - cbn [SpecFloat.iter_pos]. change (2 ^ 1) with 2. now apply shr_1_lower.
Qed.

Lemma Zdigits2_lower (p : positive) : 2 ^ Zdigits2 (Zpos p) <= 2 * Zpos p.
Proof.
  unfold Zdigits2. rewrite digits2_size, <- Pos2Z.inj_pow.
  exact (Pos.size_le p).
Qed.

Lemma shr_fexp_positive (m : positive) (e : Z) (l : location) :
  -1074 <= e ->
  0 < shr_m (fst (shr_fexp F.prec F.emax (Zpos m) e l))
  /\ -1074 <= snd (shr_fexp F.prec F.emax (Zpos m) e l).
Proof.
  intros He. unfold shr_fexp, shr.
  set (d := Zdigits2 (Zpos m)).
  assert (Hd : 0 < d) by (unfold d; simpl; lia).
  destruct (fexp F.prec F.emax (d + e) - e) as [|n|n] eqn:E;
    cbn [fst snd]; rewrite ?shr_m_of_loc; try (split; lia).
  assert (En : Zpos n = d - 53).
  { unfold fexp, emin, F.prec, F.emax in E. lia. }
  split; [|lia].
  pose proof (iter_shr_1_lower n (shr_record_of_loc (Zpos m) l)) as L.
  rewrite shr_m_of_loc in L. specialize (L ltac:(lia)).
  pose proof (iter_shr_1_bounds n (shr_record_of_loc (Zpos m) l)) as B.
  rewrite shr_m_of_loc in B. specialize (B ltac:(lia)).
  set (m' := shr_m (SpecFloat.iter_pos shr_1 n (shr_record_of_loc (Zpos m) l))) in *.
  destruct (Z.eq_dec m' 0) as [Z0|]; [|lia].
  exfalso. rewrite Z0, Z.mul_1_r in L.
  pose proof (Zdigits2_lower m) as D. fold d in D.
  assert (P : 2 ^ d = 2 ^ Zpos n * 2 ^ 53).
  { rewrite <- Z.pow_add_r by lia. f_equal. lia. }
  assert (2 ^ 53 = 9007199254740992) by reflexivity.
  pose proof (Z.pow_pos_nonneg 2 (Zpos n)). nia.
Qed.

Lemma round_aux_nonzero (s : bool) (m : positive) (e : Z) :
  -1074 <= e ->
  F.is_zero (binary_round_aux F.prec F.emax s (Zpos m) e loc_Exact) = false.
Proof.
  intros He. unfold binary_round_aux.
  pose proof (shr_fexp_positive m e loc_Exact He) as [P1 E1].
  destruct (shr_fexp F.prec F.emax (Zpos m) e loc_Exact) as [mrs1 e1].
  cbn [fst snd] in P1, E1.
  pose proof (round_nearest_even_bounds (shr_m mrs1) (loc_of_shr_record mrs1)
                ltac:(lia)) as R.
  destruct (round_nearest_even (shr_m mrs1) (loc_of_shr_record mrs1)) as [|m1|m1];
    try lia.
  pose proof (shr_fexp_positive m1 e1 loc_Exact E1) as [P2 _].
  destruct (shr_fexp F.prec F.emax (Zpos m1) e1 loc_Exact) as [mrs2 e2].
  cbn [fst snd] in P2.
  destruct (shr_m mrs2); try lia.
  destruct (e2 <=? F.emax - F.prec)%Z; reflexivity.
Qed.

Lemma binary_round_nonzero (s : bool) (m : positive) :
  F.is_zero (binary_round F.prec F.emax s m 0) = false.
Proof.
  unfold binary_round, shl_align.
  set (x := fexp F.prec F.emax (Zpos (digits2_pos m) + 0)).
  assert (Hx : -1074 <= x) by (unfold x, fexp, emin, F.prec, F.emax; lia).
  destruct (x - 0) eqn:E; apply round_aux_nonzero; lia.
Qed.

Lemma of_Z_nonzero (z : Z) : z <> 0 -> F.is_zero (F.of_Z z) = false.
Proof.
  intros H. unfold F.of_Z, binary_normalize.
  destruct z; [congruence| |]; apply binary_round_nonzero.
Qed.

Lemma num_truediv_raise (a s : num) (e : exn) :
  num_leb s (NInt 0) = false ->
  num_truediv a s = Raise e -> e = OverflowError.
Proof.
  intros L. apply num_leb_zero_not in L.
  destruct a as [x|x], s as [y|y]; unfold num_truediv.
  - destruct y; [congruence| |];
      destruct (F.of_ratio _ _ _); congruence.
  - cbn [num_to_float]. intros H.
    apply bind_raise in H. destruct H as [H|(u & _ & H)].
    + now apply float_of_int_raise in H.
    + cbn [bind] in H. rewrite L in H. discriminate H.
  - cbn [num_to_float bind]. intros H.
    apply bind_raise in H. destruct H as [H|(u & Hu & H)].
    + now apply float_of_int_raise in H.
    + assert (Z : F.is_zero u = false).
      { unfold float_of_int in Hu. pose proof (of_Z_nonzero y L) as N.
        destruct (F.of_Z y); try discriminate Hu; injection Hu as <-; exact N. }
      rewrite Z in H. discriminate H.
  - cbn [num_to_float bind]. rewrite L. discriminate.
Qed.

Lemma sum_from_raise (ws : list num) (acc : num) (e : exn) :
  sum_from acc ws = Raise e -> e = OverflowError.
Proof.
  revert acc. induction ws as [|w r IH]; intros acc H; [discriminate H|].
  cbn [sum_from] in H. apply bind_raise in H. destruct H as [H|(a & _ & H)].
  - exact (num_add_raise _ _ _ H).
  - exact (IH _ H).
Qed.

Lemma mapM_raise {A B : Type} (f : A -> result B) (l : list A) (e : exn) :
  mapM f l = Raise e -> exists x, In x l /\ f x = Raise e.
Proof.
  induction l as [|x r IH]; intros H; [discriminate H|].
  cbn [mapM] in H. apply bind_raise in H. destruct H as [H|(y & _ & H)].
  - exists x. split; [now left|exact H].
  - apply bind_raise in H. destruct H as [H|(ys & _ & H)]; [|discriminate H].
    destruct (IH H) as (x' & Hin & Hx). exists x'. split; [now right|exact Hx].
Qed.

(** X4.  On [int] and [float] operands [scale_mm] never divides by
    zero: whenever it raises, the exception is [OverflowError] (an
    integer too large for a float), never [ZeroDivisionError]. *)
Theorem scale_mm_only_overflow (ws : list num) (T : num) (e : exn) :
  scale_mm ws T = Raise e -> e = OverflowError.
Proof.
  unfold scale_mm. intros H.
  apply bind_raise in H. destruct H as [H|(s & Hs & H)].
  - exact (sum_from_raise _ _ _ H).
  - change (n_leb s of_int0) with (num_leb s (NInt 0)) in H.
    destruct (num_leb s (NInt 0)) eqn:L; [discriminate H|].
    apply bind_raise in H. destruct H as [H|(f & _ & H)].
    + exact (num_truediv_raise _ _ _ L H).
    + apply mapM_raise in H. destruct H as (w & _ & H).
      exact (num_mul_raise _ _ _ H).
Qed.

Lemma scale_mm_only_overflow_witness :
  scale_mm [NInt (10 ^ 400)] (NFloat (F.of_Z 180)) = Raise OverflowError
  /\ OverflowError = OverflowError.
Proof.
  split.
  - vm_compute. reflexivity.
  - apply (scale_mm_only_overflow [NInt (10 ^ 400)] (NFloat (F.of_Z 180))).
    vm_compute. reflexivity.
Defined.

(** ** The composer, again *)

Lemma loop_body_rows_ok (m : meta) (bf : Z) (st st' : loop_state) (r : row) :
  loop_body m bf st r = Ok st' ->
  row_ok r = true
  /\ exists cells,
       item_row m bf (pos st) r = Ok cells
       /\ data st' = (data st ++ [cells])%list
       /\ pos st' = pos st + 1.
Proof.
  unfold loop_body, item_row, row_ok. intros H.
  apply bind_ok in H. destruct H as (n & Hn & H).
  apply bind_ok in H. destruct H as (t & Ht & H).
  apply bind_ok in H. destruct H as (q & Hq & H).
  apply bind_ok in H. destruct H as (pct & Hp & H).
  apply bind_ok in H. destruct H as (en & Hen & H).
  apply bind_ok in H. destruct H as (et & Het & H).
  injection H as <-.
  rewrite Hn, Ht, Hq, Hp. cbn [bind raises negb andb]. rewrite Hen, Het. cbn [bind].
  split; [reflexivity|]. eexists. repeat split.
Qed.

Lemma row_loop_rows (m : meta) (bf : Z) (lines : list row) (st st' : loop_state) :
  row_loop m bf st lines = Ok st' ->
  forallb row_ok lines = true
  /\ exists rows,
       data st' = (data st ++ rows)%list
       /\ List.length rows = List.length lines
       /\ forall (i : nat) (r : row),
            nth_error lines i = Some r ->
            exists cells,
              item_row m bf (pos st + Z.of_nat i) r = Ok cells
              /\ nth_error rows i = Some cells.
Proof.
  revert st. induction lines as [|r rest IH]; intros st H; cbn [row_loop] in H.
  - injection H as <-. split; [reflexivity|].
    exists []. rewrite app_nil_r. repeat split.
    intros i r Hi. destruct i; discriminate Hi.
  - apply bind_ok in H. destruct H as (st1 & H1 & H).
    apply loop_body_rows_ok in H1. destruct H1 as (Hr & cells & Hc & Hd & Hp).
    apply IH in H. destruct H as (Hrest & rows & Hd' & Hlen & Hnth).
    split; [cbn [forallb]; now rewrite Hr, Hrest|].
    exists (cells :: rows). split; [|split].
    + rewrite Hd', Hd, <- app_assoc. reflexivity.
    + cbn [List.length]. now rewrite Hlen.
    + intros i r' Hi. destruct i as [|i]; cbn [nth_error] in Hi |- *.
      * injection Hi as <-. exists cells. rewrite Z.add_0_r. now split.
      * destruct (Hnth i r' Hi) as (c & Hc' & Hn).
        exists c. split; [|exact Hn].
        rewrite Hp in Hc'. rewrite <- Hc'. f_equal. lia.
Qed.


(** X6.  In every document [build_pdf] returns, the item table is the
    header followed by one row per line in input order: row [i + 1]
    holds the seven cells of line [i], the first of them its 1-based
    position number, as many cells as the header and the column widths
    have. *)
Theorem item_rows_in_order (m : meta) (lines : list row) (d : document) :
  build_pdf m lines = Ok d ->
  nth_error (item_table d) 0 = Some header
  /\ List.length (item_table d) = S (List.length lines)
  /\ List.length header = List.length col_w_pts_value
  /\ forall (i : nat) (r : row),
       nth_error lines i = Some r ->
       exists cells,
         item_row m (body_font (rows (List.length lines))) (Z.of_nat i + 1) r = Ok cells
         /\ nth_error (item_table d) (S i) = Some cells
         /\ nth_error cells 0 = Some (Text (str_of_Z (Z.of_nat i + 1)))
         /\ List.length cells = List.length header.
Proof.
  intros B. apply build_pdf_inv in B.
  destruct B as (st & pct & enet & evat & egross & Hst & _ & _ & _ & _ & Hi & _).
  apply row_loop_rows in Hst. destruct Hst as (_ & rws & Hd & Hlen & Hnth).
  rewrite Hi, Hd. change (data initial_state) with [header].
  split; [reflexivity|]. split; [cbn; now rewrite Hlen|]. split; [reflexivity|].
  intros i r Hr. destruct (Hnth i r Hr) as (cells & Hc & Hn).
  change (pos initial_state) with 1 in Hc. rewrite Z.add_comm in Hc.
  exists cells. split; [exact Hc|]. split; [exact Hn|].
  unfold item_row in Hc.
  apply bind_ok in Hc. destruct Hc as (n & _ & Hc).
  apply bind_ok in Hc. destruct Hc as (t & _ & Hc).
  apply bind_ok in Hc. destruct Hc as (q & _ & Hc).
  apply bind_ok in Hc. destruct Hc as (p & _ & Hc).
  apply bind_ok in Hc. destruct Hc as (en & _ & Hc).
  apply bind_ok in Hc. destruct Hc as (et & _ & Hc).
  injection Hc as <-. split; reflexivity.
Qed.

Lemma item_rows_in_order_witness :
  build_pdf (blank_meta f_0_21) [form_line 3 f_1234_5] = Ok example_document
  /\ nth_error (item_table example_document) 0 = Some header
  /\ List.length (item_table example_document) = 2%nat.
Proof.
  assert (B : build_pdf (blank_meta f_0_21) [form_line 3 f_1234_5] = Ok example_document)
    by (vm_compute; reflexivity).
  pose proof (item_rows_in_order _ _ _ B) as (H1 & H2 & _).
  repeat split; assumption.
Defined.

Lemma add_nan_r (a : spec_float) : F.add a S754_nan = S754_nan.
Proof. destruct a; reflexivity. Qed.

Lemma fold_add_nan (ts : list spec_float) :
  fold_left F.add ts S754_nan = S754_nan.
Proof. induction ts as [|t r IH]; [reflexivity|exact IH]. Qed.

Lemma fold_add_in_nan (ts : list spec_float) (a : spec_float) :
  In S754_nan ts -> fold_left F.add ts a = S754_nan.
Proof.
  revert a. induction ts as [|t r IH]; intros a H; [destruct H|].
  cbn [fold_left]. destruct H as [->|H].
  - rewrite add_nan_r. apply fold_add_nan.
  - now apply IH.
Qed.

Lemma mapM_In {A B : Type} (f : A -> result B) (l : list A) (out : list B) (x : A) (y : B) :
  mapM f l = Ok out -> In x l -> f x = Ok y -> In y out.
Proof.
  intros H. apply mapM_Forall2 in H.
  induction H as [|a b l' out' Hab _ IH]; intros Hin Hx; [destruct Hin|].
  destruct Hin as [->|Hin].
  - left. congruence.
  - right. now apply IH.
Qed.

(** X7.  A line whose total reads as NaN (a missing Total cell) makes
    the net sum NaN, and with it all three totals: whenever
    [build_pdf] returns for such lines, the net, VAT and gross cells
    all read "nan". *)
Theorem nan_total_poisons_totals (m : meta) (lines : list row) (d : document) (r : row) :
  build_pdf m lines = Ok d ->
  In r lines ->
  read_total r = Ok S754_nan ->
  exists pct, totals_table d = totals_rows pct "nan" "nan" "nan".
Proof.
  intros B Hin Hr. apply build_pdf_inv in B.
  destruct B as (st & pct & enet & evat & egross & Hst & _ & Hn & Hv & Hg & _ & Ht & _).
  apply row_loop_inv in Hst. destruct Hst as (ts & Hts & Hsum & _).
  pose proof (mapM_In _ _ _ _ _ Hts Hin Hr) as Hnan.
  rewrite (fold_add_in_nan ts _ Hnan) in Hsum.
  rewrite Hsum in Hn, Hv, Hg.
  exists pct. rewrite Ht.
  cbv in Hn. injection Hn as <-.
  change (F.mul S754_nan (vat_rate m)) with S754_nan in Hv, Hg.
  cbv in Hv, Hg. injection Hv as <-. injection Hg as <-.
  reflexivity.
Qed.

Lemma nan_total_poisons_totals_witness :
  exists d pct,
    build_pdf (blank_meta f_0_21) [form_line 1 (F.of_Z 100); line_without_total] = Ok d
    /\ totals_table d = totals_rows pct "nan" "nan" "nan".
Proof.
  assert (B : exists d,
             build_pdf (blank_meta f_0_21) [form_line 1 (F.of_Z 100); line_without_total]
             = Ok d) by (eexists; vm_compute; reflexivity).
  destruct B as (d & B). exists d.
  destruct (nan_total_poisons_totals _ _ d line_without_total B
              ltac:(right; left; reflexivity) ltac:(reflexivity)) as (pct & H).
  exists pct. split; assumption.
Defined.

Lemma labels_agree_spec (expect : Z -> Z) (n : nat) (lo k : Z) :
  labels_agree expect lo n = true ->
  lo <= k < lo + Z.of_nat n ->
  py_int (VFloat (F.mul (sidebar_vat_rate true (half_steps k)) (F.of_Z 100)))
  = Ok (expect k).
Proof.
  revert lo. induction n as [|n IH]; intros lo H Hk; [lia|].
  cbn [labels_agree] in H. apply andb_true_iff in H. destruct H as [H1 H2].
  destruct (Z.eq_dec k lo) as [->|Hne].
  - destruct (py_int _) as [p|]; [|discriminate H1].
    apply Z.eqb_eq in H1. now rewrite H1.
  - apply (IH (lo + 1)); [exact H2|lia].
Qed.

(** X8.  The VAT label is the integer part of [rate * 100] computed
    in floats, which is not always the percentage entered: for the
    Spanish percentages 0, 0.5, ..., 30 turned into a rate by
    [p / 100.0] the label is the integer part of [p], except for
    [p = 29], which is labelled "28". *)
Theorem vat_label_truncates (m : meta) (k : Z) :
  0 <= k <= 60 ->
  vat_rate m = sidebar_vat_rate true (half_steps k) ->
  vat_percent m = Ok (str_of_Z (if (k =? 58)%Z then 28 else expected_label k)).
Proof.
  intros Hk Hr. unfold vat_percent. rewrite Hr.
  rewrite (labels_agree_spec
             (fun k => if (k =? 58)%Z then 28 else expected_label k) 61 0 k).
  - reflexivity.
  - vm_compute. reflexivity.
  - lia.
Qed.

Lemma vat_label_truncates_witness :
  vat_percent (blank_meta (sidebar_vat_rate true (half_steps 58))) = Ok "28".
Proof.
  exact (vat_label_truncates (blank_meta (sidebar_vat_rate true (half_steps 58))) 58
           ltac:(lia) eq_refl).
Defined.

Lemma mul_finite_zero (x : spec_float) :
  F.is_finite x = true -> F.mul x F.zero = S754_zero (float_neg x).
Proof. destruct x as [s|s| |s p e]; try discriminate; destruct s; reflexivity. Qed.

Lemma add_own_zero (x : spec_float) :
  F.is_finite x = true -> F.add x (S754_zero (float_neg x)) = x.
Proof. destruct x as [s|s| |s p e]; try discriminate; destruct s; reflexivity. Qed.

(** X9.  At VAT rate 0.0 (the German VAT id) and with a finite net
    sum, the VAT label is "0", the VAT amount reads "0,00" (or "-0,00"
    when the net sum is negative) and the gross total reads exactly as
    the net total. *)
Theorem zero_rate_gross_is_net (m : meta) (lines : list row) (d : document)
        (ts : list spec_float) :
  build_pdf m lines = Ok d ->
  vat_rate m = sidebar_vat_rate false F.zero ->
  mapM read_total lines = Ok ts ->
  F.is_finite (fold_left F.add ts F.zero) = true ->
  exists enet evat,
    totals_table d = totals_rows "0" enet evat enet
    /\ eur_fmt (VFloat (fold_left F.add ts F.zero)) = Ok enet
    /\ (evat = "0,00" \/ evat = "-0,00").
Proof.
  intros B Hr Hts Hf. apply build_pdf_inv in B.
  destruct B as (st & pct & enet & evat & egross & Hst & Hp & Hn & Hv & Hg & _ & Ht & _).
  apply row_loop_inv in Hst. destruct Hst as (ts' & Hts' & Hsum & _).
  rewrite Hts in Hts'. injection Hts' as <-.
  change (net_sum initial_state) with F.zero in Hsum. rewrite <- Hsum in Hf.
  change (sidebar_vat_rate false F.zero) with F.zero in Hr.
  unfold vat_percent in Hp. rewrite Hr in *.
  cbv in Hp. injection Hp as <-.
  rewrite (mul_finite_zero _ Hf) in Hv, Hg.
  rewrite (add_own_zero _ Hf) in Hg. rewrite Hn in Hg. injection Hg as <-.
  exists enet, evat. rewrite Ht. split; [reflexivity|]. split; [now rewrite <- Hsum|].
  destruct (float_neg (net_sum st)); cbv in Hv; injection Hv as <-; auto.
Qed.

Lemma zero_rate_gross_is_net_witness :
  exists d enet evat,
    build_pdf (blank_meta F.zero) [form_line 3 f_1234_5] = Ok d
    /\ totals_table d = totals_rows "0" enet evat enet
    /\ (evat = "0,00" \/ evat = "-0,00").
Proof.
  assert (B : exists d, build_pdf (blank_meta F.zero) [form_line 3 f_1234_5] = Ok d)
    by (eexists; vm_compute; reflexivity).
  destruct B as (d & B). exists d.
  destruct (zero_rate_gross_is_net (blank_meta F.zero) [form_line 3 f_1234_5] d
              [F.mul f_1234_5 (F.of_Z 3)] B eq_refl
              ltac:(vm_compute; reflexivity) ltac:(vm_compute; reflexivity))
    as (enet & evat & H1 & _ & H3).
  exists enet, evat. repeat split; assumption.
Defined.

(** ** The money formatter, again *)

(** X10.  Negating a finite non-negative float only puts a minus sign
    before its rendering; so negative zero, and any negative amount
    below half a hundredth, reads "-0,00" rather than "0,00". *)
Theorem eur_fmt_negated (v : spec_float) :
  F.is_finite v = true -> float_neg v = false ->
  exists s,
    eur_fmt (VFloat v) = Ok s
    /\ eur_fmt (VFloat (SFopp v)) = Ok (String "-" s).
Proof.
  intros Hf Hs. exists (eur_render false (float_hundredths v)).
  rewrite (eur_fmt_float v Hf), Hs. split; [reflexivity|].
  rewrite eur_fmt_float by (destruct v; try discriminate Hf; reflexivity).
  destruct v as [s|s| |s p e]; try discriminate Hf; simpl in Hs; subst s; reflexivity.
Qed.

Lemma eur_fmt_negated_witness :
  exists s,
    eur_fmt (VFloat F.zero) = Ok s
    /\ eur_fmt (VFloat (S754_zero true)) = Ok (String "-" s).
Proof. exact (eur_fmt_negated F.zero eq_refl eq_refl). Defined.

(** *** Rates of the sidebar have a finite percentage *)

Lemma round_aux_shape (s : bool) (mz ez : Z) (l : location) (K E B : Z) :
  0 <= K -> 0 <= mz < 2 ^ K -> ez <= E ->
  E <= B -> K + E - 52 <= B -> 2 * K + E - 105 <= B -> K - 1126 <= B ->
  -1074 <= B -> B <= 971 ->
  binary_round_aux F.prec F.emax s mz ez l = S754_zero s
  \/ exists m e,
       binary_round_aux F.prec F.emax s mz ez l = S754_finite s m e
       /\ Zpos m < 2 ^ (K + 1) /\ e <= B.
Proof.
  intros HK Hm He H1 H2 H3 H3' H4 H5. unfold binary_round_aux.
  pose proof (shr_fexp_bounds mz ez l ltac:(lia)) as [B1 B2].
  destruct (shr_fexp F.prec F.emax mz ez l) as [mrs1 e1].
  cbn [fst snd] in B1, B2.
  pose proof (Zdigits2_upper mz K HK Hm) as D1.
  assert (He1 : e1 <= Z.max E (Z.max (K + E - 53) (-1074))).
  { destruct B2 as [->| ->]; [lia|].
    unfold fexp, emin, F.prec, F.emax. lia. }
  pose proof (round_nearest_even_bounds (shr_m mrs1) (loc_of_shr_record mrs1)
                (proj1 B1)) as R.
  set (m1 := round_nearest_even (shr_m mrs1) (loc_of_shr_record mrs1)) in *.
  assert (P : 2 ^ (K + 1) = 2 * 2 ^ K) by (rewrite Z.pow_add_r by lia; lia).
  assert (P0 : 0 < 2 ^ K) by (apply Z.pow_pos_nonneg; lia).
  pose proof (shr_fexp_bounds m1 e1 loc_Exact ltac:(lia)) as [C1 C2].
  destruct (shr_fexp F.prec F.emax m1 e1 loc_Exact) as [mrs2 e2].
  cbn [fst snd] in C1, C2.
  assert (Hm1 : 0 <= m1 < 2 ^ (K + 1)) by (rewrite P; lia).
  pose proof (Zdigits2_upper m1 (K + 1) ltac:(lia) Hm1) as D2.
  assert (He2 : e2 <= B).
  { destruct C2 as [->| ->]; [lia|].
    unfold fexp, emin, F.prec, F.emax. lia. }
  destruct (shr_m mrs2) as [|p|p] eqn:Ep; [now left| |lia].
  right. exists p, e2.
  unfold F.emax, F.prec.
  destruct (Z.leb_spec e2 (1024 - 53)); [|lia].
  repeat split; lia.
Qed.

Lemma leb_thirty_exponent (m : positive) (e : Z) :
  SFleb (S754_finite false m e) (F.of_Z 30) = true -> e <= -48.
Proof.
  change (F.of_Z 30) with (S754_finite false 8444249301319680 (-48)).
  unfold SFleb, SFcompare.
  destruct (Z.compare_spec e (-48)) as [C|C|C]; intros L; try lia; discriminate L.
Qed.

Lemma div_eucl_bounds (a b : Z) :
  0 <= a -> 0 < b -> 0 <= fst (Z.div_eucl a b) <= a.
Proof.
  intros Ha Hb.
  pose proof (Z_div_mod a b ltac:(lia)) as H.
  destruct (Z.div_eucl a b) as [q r]. cbn [fst]. nia.
Qed.

Lemma percent_of_div (m : positive) (e : Z) :
  bounded F.prec F.emax m e = true -> e <= -48 ->
  F.is_finite (F.mul (F.div (S754_finite false m e) (F.of_Z 100)) (F.of_Z 100)) = true.
Proof.
  intros Hb He.
  pose proof (bounded_mantissa m e Hb) as Hm.
  change (F.of_Z 100) with (S754_finite false 7036874417766400 (-46)).
  unfold F.div, SFdiv, SFdiv_core_binary.
  set (d1 := Zdigits2 (Zpos m)).
  set (d2 := Zdigits2 (Zpos 7036874417766400)).
  assert (Hd1 : 0 <= d1) by (unfold d1; simpl; lia).
  assert (Hd2 : d2 = 53) by reflexivity.
  set (e' := Z.min (fexp F.prec F.emax (d1 + e - (d2 + -46))) (e - -46)).
  assert (He' : e' <= e + 46) by (unfold e'; lia).
  assert (Hs : e - -46 - e' <= 106).
  { unfold e', fexp, emin, F.prec, F.emax. lia. }
  set (s := e - -46 - e') in *.
  set (m' := match s with
             | 0 => Zpos m
             | Zpos _ => Z.shiftl (Zpos m) s
             | Zneg _ => 0
             end).
  assert (Hm' : 0 <= m' < 2 ^ 160).
  { unfold m'. destruct s as [|p|p] eqn:Es.
    - split; [lia|]. eapply Z.lt_trans; [exact Hm|reflexivity].
    - rewrite Z.shiftl_mul_pow2 by lia.
      assert (2 ^ Zpos p < 2 ^ 107) by (apply Z.pow_lt_mono_r; lia).
      assert (0 < 2 ^ Zpos p) by (apply Z.pow_pos_nonneg; lia).
      assert (E : 2 ^ 160 = 2 ^ 53 * 2 ^ 107) by reflexivity.
      rewrite E. split; [lia|]. apply Z.mul_lt_mono_nonneg; lia.
    - split; [lia|reflexivity]. }
  pose proof (div_eucl_bounds m' (Zpos 7036874417766400) (proj1 Hm') ltac:(lia)) as Hq.
  destruct (Z.div_eucl m' (Zpos 7036874417766400)) as [q r]. cbn [fst] in Hq.
  cbn [xorb].
  destruct (round_aux_shape false q e' (new_location (Zpos 7036874417766400) r)
              160 (-2) 213) as [Z|(mr & er & F & Hmr & Her)]; try lia.
  - rewrite Z. reflexivity.
  - rewrite F.
    change (F.mul (S754_finite false mr er) (S754_finite false 7036874417766400 (-46)))
      with (binary_round_aux F.prec F.emax false
              (Zpos (mr * 7036874417766400)) (er + -46) loc_Exact).
    assert (Hp : 0 <= Zpos (mr * 7036874417766400) < 2 ^ 214).
    { rewrite Pos2Z.inj_mul. split; [lia|].
      assert (Zpos 7036874417766400 < 2 ^ 53) by reflexivity.
      assert (E : 2 ^ 214 = 2 ^ (160 + 1) * 2 ^ 53) by reflexivity.
      rewrite E. apply Z.mul_lt_mono_nonneg; lia. }
    destruct (round_aux_shape false (Zpos (mr * 7036874417766400)) (er + -46) loc_Exact
                214 167 971) as [Z|(m2 & e2 & F2 & _)]; try lia.
    + rewrite Z. reflexivity.
    + rewrite F2. reflexivity.
Qed.

Lemma finite_percent_meta_ok (m : meta) :
  F.is_finite (F.mul (vat_rate m) (F.of_Z 100)) = true -> meta_ok m = true.
Proof.
  unfold meta_ok, vat_percent, py_int. intros H.
  destruct (F.mul (vat_rate m) (F.of_Z 100)); try discriminate H; reflexivity.
Qed.

Lemma sidebar_rate_converts (m : meta) (spanish : bool) (es : spec_float) :
  es_vat_rate_ok es = true ->
  vat_rate m = sidebar_vat_rate spanish es ->
  meta_ok m = true.
Proof.
  unfold es_vat_rate_ok. intros H Hr.
  apply andb_true_iff in H. destruct H as [H L30].
  apply andb_true_iff in H. destruct H as [V L0].
  apply finite_percent_meta_ok. rewrite Hr.
  destruct spanish; [|reflexivity].
  unfold sidebar_vat_rate.
  destruct es as [s|s| |s mx ex].
  - destruct s; reflexivity.
  - destruct s; [discriminate L0|discriminate L30].
  - discriminate L0.
  - destruct s; [discriminate L0|].
    apply percent_of_div; [exact V|].
    now apply (leb_thirty_exponent mx).
Qed.

(** ** Orders made through the form *)

Lemma frame_rows_ok (order_lines : list order_line) :
  forallb row_ok (DataFrame order_lines) = true.
Proof.
  unfold DataFrame. apply forallb_forall. intros r Hin.
  apply in_map_iff in Hin. destruct Hin as (l & <- & _).
  unfold row_ok, read_net, read_total, read_quantity, py_or. cbn [net_price total quantity].
  destruct (truthy (VFloat (Net_price (line l))));
    destruct (truthy (VFloat (Total (line l))));
    destruct (truthy (VInt (Quantity (line l)))); reflexivity.
Qed.

Lemma frame_length (order_lines : list order_line) :
  List.length (DataFrame order_lines) = List.length order_lines.
Proof. unfold DataFrame. apply length_map. Qed.

Lemma form_orders_total (m : meta) (spanish : bool) (es : spec_float)
      (order_lines : list order_line) :
  es_vat_rate_ok es = true ->
  vat_rate m = sidebar_vat_rate spanish es ->
  exists d, build_pdf m (DataFrame order_lines) = Ok d.
Proof.
  intros He Hr.
  destruct (build_pdf_total m (DataFrame order_lines)
              (sidebar_rate_converts m spanish es He Hr) (frame_rows_ok order_lines))
    as (d & Hd & _).
  now exists d.
Qed.



(** ** Recipients *)

Lemma split_nonempty (sep : ascii) (s : string) : Text.split sep s <> [].
Proof.
  destruct s as [|c r]; simpl; [discriminate|].
  destruct (Ascii.eqb c sep); [discriminate|].
  destruct (Text.split sep r); discriminate.
Qed.

Lemma split_cons (sep c : ascii) (r : string) :
  Ascii.eqb c sep = false ->
  exists f fs, Text.split sep r = f :: fs
               /\ Text.split sep (String c r) = String c f :: fs.
Proof.
  intros H. simpl. rewrite H.
  destruct (Text.split sep r) as [|f fs] eqn:E.
  - now apply split_nonempty in E.
  - eauto.
Qed.

Lemma split_fields (sep : ascii) (s : string) :
  Forall (fun f => Str.all (fun c => negb (Ascii.eqb c sep)) f = true) (Text.split sep s).
Proof.
  induction s as [|c r IH].
  - repeat constructor.
  - destruct (Ascii.eqb c sep) eqn:E.
    + simpl. rewrite E. constructor; [reflexivity|exact IH].
    + destruct (split_cons sep c r E) as (f & fs & E1 & E2).
      rewrite E2. rewrite E1 in IH. inversion IH as [|? ? Hf Hfs]; subst.
      constructor; [|exact Hfs]. simpl. now rewrite E, Hf.
Qed.

Lemma all_lstrip (p q : ascii -> bool) (s : string) :
  Str.all q s = true -> Str.all q (Str.lstrip_by p s) = true.
Proof.
  induction s as [|c r IH]; simpl; intros H; [reflexivity|].
  apply andb_true_iff in H. destruct H as [Hc Hr].
  destruct (p c); [now apply IH|]. simpl. now rewrite Hc, Hr.
Qed.

Lemma all_rstrip (p q : ascii -> bool) (s : string) :
  Str.all q s = true -> Str.all q (Str.rstrip_by p s) = true.
Proof.
  induction s as [|c r IH]; simpl; intros H; [reflexivity|].
  apply andb_true_iff in H. destruct H as [Hc Hr].
  specialize (IH Hr).
  destruct (Str.rstrip_by p r) as [|c' r'].
  - destruct (p c); [reflexivity|]. simpl. now rewrite Hc.
  - cbn [Str.all] in *. now rewrite Hc, IH.
Qed.

Lemma all_strip (q : ascii -> bool) (s : string) :
  Str.all q s = true -> Str.all q (Str.strip s) = true.
Proof. intros H. unfold Str.strip, Str.strip_by. now apply all_rstrip, all_lstrip. Qed.

Lemma truthy_false (s : string) : Str.truthy s = false <-> s = "".
Proof. destruct s; simpl; split; congruence. Qed.

Lemma blank_fields (s : string) :
  forallb (fun e => negb (Str.truthy (Str.strip e))) (Text.split "," s)
  = Str.all space_or_comma s.
Proof.
  induction s as [|c r IH]; [reflexivity|].
  destruct (Ascii.eqb c ",") eqn:E.
  - simpl. rewrite E. cbn [forallb]. rewrite IH.
    unfold space_or_comma at 2. rewrite E, orb_true_r. reflexivity.
  - destruct (split_cons "," c r E) as (f & fs & E1 & E2).
    rewrite E2. rewrite E1 in IH. cbn [forallb] in *. cbn [Str.all].
    rewrite <- IH. unfold space_or_comma. rewrite E, orb_false_r.
    destruct (Str.is_space c) eqn:Sc.
    + replace (Str.strip (String c f)) with (Str.strip f); [reflexivity|].
      unfold Str.strip, Str.strip_by. simpl. now rewrite Sc.
    + simpl. destruct (Str.truthy (Str.strip (String c f))) eqn:T; [reflexivity|].
      apply truthy_false in T. apply strip_empty_iff in T. simpl in T.
      rewrite Sc in T. discriminate T.
Qed.

Lemma filter_nil_forallb {A : Type} (p : A -> bool) (l : list A) :
  filter p l = [] <-> forallb (fun x => negb (p x)) l = true.
Proof.
  induction l as [|a l IH]; simpl; [tauto|].
  destruct (p a); simpl; [split; discriminate|exact IH].
Qed.

Lemma to_list_nil_iff (s : string) :
  to_list s = [] <-> Str.all space_or_comma s = true.
Proof.
  unfold to_list. rewrite <- blank_fields, <- filter_nil_forallb.
  destruct (filter _ _); simpl; split; congruence.
Qed.

(** X12.  The recipients of the mail are the comma-separated fields
    of the input that are not blank, trimmed: each is non-empty, has
    no whitespace at either end and no comma.  The list is empty
    exactly when the input holds nothing but whitespace and commas;
    so an input of commas passes the test [email_to.strip()] and yet
    names no recipient. *)
Theorem recipients (email_to : string) :
  Forall (fun e => Str.truthy e = true /\ Str.strip e = e /\ Str.all not_comma e = true)
         (to_list email_to)
  /\ (to_list email_to = [] <-> Str.all space_or_comma email_to = true)
  /\ (Str.all space_or_comma email_to = true ->
      Str.all Str.is_space email_to = false ->
      Str.truthy (Str.strip email_to) = true /\ to_list email_to = []).
Proof.
  split; [|split].
  - unfold to_list. apply Forall_forall. intros e Hin.
    apply in_map_iff in Hin. destruct Hin as (f & <- & Hin).
    apply filter_In in Hin. destruct Hin as [Hin Ht].
    split; [exact Ht|]. split; [apply strip_by_idem|].
    apply all_strip.
    pose proof (split_fields "," email_to) as F.
    rewrite Forall_forall in F. exact (F f Hin).
  - apply to_list_nil_iff.
  - intros Ha Hs. split; [|now apply to_list_nil_iff].
    destruct (Str.truthy (Str.strip email_to)) eqn:T; [reflexivity|].
    apply truthy_false in T. apply strip_empty_iff in T. congruence.
Qed.

Lemma recipients_witness :
  Str.truthy (Str.strip " , ,") = true /\ to_list " , ," = [].
Proof. exact (proj2 (proj2 (recipients " , ,")) eq_refl eq_refl). Defined.

(** ** The upload address *)

Lemma length_app (a b : string) :
  String.length (a ++ b) = (String.length a + String.length b)%nat.
Proof. induction a as [|c a IH]; simpl; [reflexivity|now rewrite IH]. Qed.

Lemma append_inj_l (p a b : string) : (p ++ a = p ++ b)%string -> a = b.
Proof. induction p as [|c p IH]; simpl; intros H; [exact H|]. injection H as H. auto. Qed.

Lemma rstrip_snoc (p : ascii -> bool) (c : ascii) (x : string) :
  p c = true -> Str.rstrip_by p (x ++ String c "") = Str.rstrip_by p x.
Proof.
  intros H. induction x as [|a x IH]; simpl.
  - now rewrite H.
  - now rewrite IH.
Qed.

Lemma lstrip_app (p : ascii -> bool) (f t : string) :
  Str.all p f = false -> Str.lstrip_by p (f ++ t) = Str.lstrip_by p f ++ t.
Proof.
  induction f as [|c f IH]; simpl; intros H; [discriminate H|].
  destruct (p c); [now apply IH|reflexivity].
Qed.

Lemma lstrip_all (p : ascii -> bool) (f t : string) :
  Str.all p f = true -> Str.lstrip_by p (f ++ t) = Str.lstrip_by p t.
Proof.
  induction f as [|c f IH]; simpl; intros H; [reflexivity|].
  apply andb_true_iff in H. destruct H as [Hc Hf]. rewrite Hc. now apply IH.
Qed.

Lemma strip_by_wrapped (p : ascii -> bool) (c : ascii) (f : string) :
  p c = true ->
  Str.strip_by p (String c (f ++ String c "")) = Str.strip_by p f.
Proof.
  intros H. unfold Str.strip_by. cbn [Str.lstrip_by]. rewrite H.
  destruct (Str.all p f) eqn:A.
  - rewrite (lstrip_all p f _ A). simpl. rewrite H.
    apply (lstrip_empty_iff p f) in A. now rewrite A.
  - rewrite (lstrip_app p f _ A). now apply rstrip_snoc.
Qed.

Lemma rstrip_last (p : ascii -> bool) (s : string) :
  Str.rstrip_by p s = ""
  \/ exists x c, Str.rstrip_by p s = x ++ String c "" /\ p c = false.
Proof.
  induction s as [|a r IH]; simpl; [now left|].
  destruct IH as [E|(x & c & E & Hc)].
  - rewrite E. destruct (p a) eqn:Pa; [now left|].
    right. exists "", a. split; [reflexivity|exact Pa].
  - right. rewrite E. exists (String a x), c. split; [|exact Hc].
    destruct x; reflexivity.
Qed.

Lemma stripped_ends (p : ascii -> bool) (s : string) :
  Str.all p s = false ->
  (exists c r, Str.strip_by p s = String c r /\ p c = false)
  /\ (exists x c, Str.strip_by p s = x ++ String c "" /\ p c = false).
Proof.
  intros A. unfold Str.strip_by.
  destruct (lstrip_shape p s) as [E|(c & r & E & Hc)].
  - apply lstrip_empty_iff in E. congruence.
  - rewrite E. destruct (rstrip_head p c r Hc) as (r' & E').
    split.
    + exists c, r'. split; assumption.
    + destruct (rstrip_last p (String c r)) as [E2|H]; [congruence|exact H].
Qed.

(** X13.  Slashes around the OneDrive folder do not matter, and a
    folder that is empty or made of slashes only puts the file into
    the drive root: the address is the root address exactly in that
    case, and otherwise the folder stripped of its outer slashes,
    which then neither starts nor ends with a slash, stands between
    [root:/] and the file name. *)
Theorem upload_url_folder (user_upn folder_path filename : string) :
  upload_url user_upn (Str.strip_by is_slash folder_path) filename
  = upload_url user_upn folder_path filename
  /\ upload_url user_upn ("/" ++ folder_path ++ "/") filename
     = upload_url user_upn folder_path filename
  /\ (upload_url user_upn folder_path filename = root_url user_upn filename
      <-> Str.all is_slash folder_path = true)
  /\ (Str.all is_slash folder_path = false ->
      upload_url user_upn folder_path filename
      = "https://graph.microsoft.com/v1.0/users/" ++ user_upn ++ "/drive/root:/"
        ++ Str.strip_by is_slash folder_path ++ "/" ++ filename ++ ":/content"
      /\ Str.startswith (Str.strip_by is_slash folder_path) "/" = false
      /\ Str.endswith (Str.strip_by is_slash folder_path) "/" = false).
Proof.
  assert (N : Str.all is_slash folder_path = false ->
              upload_url user_upn folder_path filename
              = "https://graph.microsoft.com/v1.0/users/" ++ user_upn ++ "/drive/root:/"
                ++ Str.strip_by is_slash folder_path ++ "/" ++ filename ++ ":/content").
  { intros A. unfold upload_url.
    destruct (stripped_ends is_slash folder_path A) as [(c & r & E & _) _].
    rewrite E. reflexivity. }
  split; [|split; [|split]].
  - unfold upload_url. now rewrite strip_by_idem.
  - unfold upload_url. change ("/" ++ folder_path ++ "/")
      with (String "/" (folder_path ++ String "/" "")).
    now rewrite strip_by_wrapped.
  - split.
    + intros H. destruct (Str.all is_slash folder_path) eqn:A; [reflexivity|exfalso].
      rewrite (N eq_refl) in H. unfold root_url in H.
      apply append_inj_l, append_inj_l, append_inj_l in H.
      apply (f_equal String.length) in H.
      rewrite !length_app in H. simpl in H.
      destruct (stripped_ends is_slash folder_path A) as [(c & r & E & _) _].
      rewrite E in H. simpl in H. lia.
    + intros A. unfold upload_url, root_url.
      apply strip_by_empty_iff in A. now rewrite A.
  - intros A. split; [exact (N A)|].
    destruct (stripped_ends is_slash folder_path A) as [(c & r & E & Hc) (x & c' & E' & Hc')].
    split.
    + rewrite E. unfold is_slash in Hc. rewrite Ascii.eqb_sym in Hc.
      cbn [Str.startswith]. now rewrite Hc.
    + rewrite E'. unfold Str.endswith. rewrite rev_onto_app.
      unfold is_slash in Hc'. rewrite Ascii.eqb_sym in Hc'.
      cbn [Str.rev_onto Str.startswith]. now rewrite Hc'.
Qed.

Lemma upload_url_folder_witness :
  upload_url "u@rotogal.de" "/Bestellungen/Rotogal/" "A-1.pdf"
  = "https://graph.microsoft.com/v1.0/users/u@rotogal.de/drive/root:/"
    ++ "Bestellungen/Rotogal" ++ "/" ++ "A-1.pdf" ++ ":/content".
Proof.
  exact (proj1 (proj2 (proj2 (proj2
           (upload_url_folder "u@rotogal.de" "/Bestellungen/Rotogal/" "A-1.pdf"))) eq_refl)).
Defined.

(** ** The export *)

Lemma in_io_bind {A B : Type} (m : io A) (k : A -> io B) (e : event) :
  In e (fst (io_bind m k)) ->
  In e (fst m) \/ exists a, snd m = Returned a /\ In e (fst (k a)).
Proof.
  destruct m as [t [a|f]]; simpl.
  - destruct (k a) as [t' o] eqn:K. simpl. intros H.
    apply in_app_or in H. destruct H as [H|H]; [now left|].
    right. exists a. rewrite K. now split.
  - now left.
Qed.

Lemma df_display_total (order_lines : list order_line) :
  exists shown, df_display order_lines = Ok shown.
Proof.
  unfold df_display. induction (DataFrame order_lines) as [|r rs IH].
  - now exists [].
  - destruct IH as (shown & IH). cbn [mapM].
    destruct (eur_fmt_total (net_price r)) as (n & ->).
    destruct (eur_fmt_total (total r)) as (t & ->).
    cbn [bind]. rewrite IH. cbn [bind]. eauto.
Qed.

Lemma negb_false (b : bool) : negb b = false -> b = true.
Proof. now destruct b. Qed.

Ltac break_in H :=
  repeat match type of H with
         | context [match ?x with _ => _ end] =>
             match x with
             | context [match _ with _ => _ end] => fail 1
             | _ => destruct x eqn:?
             end
         end.

Ltac unfold_io H :=
  unfold graph_actions, get_graph_token, onedrive_upload_file, graph_send_mail,
    io_bind, emit, call, ret in H.

Lemma graph_actions_put (w : services) (m : meta) (g : graph_settings)
      (fn pdf u : string) (h : headers) (b : string) :
  In (requests_put u h b) (fst (graph_actions w m g fn pdf)) ->
  auto_upload g = true /\ credentials g = true
  /\ (exists t,
         acquire_token w (tenant_id g) (client_id g) (client_secret g) = Granted t
         /\ Str.truthy t = true /\ h = bearer t "application/pdf")
  /\ u = upload_url (graph_user_upn g) (onedrive_folder g) fn /\ b = pdf.
Proof.
  intros H. unfold_io H. fold (credentials g) in H.
  break_in H; cbn in H; intuition (try discriminate);
    match goal with
    | E : requests_put _ _ _ = requests_put _ _ _ |- _ => injection E as <- <- <-
    end; eauto using negb_false.
Qed.

Lemma graph_actions_post (w : services) (m : meta) (g : graph_settings)
      (fn pdf u : string) (h : headers) (j : message) :
  In (requests_post u h j) (fst (graph_actions w m g fn pdf)) ->
  auto_email g = true /\ Str.truthy (Str.strip (email_to g)) = true
  /\ credentials g = true
  /\ (exists t,
         acquire_token w (tenant_id g) (client_id g) (client_secret g) = Granted t
         /\ Str.truthy t = true /\ h = bearer t "application/json")
  /\ u = "https://graph.microsoft.com/v1.0/users/" ++ graph_user_upn g ++ "/sendMail"
  /\ toRecipients j = to_list (email_to g)
  /\ subject j = "Order " ++ order_no m
  /\ attachments j
     = if Str.truthy pdf
       then Some [{| odata_type := "#microsoft.graph.fileAttachment";
                     name := fn;
                     contentType := "application/pdf";
                     contentBytes := b64encode w pdf |}]
       else None.
Proof.
  intros H. unfold_io H. fold (credentials g) in H.
  break_in H; cbn in H; intuition (try discriminate);
    match goal with
    | E : requests_post _ _ _ = requests_post _ _ _ |- _ => injection E as <- <- <-
    end;
    repeat match goal with
           | E : _ && _ = true |- _ => apply andb_true_iff in E; destruct E
           end;
    cbn [toRecipients subject attachments];
    eauto using negb_false.
Qed.

Lemma lift_trace {A : Type} (r : result A) : fst (lift r) = [].
Proof. now destruct r. Qed.

Lemma call_trace {A : Type} (o : option A) : fst (call o) = [].
Proof. now destruct o. Qed.

Lemma lift_returned {A : Type} (r : result A) (a : A) :
  snd (lift r) = Returned a -> r = Ok a.
Proof. destruct r; simpl; congruence. Qed.

Lemma call_returned {A : Type} (o : option A) (a : A) :
  snd (call o) = Returned a -> o = Some a.
Proof. destruct o; simpl; congruence. Qed.

Lemma overview_request (w : services) (m : meta) (g : graph_settings) (clear : bool)
      (order_lines : list order_line) (e : event) :
  is_request e = true ->
  In e (trace (overview w m g clear order_lines)) ->
  exists d pdf,
    build_pdf m (DataFrame (fst (overview w m g clear order_lines))) = Ok d
    /\ doc_build w d = Some pdf
    /\ In e (fst (graph_actions w m g (auto_filename (order_no m)) pdf)).
Proof.
  intros R H. unfold trace in H.
  destruct order_lines as [|l ls].
  - simpl in H. destruct H as [<-|[]]. discriminate R.
  - cbn [overview fst snd] in *.
    apply in_io_bind in H. rewrite lift_trace in H.
    destruct H as [[]|(shown & _ & H)].
    apply in_io_bind in H. destruct H as [[<-|[]]|(_ & _ & H)]; [discriminate R|].
    apply in_io_bind in H. destruct H as [H|(_ & _ & H)].
    { destruct clear; simpl in H; [destruct H as [<-|[]]; discriminate R|destruct H]. }
    apply in_io_bind in H. rewrite lift_trace in H.
    destruct H as [[]|(d & Hd & H)]. apply lift_returned in Hd.
    apply in_io_bind in H. rewrite call_trace in H.
    destruct H as [[]|(pdf & Hp & H)]. apply call_returned in Hp.
    apply in_io_bind in H. destruct H as [H|(_ & _ & H)].
    + exists d, pdf. repeat split; assumption.
    + simpl in H. destruct H as [<-|[]]. discriminate R.
Qed.

Lemma run_request (w : services) (m : meta) (g : graph_settings)
      (submitted : option form_input) (clear : bool)
      (order_lines : list order_line) (e : event) :
  is_request e = true ->
  In e (trace (run w m g submitted clear order_lines)) ->
  exists d pdf,
    build_pdf m (DataFrame (fst (run w m g submitted clear order_lines))) = Ok d
    /\ doc_build w d = Some pdf
    /\ In e (fst (graph_actions w m g (auto_filename (order_no m)) pdf)).
Proof.
  intros R H. unfold run in *.
  destruct submitted as [f|]; [|now apply overview_request].
  destruct (submit _ _ _ _ _) as [data|x]; [|destruct H].
  pose proof (overview_request w m g clear
                (add_line order_lines (product_name (product_type f)) data) e R) as O.
  destruct (overview w m g clear _) as [after rest].
  unfold trace in *. cbn [fst snd] in *.
  apply in_io_bind in H. destruct H as [[<-|[]]|(_ & _ & H)]; [discriminate R|].
  exact (O H).
Qed.

(** X14.  Nothing is sent without consent, credentials and a token.
    In every run, a request to upload occurs only if auto-upload is
    ticked, all four credentials are filled in and a non-empty access
    token was granted; it goes to the address made from the user, the
    folder and the derived file name, and carries the bytes of the
    document built from the session as the run leaves it.  A request
    to send mail occurs only if auto-email is ticked and the recipient
    input is not blank, under the same conditions; its recipients are
    the trimmed non-blank fields of the input and the document is
    attached under the derived file name unless its bytes are
    empty. *)
Theorem requests_need_consent (w : services) (m : meta) (g : graph_settings)
        (submitted : option form_input) (clear : bool) (order_lines : list order_line) :
  (forall u h b,
      In (requests_put u h b) (trace (run w m g submitted clear order_lines)) ->
      auto_upload g = true /\ credentials g = true
      /\ (exists t,
             acquire_token w (tenant_id g) (client_id g) (client_secret g) = Granted t
             /\ Str.truthy t = true /\ h = bearer t "application/pdf")
      /\ u = upload_url (graph_user_upn g) (onedrive_folder g) (auto_filename (order_no m))
      /\ exists d,
           build_pdf m (DataFrame (fst (run w m g submitted clear order_lines))) = Ok d
           /\ doc_build w d = Some b)
  /\ (forall u h j,
         In (requests_post u h j) (trace (run w m g submitted clear order_lines)) ->
         auto_email g = true /\ Str.truthy (Str.strip (email_to g)) = true
         /\ credentials g = true
         /\ (exists t,
                acquire_token w (tenant_id g) (client_id g) (client_secret g) = Granted t
                /\ Str.truthy t = true /\ h = bearer t "application/json")
         /\ toRecipients j = to_list (email_to g)
         /\ exists d pdf,
              build_pdf m (DataFrame (fst (run w m g submitted clear order_lines))) = Ok d
              /\ doc_build w d = Some pdf
              /\ attachments j
                 = if Str.truthy pdf
                   then Some [{| odata_type := "#microsoft.graph.fileAttachment";
                                 name := auto_filename (order_no m);
                                 contentType := "application/pdf";
                                 contentBytes := b64encode w pdf |}]
                   else None).
Proof.
  split.
  - intros u h b H.
    destruct (run_request w m g submitted clear order_lines (requests_put u h b) eq_refl H)
      as (d & pdf & Hd & Hp & Hg).
    apply graph_actions_put in Hg.
    destruct Hg as (Hu & Hc & Ht & -> & ->).
    repeat split; try assumption. exists d. now split.
  - intros u h j H.
    destruct (run_request w m g submitted clear order_lines (requests_post u h j) eq_refl H)
      as (d & pdf & Hd & Hp & Hg).
    apply graph_actions_post in Hg.
    destruct Hg as (He & Hs & Hc & Ht & _ & Hr & _ & Ha).
    repeat split; try assumption. exists d, pdf. repeat split; assumption.
Qed.

Lemma requests_need_consent_witness :
  auto_upload settings_example = true /\ credentials settings_example = true.
Proof.
  destruct (proj1 (requests_need_consent (services_answering 201) (blank_meta F.zero)
                     settings_example (Some form_example) false [])
              (upload_url (graph_user_upn settings_example)
                 (onedrive_folder settings_example) (auto_filename ""))
              (bearer "token" "application/pdf") "%PDF-1.4")
    as (H1 & H2 & _).
  - vm_compute. tauto.
  - split; assumption.
Defined.

Ltac break_goal :=
  repeat match goal with
         | |- context [match ?x with _ => _ end] =>
             match x with
             | context [match _ with _ => _ end] => fail 1
             | _ => destruct x eqn:?
             end
         end.

Lemma overview_built (w : services) (m : meta) (g : graph_settings) (clear : bool)
      (l : order_line) (ls : list order_line)
      (shown : list row) (d : document) (pdf : string) :
  df_display (l :: ls) = Ok shown ->
  build_pdf m (DataFrame (if clear then reset_lines else l :: ls)) = Ok d ->
  doc_build w d = Some pdf ->
  snd (overview w m g clear (l :: ls))
  = ((st_dataframe shown
        :: (if clear then [st_warning "All positions cleared."] else [])
        ++ fst (graph_actions w m g (auto_filename (order_no m)) pdf)
        ++ match snd (graph_actions w m g (auto_filename (order_no m)) pdf) with
           | Returned _ =>
               [st_download_button pdf (auto_filename (order_no m)) "application/pdf"]
           | Escaped _ => []
           end)%list,
     match snd (graph_actions w m g (auto_filename (order_no m)) pdf) with
     | Returned _ => Returned tt
     | Escaped f => Escaped f
     end).
Proof.
  intros Hs Hd Hp. cbn [overview snd]. rewrite Hs.
  destruct (graph_actions w m g (auto_filename (order_no m)) pdf) as [t [[]|f]] eqn:G;
    destruct clear; cbn [io_bind lift ret emit]; rewrite Hd; cbn [io_bind lift ret];
      rewrite Hp; cbn [io_bind call ret]; rewrite G; cbn [fst snd app];
        rewrite ?app_nil_r; reflexivity.
Qed.

Lemma graph_actions_returns (w : services) (m : meta) (g : graph_settings)
      (fn pdf : string) :
  answers w -> snd (graph_actions w m g fn pdf) = Returned tt.
Proof.
  intros (_ & Hput & Hpost).
  unfold graph_actions, get_graph_token, onedrive_upload_file, graph_send_mail,
    io_bind, emit, call, ret.
  break_goal; try reflexivity;
    match goal with
    | E : put _ _ _ _ = None |- _ => now apply Hput in E
    | E : post _ _ _ _ = None |- _ => now apply Hpost in E
    | _ => idtac
    end.
  all: try match goal with u : unit |- _ => destruct u end; try reflexivity.
Qed.

Lemma graph_actions_put_raises (w : services) (m : meta) (g : graph_settings)
      (fn pdf t : string) :
  auto_upload g = true -> credentials g = true ->
  acquire_token w (tenant_id g) (client_id g) (client_secret g) = Granted t ->
  Str.truthy t = true ->
  put w (upload_url (graph_user_upn g) (onedrive_folder g) fn)
      (bearer t "application/pdf") pdf = None ->
  graph_actions w m g fn pdf
  = ([requests_put (upload_url (graph_user_upn g) (onedrive_folder g) fn)
        (bearer t "application/pdf") pdf],
     Escaped LibraryError).
Proof.
  intros Hu Hc Ht Htt Hp.
  unfold graph_actions, get_graph_token, onedrive_upload_file. fold (credentials g).
  rewrite Hu, Hc, Ht, Htt. cbn [orb negb].
  unfold bearer in Hp. cbn [io_bind emit]. rewrite Hp. reflexivity.
Qed.

Lemma in_io_bind_l {A B : Type} (m : io A) (k : A -> io B) (e : event) :
  In e (fst m) -> In e (fst (io_bind m k)).
Proof.
  destruct m as [t [a|f]]; simpl; intros H; [|exact H].
  destruct (k a). simpl. apply in_or_app. now left.
Qed.

Lemma graph_actions_put_sent (w : services) (m : meta) (g : graph_settings)
      (fn pdf t : string) :
  auto_upload g = true -> credentials g = true ->
  acquire_token w (tenant_id g) (client_id g) (client_secret g) = Granted t ->
  Str.truthy t = true ->
  In (requests_put (upload_url (graph_user_upn g) (onedrive_folder g) fn)
        (bearer t "application/pdf") pdf)
     (fst (graph_actions w m g fn pdf)).
Proof.
  intros Hu Hc Ht Htt.
  unfold graph_actions, get_graph_token, onedrive_upload_file. fold (credentials g).
  rewrite Hu, Hc, Ht, Htt. cbn [orb negb].
  do 3 apply in_io_bind_l. now left.
Qed.

Lemma empty_order_built (m : meta) :
  meta_ok m = true ->
  exists d, build_pdf m (DataFrame []) = Ok d /\ item_table d = [header].
Proof.
  intros Hm.
  destruct (build_pdf_total m [] Hm eq_refl) as (d & Hd & _).
  exists d. split; [exact Hd|].
  apply build_pdf_inv in Hd.
  destruct Hd as (st & _ & _ & _ & _ & Hst & _ & _ & _ & _ & Hi & _).
  cbn in Hst. injection Hst as <-. exact Hi.
Qed.

(** X15.  The clear button empties the session, yet the same run still
    exports: with positions in the session and the button pressed, the
    session is left empty, the document is built from no lines (its
    item table is the header alone), and with auto-upload ticked,
    credentials filled in and a token granted that document is put to
    OneDrive. *)
Theorem clear_still_exports (w : services) (m : meta) (g : graph_settings)
        (spanish : bool) (es : spec_float) (order_lines : list order_line) :
  order_lines <> [] ->
  es_vat_rate_ok es = true ->
  vat_rate m = sidebar_vat_rate spanish es ->
  fst (overview w m g true order_lines) = []
  /\ In (st_warning "All positions cleared.") (trace (overview w m g true order_lines))
  /\ exists d,
       build_pdf m (DataFrame []) = Ok d
       /\ item_table d = [header]
       /\ forall pdf t,
            doc_build w d = Some pdf ->
            auto_upload g = true -> credentials g = true ->
            acquire_token w (tenant_id g) (client_id g) (client_secret g) = Granted t ->
            Str.truthy t = true ->
            In (requests_put
                  (upload_url (graph_user_upn g) (onedrive_folder g)
                     (auto_filename (order_no m)))
                  (bearer t "application/pdf") pdf)
               (trace (overview w m g true order_lines)).
Proof.
  intros Hne He Hr.
  destruct order_lines as [|l ls]; [congruence|].
  destruct (df_display_total (l :: ls)) as (shown & Hs).
  destruct (empty_order_built m (sidebar_rate_converts m spanish es He Hr))
    as (d & Hd & Hi).
  split; [reflexivity|]. split.
  - unfold trace. cbn [overview snd]. rewrite Hs.
    cbn [io_bind lift ret emit].
    destruct (io_bind (lift (build_pdf m (DataFrame reset_lines))) _) as [t o].
    cbn. auto.
  - exists d. repeat split; try assumption.
    intros pdf t Hp Hu Hc Ht Htt. unfold trace.
    rewrite (overview_built w m g true l ls shown d pdf Hs Hd Hp). cbn [fst].
    right. apply in_or_app. right. apply in_or_app. left.
    now apply graph_actions_put_sent.
Qed.

Lemma clear_still_exports_witness :
  fst (overview (services_answering 201) (blank_meta F.zero) settings_example true
         session_example) = []
  /\ In (st_warning "All positions cleared.")
        (trace (overview (services_answering 201) (blank_meta F.zero) settings_example true
                  session_example)).
Proof.
  destruct (clear_still_exports (services_answering 201) (blank_meta F.zero)
              settings_example false F.zero session_example)
    as (H1 & H2 & _).
  - discriminate.
  - reflexivity.
  - reflexivity.
  - split; assumption.
Defined.

(** X16.  Refusals and error statuses are advisory.  With positions in
    the session, a VAT rate of the sidebar and libraries that answer
    (the page builder returns bytes, the requests return a response),
    the overview runs to its end whatever the token service and the
    status codes say, and its last act is the download button for the
    bytes of the document built from the session, under the derived
    file name. *)
Theorem export_reaches_download (w : services) (m : meta) (g : graph_settings)
        (clear spanish : bool) (es : spec_float) (order_lines : list order_line) :
  order_lines <> [] ->
  answers w ->
  es_vat_rate_ok es = true ->
  vat_rate m = sidebar_vat_rate spanish es ->
  completed (overview w m g clear order_lines) = true
  /\ exists d pdf before,
       build_pdf m (DataFrame (fst (overview w m g clear order_lines))) = Ok d
       /\ doc_build w d = Some pdf
       /\ trace (overview w m g clear order_lines)
          = (before ++ [st_download_button pdf (auto_filename (order_no m))
                          "application/pdf"])%list.
Proof.
  intros Hne Ha He Hr.
  destruct order_lines as [|l ls]; [congruence|].
  destruct (df_display_total (l :: ls)) as (shown & Hs).
  destruct (form_orders_total m spanish es (if clear then reset_lines else l :: ls) He Hr)
    as (d & Hd).
  destruct (doc_build w d) as [pdf|] eqn:Hp; [|now apply (proj1 Ha) in Hp].
  pose proof (overview_built w m g clear l ls shown d pdf Hs Hd Hp) as O.
  pose proof (graph_actions_returns w m g (auto_filename (order_no m)) pdf Ha) as G.
  rewrite G in O.
  unfold completed, trace. rewrite O. cbn [fst snd]. split; [reflexivity|].
  exists d, pdf.
  exists (st_dataframe shown
            :: (if clear then [st_warning "All positions cleared."] else [])
            ++ fst (graph_actions w m g (auto_filename (order_no m)) pdf))%list.
  split; [destruct clear; exact Hd|]. split; [exact Hp|].
  cbn [app]. now rewrite <- app_assoc.
Qed.

Lemma export_reaches_download_witness :
  completed (overview (services_answering 500) (blank_meta F.zero) settings_example false
               session_example) = true.
Proof.
  refine (proj1 (export_reaches_download (services_answering 500) (blank_meta F.zero)
                   settings_example false false F.zero session_example _ _ _ _)).
  - discriminate.
  - repeat split; intros; discriminate.
  - reflexivity.
  - reflexivity.
Defined.

(** X17.  A request that raises is not advisory.  When the upload is
    due (auto-upload ticked, credentials filled in, token granted) and
    [requests.put] raises instead of answering, the exception leaves
    the overview: the run does not reach its end, no download button
    is shown for the document already built, and no mail is sent; a
    cleared session stays cleared. *)
Theorem transport_failure_aborts (w : services) (m : meta) (g : graph_settings)
        (clear : bool) (order_lines : list order_line)
        (d : document) (pdf t : string) :
  order_lines <> [] ->
  build_pdf m (DataFrame (fst (overview w m g clear order_lines))) = Ok d ->
  doc_build w d = Some pdf ->
  auto_upload g = true -> credentials g = true ->
  acquire_token w (tenant_id g) (client_id g) (client_secret g) = Granted t ->
  Str.truthy t = true ->
  put w (upload_url (graph_user_upn g) (onedrive_folder g) (auto_filename (order_no m)))
      (bearer t "application/pdf") pdf = None ->
  completed (overview w m g clear order_lines) = false
  /\ existsb is_download (trace (overview w m g clear order_lines)) = false
  /\ existsb is_post (trace (overview w m g clear order_lines)) = false
  /\ fst (overview w m g clear order_lines) = (if clear then [] else order_lines).
Proof.
  intros Hne Hd Hp Hu Hc Ht Htt Hput.
  destruct order_lines as [|l ls]; [congruence|].
  destruct (df_display_total (l :: ls)) as (shown & Hs).
  cbn [overview fst] in Hd.
  pose proof (overview_built w m g clear l ls shown d pdf Hs Hd Hp) as O.
  rewrite (graph_actions_put_raises w m g _ pdf t Hu Hc Ht Htt Hput) in O.
  unfold completed, trace. rewrite O. cbn [fst snd].
  destruct clear; repeat split; reflexivity.
Qed.

Lemma transport_failure_aborts_witness :
  completed (overview services_unreachable (blank_meta F.zero) settings_example false
               session_example) = false
  /\ existsb is_download
       (trace (overview services_unreachable (blank_meta F.zero) settings_example false
                 session_example)) = false.
Proof.
  destruct (build_pdf (blank_meta F.zero) (DataFrame session_example)) as [d|x] eqn:B;
    [|vm_compute in B; discriminate B].
  destruct (transport_failure_aborts services_unreachable (blank_meta F.zero)
              settings_example false session_example d "%PDF-1.4" "token")
    as (H1 & H2 & _); try reflexivity.
  - discriminate.
  - exact B.
  - split; assumption.
Defined.

(** ** The session *)

Lemma submit_form_made (p : product) (widget : field -> string) (remark : string)
      (qty : Z) (price : spec_float) (data : line_data) :
  submit (PRODUCT_TYPES p) widget remark qty price = Ok data ->
  form_made {| Product_group := product_name p; line := data |}.
Proof.
  unfold submit. intros H. apply bind_ok in H. destruct H as (q & Hq & H).
  injection H as <-. exists p. cbn.
  split; [reflexivity|]. split.
  - rewrite map_map. cbn. apply map_id.
  - exists q. now split.
Qed.

Lemma overview_session (w : services) (m : meta) (g : graph_settings) (clear : bool)
      (order_lines : list order_line) :
  fst (overview w m g clear order_lines) = order_lines
  \/ fst (overview w m g clear order_lines) = [].
Proof. destruct order_lines; [now left|]. destruct clear; [now right|now left]. Qed.

Lemma run_keeps_form_made (w : services) (m : meta) (g : graph_settings)
      (submitted : option form_input) (clear : bool) (order_lines : list order_line) :
  Forall form_made order_lines ->
  Forall form_made (fst (run w m g submitted clear order_lines)).
Proof.
  intros F. unfold run.
  destruct submitted as [f|].
  - destruct (submit _ _ _ _ _) as [data|x] eqn:S; [|exact F].
    apply submit_form_made in S.
    pose proof (overview_session w m g clear
                  (add_line order_lines (product_name (product_type f)) data)) as O.
    destruct (overview w m g clear _) as [after rest]. cbn [fst] in *.
    destruct O as [-> | ->]; [|constructor].
    unfold add_line. apply Forall_app. split; [exact F|]. now constructor.
  - destruct (overview_session w m g clear order_lines) as [-> | ->];
      [exact F|constructor].
Qed.

Lemma lookup_in (f : field) (vs : list (field * string)) :
  lookup f vs <> None -> In f (List.map fst vs).
Proof.
  induction vs as [|[g s] vs IH]; simpl; [congruence|].
  destruct (field_eqb f g) eqn:E; intros H.
  - left. destruct f, g; try discriminate E; reflexivity.
  - right. now apply IH.
Qed.

(** X18.  Every session the script can reach holds only lines as the
    form makes them: the group is one of the four product groups, the
    attribute keys are that group's fields, and the total is the unit
    price times the quantity in floating point.  In particular a
    drain is recorded for Bins only. *)
Theorem session_invariant (order_lines : list order_line) :
  reachable order_lines ->
  Forall form_made order_lines
  /\ Forall (fun l => lookup Drain (values (line l)) <> None -> Product_group l = "Bins")
            order_lines.
Proof.
  intros R.
  assert (F : Forall form_made order_lines).
  { induction R as [|w m g submitted clear order_lines _ IH]; [constructor|].
    now apply run_keeps_form_made. }
  split; [exact F|].
  eapply Forall_impl; [|exact F].
  intros l (p & Hg & Hv & _) Hd. apply lookup_in in Hd. rewrite Hv in Hd.
  rewrite Hg. destruct p; simpl in Hd; intuition discriminate.
Qed.

Lemma session_invariant_witness : Forall form_made session_example.
Proof.
  exact (proj1 (session_invariant session_example
                  (reach_run (services_answering 201) (blank_meta F.zero) settings_example
                     (Some form_example) false [] reach_start))).
Defined.

(** ** Scaling twice *)

Lemma Q_truediv (a b : Q) :
  Qle_bool b 0 = false -> n_truediv a b = Ok (a / b)%Q /\ ~ (b == 0)%Q.
Proof.
  intros H. cbn [n_truediv Q_Number].
  destruct (Qeq_bool b 0) eqn:E.
  - apply Qeq_bool_eq in E.
    assert (L : Qle_bool b 0 = true) by (apply Qle_bool_iff; rewrite E; apply Qle_refl).
    congruence.
  - split; [reflexivity|]. now apply Qeq_bool_neq.
Qed.

Lemma Q_py_sum (l : list Q) : exists s, py_sum l = Ok s /\ (s == Qsum l)%Q.
Proof.
  destruct (Q_sum_from l 0%Q) as (s & Hs & E).
  exists s. split; [exact Hs|]. rewrite E. apply Qplus_0_l.
Qed.

(** X19.  On exact rationals [scale_mm] always returns, a list as long
    as its input, and scaling the result to the same target again
    changes nothing: the second result equals the first, element by
    element. *)
Theorem scale_mm_twice (ws : list Q) (T : Q) :
  exists out out',
    scale_mm ws T = Ok out
    /\ List.length out = List.length ws
    /\ scale_mm out T = Ok out'
    /\ Forall2 Qeq out' out.
Proof.
  assert (R : forall l : list Q, Forall2 Qeq l l).
  { induction l; constructor; [apply Qeq_refl|assumption]. }
  destruct (Q_py_sum ws) as (s & Hs & Es).
  rewrite (scale_mm_cases ws T s Hs).
  change (@n_leb Q Q_Number s of_int0) with (Qle_bool s 0).
  destruct (Qle_bool s 0) eqn:L.
  - exists ws, ws. split; [reflexivity|]. split; [reflexivity|].
    rewrite (scale_mm_cases ws T s Hs).
    change (@n_leb Q Q_Number s of_int0) with (Qle_bool s 0). rewrite L.
    split; [reflexivity|apply R].
  - destruct (Q_truediv T s L) as [-> Hne]. cbn [bind]. rewrite Q_mapM_mul.
    set (out := List.map (fun w => (w * (T / s))%Q) ws).
    destruct (Q_py_sum out) as (s' & Hs' & Es').
    assert (ET : (s' == T)%Q).
    { rewrite Es'. unfold out. rewrite Qsum_scaled, <- Es. field. exact Hne. }
    assert (S2 : exists out', scale_mm out T = Ok out' /\ Forall2 Qeq out' out).
    { rewrite (scale_mm_cases out T s' Hs').
      change (@n_leb Q Q_Number s' of_int0) with (Qle_bool s' 0).
      destruct (Qle_bool s' 0) eqn:L'.
      - exists out. split; [reflexivity|apply R].
      - destruct (Q_truediv T s' L') as [-> Hne']. cbn [bind]. rewrite Q_mapM_mul.
        exists (List.map (fun w => (w * (T / s'))%Q) out). split; [reflexivity|].
        generalize out. intros l. induction l as [|w r IH]; simpl; constructor; [|exact IH].
        rewrite <- ET. field. exact Hne'. }
    destruct S2 as (out' & Ho & Hq).
    exists out, out'. repeat split; [apply length_map|exact Ho|exact Hq].
Qed.
